(** * gmedygab/stock: the predictive simulation and trend-analysis engine

    A shallow embedding of [predictive_model.py] (class [PredictiveModel]) and
    [stock_analyzer.py] (class [StockAnalyzer]), with the properties of the
    specification stated and settled against it.

    Numbers.  The program computes with NumPy/pandas [float64] values.  They
    are modelled by the reals extended with the three special values of
    IEEE 754 arithmetic: rounding and overflow are idealised away (finite
    results are exact), while division by zero, [inf - inf], [0 * inf] and
    the propagation and comparison rules of [nan] are kept, because the
    program's behaviour on degenerate statistics depends on them.  Zeros are
    unsigned; a zero divisor counts as [+0.0] (every zero divisor the program
    forms is a standard deviation, a sum of absolute values or a price).
    Comparisons of reals are decided with [Rlt_dec] and [Req_dec_T]; on
    numerals the proofs evaluate them with the tactic [fl_eval].

    Libraries.  NumPy and pandas are not part of the repository; the calls
    the program makes are modelled from their documented behaviour:
    [np.std] of a Series is [Series.std(ddof=0)], [Series.std()] has
    [ddof = 1], [Series.ewm(span=s).mean()] is the adjusted mean, [np.polyfit]
    of degree 1 fits the least-squares line with a solver whose rounding is
    a parameter of the model (and raises where the solver does), and
    [np.random] is a global generator, modelled as a stream of deviates that
    the calls consume.

    Effects.  [analyze_trend] is pure and returns a [result] (a value or the
    exception raised); [generate_predictions] reads and advances the
    generator; the methods of [StockAnalyzer] read and update the analyzer
    object, its data fetcher and the generator. *)

From Stdlib Require Import String Ascii.
From Stdlib Require Import Reals Lra Lia ZArith Bool List Sorted.
From Equations Require Import Equations.
Import ListNotations.

Open Scope R_scope.

(* ================================================================== *)
(** ** float64 values *)

Module Float.

Inductive float : Type :=
| Fin (r : R)
| PInf
| NInf
| NaN.

Definition Rltb (a b : R) : bool := if Rlt_dec a b then true else false.
Definition Reqb (a b : R) : bool := if Req_dec_T a b then true else false.

Definition fopp (a : float) : float :=
  match a with
  | Fin r => Fin (- r)
  | PInf => NInf
  | NInf => PInf
  | NaN => NaN
  end.

Definition fadd (a b : float) : float :=
  match a, b with
  | NaN, _ | _, NaN => NaN
  | Fin x, Fin y => Fin (x + y)
  | PInf, NInf | NInf, PInf => NaN
  | PInf, _ | _, PInf => PInf
  | NInf, _ | _, NInf => NInf
  end.

Definition fsub (a b : float) : float := fadd a (fopp b).

(** [signed_inf r]: the infinity a positive infinity becomes when it is
    multiplied by the finite [r]; [0 * inf] is [nan]. *)
Definition signed_inf (r : R) : float :=
  if Rltb 0 r then PInf else if Rltb r 0 then NInf else NaN.

Definition fmul (a b : float) : float :=
  match a, b with
  | NaN, _ | _, NaN => NaN
  | Fin x, Fin y => Fin (x * y)
  | Fin x, PInf | PInf, Fin x => signed_inf x
  | Fin x, NInf | NInf, Fin x => signed_inf (- x)
  | PInf, PInf | NInf, NInf => PInf
  | PInf, NInf | NInf, PInf => NInf
  end.

(** NumPy scalar division: a zero divisor raises nothing (the default error
    state only warns) and gives [inf], [-inf] or, for [0/0], [nan]. *)
Definition fdiv (a b : float) : float :=
  match a, b with
  | NaN, _ | _, NaN => NaN
  | Fin x, Fin y => if Reqb y 0 then signed_inf x else Fin (x / y)
  | Fin _, (PInf | NInf) => Fin 0
  | PInf, Fin y => if Rltb y 0 then NInf else PInf
  | NInf, Fin y => if Rltb y 0 then PInf else NInf
  | (PInf | NInf), (PInf | NInf) => NaN
  end.

Definition fabs (a : float) : float :=
  match a with
  | Fin r => Fin (Rabs r)
  | PInf | NInf => PInf
  | NaN => NaN
  end.

Definition fsqrt (a : float) : float :=
  match a with
  | Fin r => if Rltb r 0 then NaN else Fin (sqrt r)
  | PInf => PInf
  | NInf | NaN => NaN
  end.

(** Comparisons; every comparison with [nan] is false. *)
Definition fltb (a b : float) : bool :=
  match a, b with
  | NaN, _ | _, NaN => false
  | Fin x, Fin y => Rltb x y
  | NInf, (Fin _ | PInf) => true
  | Fin _, PInf => true
  | _, _ => false
  end.

Definition fgtb (a b : float) : bool := fltb b a.

Definition feqb (a b : float) : bool :=
  match a, b with
  | Fin x, Fin y => Reqb x y
  | PInf, PInf | NInf, NInf => true
  | _, _ => false
  end.

Definition fleb (a b : float) : bool := fltb a b || feqb a b.

Definition isnan (a : float) : bool :=
  match a with NaN => true | _ => false end.

Definition isinf (a : float) : bool :=
  match a with PInf | NInf => true | _ => false end.

Definition is_finite (a : float) : Prop := exists r, a = Fin r.

(** Python's builtin [max(a, b)] and [min(a, b)]: the first argument is kept
    unless the second compares strictly greater (smaller). *)
Definition pymax (a b : float) : float := if fgtb b a then b else a.
Definition pymin (a b : float) : float := if fltb b a then b else a.

(** An [int] or [float] literal. *)
Definition of_Z (z : Z) : float := Fin (IZR z).
Definition of_nat (n : nat) : float := Fin (INR n).

End Float.
Export Float.

Declare Scope float_scope.
Delimit Scope float_scope with fl.
Infix "+" := fadd : float_scope.
Infix "-" := fsub : float_scope.
Infix "*" := fmul : float_scope.
Infix "/" := fdiv : float_scope.

(* ================================================================== *)
(** ** Python values: exceptions, [None] *)

Inductive exn : Type :=
| TypeError        (* subscripting [None], [polyfit] on an empty vector *)
| AttributeError   (* attribute access on [None] *)
| ValueError       (* reduction of an empty array *)
| IndexError       (* [iloc[-1]] on an empty Series *)
| LinAlgError.     (* [polyfit] when the SVD of its matrix fails *)

Inductive result (A : Type) : Type :=
| Ok (a : A)
| Raise (e : exn).
Arguments Ok {A} a.
Arguments Raise {A} e.

Definition bind {A B : Type} (m : result A) (k : A -> result B) : result B :=
  match m with
  | Ok a => k a
  | Raise e => Raise e
  end.

Notation "x <- m ;; k" := (bind m (fun x => k))
  (at level 61, m at next level, right associativity).

(* ================================================================== *)
(** ** The NumPy and pandas operations the program calls *)

Module NumPy.

Local Open Scope float_scope.

(** [np.arange(n)] as floats. *)
Definition arange (n : nat) : list float := map of_nat (seq 0 n).

(** [np.sum]; the sum of an empty array is [0.0]. *)
Definition np_sum (xs : list float) : float := fold_left fadd xs (Fin 0).

(** [np.min] and [np.max] propagate [nan] and raise on an empty array. *)
Definition np_min2 (a b : float) : float :=
  if isnan a then a else if isnan b then b else if fltb b a then b else a.
Definition np_max2 (a b : float) : float :=
  if isnan a then a else if isnan b then b else if fgtb b a then b else a.

Definition np_min (xs : list float) : result float :=
  match xs with
  | [] => Raise ValueError
  | x :: t => Ok (fold_left np_min2 t x)
  end.

Definition np_max (xs : list float) : result float :=
  match xs with
  | [] => Raise ValueError
  | x :: t => Ok (fold_left np_max2 t x)
  end.

(** [np.diff]: first differences [a[i+1] - a[i]]. *)
Fixpoint np_diff (xs : list float) : list float :=
  match xs with
  | a :: (b :: _) as t => (b - a) :: np_diff t
  | _ => []
  end.

(** Elementwise product of two arrays. *)
Definition mul_arrays (xs ys : list float) : list float :=
  map (fun p => fst p * snd p) (combine xs ys).

(** The values of an array when all of them are finite. *)
Fixpoint reals (xs : list float) : option (list R) :=
  match xs with
  | [] => Some []
  | Fin x :: t =>
    match reals t with
    | Some l => Some (x :: l)
    | None => None
    end
  | _ :: _ => None
  end.

(** The least-squares solver behind [np.polyfit] ([np.linalg.lstsq], an SVD
    in float64): [lstsq x y] is the slope it answers for the finite data
    [x], [y].  It is the least-squares slope up to the rounding of the
    solver, and this rounding is not idealised away: line 64 divides the
    slope by a volatility that can be 0, so whether the fitted slope is
    exactly 0 decides between a strength of 0 and one of 100.  The exact
    solver is [Formulas.exact_lstsq]. *)
Definition solver : Type := list R -> list R -> R.

(** [np.polyfit(x, y, 1)[0]].  NumPy rejects an empty [x], and an [x] and a
    [y] of different lengths, with a [TypeError].  It then divides each
    column of the matrix with the rows [(x_i, 1)] by its norm: when every
    [x_i] is 0, as for the single index of [np.arange(1)], that is [0/0],
    and the solver raises [LinAlgError] on the [nan] matrix, as it does on
    an [x] that is not finite.  A [y] that is not finite gives [nan]. *)
Definition polyfit_slope (lstsq : solver) (xs ys : list float) : result float :=
  match xs with
  | [] => Raise TypeError
  | _ =>
    if negb (length xs =? length ys)%nat then Raise TypeError
    else
      match reals xs with
      | None => Raise LinAlgError
      | Some rx =>
        if forallb (fun x => Reqb x 0) rx then Raise LinAlgError
        else
          match reals ys with
          | Some ry => Ok (Fin (lstsq rx ry))
          | None => Ok NaN
          end
      end
  end.

End NumPy.
Export NumPy.

Module Pandas.

Local Open Scope float_scope.

(** [Series.tail(n)]: the last [n] elements, all of them if there are fewer. *)
Definition tail {A : Type} (n : nat) (xs : list A) : list A :=
  skipn (length xs - n) xs.

(** [Series.shift(1)]: every value moves one position later; the first
    position holds [nan], the last value is dropped. *)
Definition shift1 (xs : list float) : list float :=
  match xs with
  | [] => []
  | _ => NaN :: removelast xs
  end.

(** [Series.pct_change()]: [x[t] / x[t-1] - 1], [nan] at the first position. *)
Definition pct_change (xs : list float) : list float :=
  map (fun p => fst p / snd p - Fin 1) (combine xs (shift1 xs)).

(** [Series.dropna()]. *)
Definition dropna (xs : list float) : list float :=
  filter (fun x => negb (isnan x)) xs.

(** [Series.mean()]: [nan] entries are skipped; the mean of no values is
    [0/0]. *)
Definition series_mean (xs : list float) : float :=
  let ys := dropna xs in
  np_sum ys / of_nat (length ys).

(** [Series.std(ddof=ddof)]: with [count] values after skipping [nan], the
    result is [nan] when [count <= ddof], else the square root of
    [sum((mean - x)^2) / (count - ddof)].  [Series.std()] has [ddof = 1];
    [np.std(series)] dispatches to [series.std(ddof=0)]. *)
Definition series_std (ddof : nat) (xs : list float) : float :=
  let ys := dropna xs in
  let count := length ys in
  if (count <=? ddof)%nat then NaN
  else
    let avg := np_sum ys / of_nat count in
    let sqr := map (fun x => (avg - x) * (avg - x)) ys in
    fsqrt (np_sum sqr / of_nat (count - ddof)).

(** One step of pandas' exponentially weighted mean with [adjust=True] and
    [ignore_na=False] (the defaults of [Series.ewm(span=...)]): the state is
    the running weighted average and the total weight of the old
    observations. *)
Definition ewm_step (old_wt_factor : float) (st : float * float) (cur : float)
  : float * float :=
  let '(weighted, old_wt) := st in
  let is_observation := negb (isnan cur) in
  if negb (isnan weighted) then
    let old_wt := old_wt * old_wt_factor in
    if is_observation then
      let weighted :=
        if negb (feqb weighted cur)
        then (old_wt * weighted + Fin 1 * cur) / (old_wt + Fin 1)
        else weighted in
      (weighted, old_wt + Fin 1)
    else (weighted, old_wt)
  else if is_observation then (cur, old_wt)
  else (weighted, old_wt).

(** [series.ewm(span=span).mean().iloc[-1]]: the smoothing factor is
    [alpha = 2 / (span + 1)], the weight of the past decays by [1 - alpha]. *)
Definition ewm_mean_last (span : Z) (xs : list float) : result float :=
  match xs with
  | [] => Raise IndexError
  | x :: t =>
    let alpha := Fin 2 / (of_Z span + Fin 1) in
    let old_wt_factor := Fin 1 - alpha in
    Ok (fst (fold_left (ewm_step old_wt_factor) t (x, Fin 1)))
  end.

End Pandas.
Export Pandas.

(* ================================================================== *)
(** ** Dates, data frames and the random generator *)

(** A [datetime]: the proleptic Gregorian ordinal of its date (Python's
    [date.toordinal()], day 1 is Monday 0001-01-01) and the time of day in
    microseconds. *)
Record datetime : Type := mk_datetime { ordinal : Z; time_of_day : Z }.

(** [d + timedelta(days=n)]. *)
Definition add_days (d : datetime) (n : Z) : datetime :=
  {| ordinal := (ordinal d + n)%Z; time_of_day := time_of_day d |}.

(** [d.weekday()]: Monday is 0, Saturday 5, Sunday 6. *)
Definition weekday (d : datetime) : Z := ((ordinal d + 6) mod 7)%Z.

(** The order of [datetime] values. *)
Definition dt_lt (a b : datetime) : Prop :=
  (ordinal a < ordinal b)%Z \/
  (ordinal a = ordinal b /\ time_of_day a < time_of_day b)%Z.

(** One row of the OHLC frame the data fetcher returns; the index is the date. *)
Record Row : Type := mk_row {
  date : datetime;
  open : float;
  high : float;
  low : float;
  close : float
}.

Definition DataFrame : Type := list Row.

(** [df.empty]. *)
Definition df_empty (df : DataFrame) : bool :=
  match df with [] => true | _ => false end.

(** The dictionary [generate_predictions] returns. *)
Record Batch : Type := mk_batch {
  prices : list float;
  percentage_changes : list float;
  open_prices : list float;
  high_prices : list float;
  low_prices : list float
}.

Definition empty_batch : Batch := mk_batch [] [] [] [] [].

(** The state of NumPy's global generator: the deviates it is going to hand
    out (a standard normal deviate to a [normal] call, a uniform one to a
    [random] call) and how many it has handed out. *)
Record rng : Type := mk_rng { draws : nat -> R; pos : nat }.

(** Computations that read and advance a state and may raise. *)
Definition SE (S A : Type) : Type := S -> result A * S.

Definition ret {S A : Type} (a : A) : SE S A := fun s => (Ok a, s).
Definition throw {S A : Type} (e : exn) : SE S A := fun s => (Raise e, s).
Definition bindS {S A B : Type} (m : SE S A) (k : A -> SE S B) : SE S B :=
  fun s =>
    match m s with
    | (Ok a, s') => k a s'
    | (Raise e, s') => (Raise e, s')
    end.

Notation "x <~ m ;; k" := (bindS m (fun x => k))
  (at level 61, m at next level, right associativity).

Definition gets {S A : Type} (f : S -> A) : SE S A := fun s => (Ok (f s), s).
Definition lift {S A : Type} (r : result A) : SE S A := fun s => (r, s).

(** [np.random.normal(loc, scale)]: [loc + scale * z] for the next standard
    normal deviate [z]; a negative [scale] is rejected with a [ValueError]
    ([nan] is not negative). *)
Definition random_normal (loc scale : float) : SE rng float :=
  fun g =>
    if fltb scale (Fin 0) then (Raise ValueError, g)
    else (Ok (loc + scale * Fin (draws g (pos g)))%fl,
          {| draws := draws g; pos := S (pos g) |}).

(** [np.random.random()]. *)
Definition random_random : SE rng float :=
  fun g => (Ok (Fin (draws g (pos g))), {| draws := draws g; pos := S (pos g) |}).

(* ================================================================== *)
(** ** predictive_model.py: class PredictiveModel *)

Module PredictiveModel.

Local Open Scope float_scope.

Inductive direction : Type := upward | downward | sideways | unknown.

(** The dictionary [analyze_trend] returns; the two entries of
    ['momentum_indicators'] are the fields [rsi] and [macd]. *)
Record Trend : Type := mk_trend {
  trend_direction : direction;
  strength : float;
  support_level : float;
  resistance_level : float;
  rsi : float;
  macd : float
}.

Definition neutral_trend : Trend :=
  mk_trend unknown (of_Z 0) (of_Z 0) (of_Z 0) (of_Z 50) (of_Z 0).

(** [historical_data['close']] and the other columns. *)
Definition col_close (df : DataFrame) : list float := map close df.
Definition col_open (df : DataFrame) : list float := map open df.

(** [prediction_data['prices']]; subscripting [None] raises. *)
Definition getitem_prices (prediction_data : option Batch) : result (list float) :=
  match prediction_data with
  | None => Raise TypeError
  | Some b => Ok (prices b)
  end.

Definition is_empty {A : Type} (xs : list A) : bool :=
  match xs with [] => true | _ => false end.

(** The strength of a predicted slope against the historical volatility,
    lines 64 and 65. *)
Definition trend_strength (pred_slope hist_volatility : float) : float :=
  let norm_pred_slope := fabs pred_slope / (hist_volatility * of_Z 10) in
  pymin (of_Z 100) (pymax (of_Z 0) (norm_pred_slope * of_Z 100)).

(** The "simple RSI" of lines 73 to 81 over an array of closes. *)
Definition simple_rsi (closes : list float) : float :=
  let diff := np_diff closes in
  let gains := np_sum (filter (fun d => fgtb d (of_Z 0)) diff) in
  let losses := fabs (np_sum (filter (fun d => fltb d (of_Z 0)) diff)) in
  if feqb losses (of_Z 0) then of_Z 100
  else
    let rs := gains / losses in
    of_Z 100 - of_Z 100 / (of_Z 1 + rs).

Definition analyze_trend (lstsq : solver)
    (historical_data : option DataFrame) (prediction_data : option Batch)
  : result Trend :=
  match historical_data with
  | None => Ok neutral_trend
  | Some df =>
    if df_empty df then Ok neutral_trend
    else
      pr <- getitem_prices prediction_data ;;
      if is_empty pr then Ok neutral_trend
      else
        let recent_closes := tail 20 (col_close df) in
        let predicted_closes := pr in
        let x_hist := arange (length recent_closes) in
        let x_pred := arange (length predicted_closes) in
        hist_slope <- polyfit_slope lstsq x_hist recent_closes ;;
        pred_slope <- polyfit_slope lstsq x_pred predicted_closes ;;
        let trend_direction :=
          if fgtb pred_slope (Fin (1 / 1000)) then upward
          else if fltb pred_slope (Fin (- (1 / 1000))) then downward
          else sideways in
        let hist_volatility :=
          series_std 0 (dropna (pct_change (col_close df))) in
        let strength := trend_strength pred_slope hist_volatility in
        min_recent <- np_min recent_closes ;;
        min_pred <- np_min predicted_closes ;;
        let support_level := pymin min_recent min_pred * Fin (98 / 100) in
        max_recent <- np_max recent_closes ;;
        max_pred <- np_max predicted_closes ;;
        let resistance_level := pymax max_recent max_pred * Fin (102 / 100) in
        let rsi := simple_rsi (recent_closes ++ predicted_closes) in
        ema12 <- ewm_mean_last 12 (col_close df) ;;
        ema26 <- ewm_mean_last 26 (col_close df) ;;
        let macd := ema12 - ema26 in
        Ok (mk_trend trend_direction strength support_level resistance_level
              rsi macd)
  end.

(** The statistics [generate_predictions] takes from the history, lines 121
    to 131. *)
Record Stats : Type := mk_stats {
  mean_return : float;
  volatility : float;
  mean_high_low_ratio : float;
  mean_open_close_diff : float
}.

Definition history_stats (df : DataFrame) : Stats :=
  let historical_returns := dropna (pct_change (col_close df)) in
  let high_low_ratio := map (fun r => (high r - low r) / close r) df in
  let open_close_diff :=
    map (fun p => (fst p - snd p) / snd p)
        (combine (col_open df) (shift1 (col_close df))) in
  {| mean_return := series_mean historical_returns;
     volatility := series_std 1 historical_returns;
     mean_high_low_ratio := series_mean high_low_ratio;
     mean_open_close_diff := series_mean (dropna open_close_diff) |}.

(** The five lists being built and [last_price]. *)
Record LoopState : Type := mk_loop {
  acc : Batch;
  last_price : float
}.

(** The prices of one simulated day from the three draws of the loop body. *)
Record Point : Type := mk_point {
  pt_change : float;
  pt_close : float;
  pt_open : float;
  pt_high : float;
  pt_low : float;
  pt_range : float
}.

(** One iteration of the loop of lines 142 to 168. *)
Definition loop_body (s : Stats) (st : LoopState) : SE rng (LoopState * Point) :=
  random_factor <~ random_normal (of_Z 0) (of_Z 1) ;;
  let daily_return := mean_return s + random_factor * volatility s in
  let percentage_change := daily_return * of_Z 100 in
  let new_price := last_price st * (of_Z 1 + daily_return) in
  noise <~ random_normal (of_Z 0) (volatility s / of_Z 2) ;;
  let open_price := last_price st * (of_Z 1 + mean_open_close_diff s + noise) in
  u <~ random_random ;;
  let price_range :=
    new_price * mean_high_low_ratio s * (Fin (8 / 10) + Fin (4 / 10) * u) in
  let high_price := pymax new_price open_price + price_range / of_Z 2 in
  let low_price := pymin new_price open_price - price_range / of_Z 2 in
  let b := acc st in
  ret ({| acc :=
            {| prices := prices b ++ [new_price];
               percentage_changes := percentage_changes b ++ [percentage_change];
               open_prices := open_prices b ++ [open_price];
               high_prices := high_prices b ++ [high_price];
               low_prices := low_prices b ++ [low_price] |};
          last_price := new_price |},
       mk_point percentage_change new_price open_price high_price low_price
                price_range).

(** [for _ in range(n)]: the body runs [n] times; an exception ends the loop. *)
Fixpoint for_range (s : Stats) (n : nat) (st : LoopState) : SE rng LoopState :=
  match n with
  | O => ret st
  | S n' => r <~ loop_body s st ;; for_range s n' (fst r)
  end.

Definition generate_predictions (historical_data : option DataFrame)
    (current_price : float) (days : Z) : SE rng Batch :=
  match historical_data with
  | None => ret empty_batch
  | Some df =>
    if df_empty df then ret empty_batch
    else
      let s := history_stats df in
      st <~ for_range s (Z.to_nat days) (mk_loop empty_batch current_price) ;;
      ret (acc st)
  end.

End PredictiveModel.
Export PredictiveModel.

(* ================================================================== *)
(** ** stock_analyzer.py: class StockAnalyzer *)

Module StockAnalyzer.

(** [str.upper()] and [str.endswith(suffix)], on ASCII text: symbols are
    ticker symbols, and a character outside ASCII is left as it is. *)
Definition upper_ascii (c : ascii) : ascii :=
  let n := nat_of_ascii c in
  if ((97 <=? n) && (n <=? 122))%nat then ascii_of_nat (n - 32) else c.

Fixpoint upper (s : string) : string :=
  match s with
  | EmptyString => EmptyString
  | String c t => String (upper_ascii c) (upper t)
  end.

Definition endswith (s suffix : string) : bool :=
  let ls := String.length s in
  let lf := String.length suffix in
  if (lf <=? ls)%nat then String.eqb (substring (ls - lf) lf s) suffix
  else false.

(** The test of lines 153 and 180: assets that trade every day. *)
Definition trades_every_day (symbol : string) : bool :=
  endswith symbol ".X" || endswith symbol "-USD".

(** Weekend days still ahead of [d] before the next weekday; bounds the
    iterations of the date loop that add no date. *)
Definition weekend_ahead (d : datetime) : nat :=
  if (weekday d =? 4)%Z then 2%nat
  else if (weekday d =? 5)%Z then 1%nat else 0%nat.

(** A value together with the equation that it is the value of [x]. *)
Definition inspect {A : Type} (x : A) : {y : A | x = y} := exist _ x eq_refl.

(** The loop of lines 177 to 187 (and 150 to 160), entered with
    [current_date], [days_added] and [dates]; [n] is
    [len(predictive_data['prices'])]. *)
Equations? date_loop (symbol : string) (n : nat) (current_date : datetime)
    (days_added : nat) (dates : list datetime) : list datetime
    by wf (3 * (n - days_added) + weekend_ahead current_date)%nat lt :=
  date_loop symbol n current_date days_added dates
    with inspect (days_added <? n)%nat => {
    | exist _ false Hge := dates
    | exist _ true Hlt with inspect (trades_every_day symbol) => {
      | exist _ true Hc :=
          date_loop symbol n (add_days current_date 1) (S days_added)
                    (dates ++ [add_days current_date 1])
      | exist _ false Hc
          with inspect (weekday (add_days current_date 1) <? 5)%Z => {
        | exist _ true Hw :=
            date_loop symbol n (add_days current_date 1) (S days_added)
                      (dates ++ [add_days current_date 1])
        | exist _ false Hw :=
            date_loop symbol n (add_days current_date 1) days_added dates } } }.
Proof.
  all: apply Nat.ltb_lt in Hlt.
  all: unfold weekend_ahead, weekday, add_days in *; cbn [ordinal] in *.
  all: try apply Z.ltb_ge in Hw.
  all: repeat match goal with
         | |- context [(?a =? ?b)%Z] => destruct (Z.eqb_spec a b)
         end.
  all: try lia.
  all: exfalso; Z.div_mod_to_equations; lia.
Qed.

(** The dictionary [fetch_real_time_data] returns (the name is left out). *)
Record Quote : Type := mk_quote {
  price : float;
  price_change_percentage : float;
  previous_close : float
}.

(** The analyzer object together with what surrounds it: the answers the
    data fetcher gives (it may answer differently at each call, and [None]
    or an empty frame when the providers fail), the global random generator
    and the clock.  [generate_log] records the [days] argument of every call
    of [generate_predictions], latest first. *)
Record Analyzer : Type := mk_analyzer {
  symbol : string;
  real_time_data_cache : option Quote;
  historical_data_cache : option DataFrame;
  predictive_data_cache : option Batch;
  quote_feed : nat -> option Quote;
  quote_calls : nat;
  history_feed : nat -> option DataFrame;
  history_calls : nat;
  generator : rng;
  clock : datetime;
  generate_log : list Z
}.

(** [StockAnalyzer(symbol)]. *)
Definition init (symbol : string) (quote_feed : nat -> option Quote)
    (history_feed : nat -> option DataFrame) (g : rng) (clock : datetime)
  : Analyzer :=
  {| symbol := upper symbol;
     real_time_data_cache := None;
     historical_data_cache := None;
     predictive_data_cache := None;
     quote_feed := quote_feed; quote_calls := 0;
     history_feed := history_feed; history_calls := 0;
     generator := g; clock := clock; generate_log := [] |}.

Definition get_real_time_data : SE Analyzer (option Quote) :=
  fun a =>
    match real_time_data_cache a with
    | None =>
      let fetched := quote_feed a (quote_calls a) in
      (Ok fetched,
       {| symbol := symbol a;
          real_time_data_cache := fetched;
          historical_data_cache := historical_data_cache a;
          predictive_data_cache := predictive_data_cache a;
          quote_feed := quote_feed a; quote_calls := S (quote_calls a);
          history_feed := history_feed a; history_calls := history_calls a;
          generator := generator a; clock := clock a;
          generate_log := generate_log a |})
    | Some q => (Ok (Some q), a)
    end.

Definition get_historical_data : SE Analyzer (option DataFrame) :=
  fun a =>
    match historical_data_cache a with
    | None =>
      let fetched := history_feed a (history_calls a) in
      (Ok fetched,
       {| symbol := symbol a;
          real_time_data_cache := real_time_data_cache a;
          historical_data_cache := fetched;
          predictive_data_cache := predictive_data_cache a;
          quote_feed := quote_feed a; quote_calls := quote_calls a;
          history_feed := history_feed a; history_calls := S (history_calls a);
          generator := generator a; clock := clock a;
          generate_log := generate_log a |})
    | Some df => (Ok (Some df), a)
    end.

(** [real_time_data['price']]. *)
Definition getitem_price (real_time_data : option Quote) : SE Analyzer float :=
  match real_time_data with
  | None => throw TypeError
  | Some q => ret (price q)
  end.

(** [self._predictive_data_cache = self.predictive_model.generate_predictions(
    historical_data, current_price, days)]: the call is logged, it advances
    the generator, and its result is stored unless it raises. *)
Definition store_predictions (historical_data : option DataFrame)
    (current_price : float) (days : Z) : SE Analyzer unit :=
  fun a =>
    let '(r, g) := generate_predictions historical_data current_price days
                     (generator a) in
    let cache := match r with Ok b => Some b | Raise _ => predictive_data_cache a end in
    (match r with Ok _ => Ok tt | Raise e => Raise e end,
     {| symbol := symbol a;
        real_time_data_cache := real_time_data_cache a;
        historical_data_cache := historical_data_cache a;
        predictive_data_cache := cache;
        quote_feed := quote_feed a; quote_calls := quote_calls a;
        history_feed := history_feed a; history_calls := history_calls a;
        generator := g; clock := clock a;
        generate_log := days :: generate_log a |}).

(** The condition of lines 81 to 84; every cached batch has the key
    ['prices']. *)
Definition regenerate (cache : option Batch) (days : Z) : bool :=
  match cache with
  | None => true
  | Some b => negb (Z.of_nat (length (prices b)) =? days)%Z
  end.

Definition get_predictive_data (days : Z) : SE Analyzer (option Batch) :=
  cache <~ gets predictive_data_cache ;;
  done <~
    (if regenerate cache days then
       historical_data <~ get_historical_data ;;
       match historical_data with
       | Some df =>
         if negb (df_empty df) then
           real_time_data <~ get_real_time_data ;;
           current_price <~ getitem_price real_time_data ;;
           store_predictions historical_data current_price days
         else ret tt
       | None => ret tt
       end
     else ret tt) ;;
  gets predictive_data_cache.

Definition get_trend_analysis (lstsq : solver) (days : Z)
  : SE Analyzer Trend :=
  historical_data <~ get_historical_data ;;
  predictive_data <~ get_predictive_data days ;;
  lift (analyze_trend lstsq historical_data predictive_data).

(** The rows of the combined frame carry the column ['type']. *)
Inductive row_type : Type := historical | predictive.

Definition CombinedFrame : Type := list (Row * row_type).

(** [pd.DataFrame({'open': .., 'high': .., 'low': .., 'close': .., 'type': ..},
    index=dates)]: columns and index must all have the same length. *)
Fixpoint zip_rows (dates : list datetime) (o h l c : list float)
  : result (list Row) :=
  match dates, o, h, l, c with
  | [], [], [], [], [] => Ok []
  | d :: dates', x :: o', y :: h', z :: l', w :: c' =>
    rows <- zip_rows dates' o' h' l' c' ;;
    Ok (mk_row d x y z w :: rows)
  | _, _, _, _, _ => Raise ValueError
  end.

(** [datetime.now().replace(hour=0, minute=0, second=0, microsecond=0)]. *)
Definition midnight (d : datetime) : datetime :=
  {| ordinal := ordinal d; time_of_day := 0 |}.

Definition combine_historical_and_predictive (days : Z)
  : SE Analyzer CombinedFrame :=
  h <~ get_historical_data ;;
  historical_df <~
    match h with
    | None => throw AttributeError          (* [None.copy()] *)
    | Some df => ret (map (fun r => (r, historical)) df)
    end ;;
  predictive_data <~ get_predictive_data days ;;
  sym <~ gets symbol ;;
  dates <~
    match rev historical_df with
    | [] =>
      now <~ gets clock ;;
      let start_date := midnight now in
      pr <~ lift (getitem_prices predictive_data) ;;
      ret (date_loop sym (length pr) start_date 0 [])
    | (last_row, _) :: _ =>
      let last_date := date last_row in
      pr <~ lift (getitem_prices predictive_data) ;;
      ret (date_loop sym (length pr) last_date 0 [])
    end ;;
  predictive_df <~
    lift (match predictive_data with
          | None => Raise TypeError
          | Some b =>
            zip_rows dates (open_prices b) (high_prices b) (low_prices b)
                     (prices b)
          end) ;;
  ret (historical_df ++ map (fun r => (r, predictive)) predictive_df).

(** The value of the column ['type'] of a row of the combined frame. *)
Definition is_predictive (x : Row * row_type) : bool :=
  match snd x with predictive => true | historical => false end.
Definition is_historical (x : Row * row_type) : bool :=
  negb (is_predictive x).

(** [accepted symbol d]: the loop body appends the date [d]. *)
Definition accepted (symbol : string) (d : datetime) : bool :=
  trades_every_day symbol || (weekday d <? 5)%Z.

(** [date_chain symbol c ds]: the dates [ds] are, in order, exactly the
    accepted dates met when stepping day by day from [c] (excluded) up to the
    last of them. *)
Inductive date_chain (symbol : string) : datetime -> list datetime -> Prop :=
| chain_nil : forall c, date_chain symbol c []
| chain_cons : forall c k rest,
    (0 < k)%Z ->
    accepted symbol (add_days c k) = true ->
    (forall j, (0 < j < k)%Z -> accepted symbol (add_days c j) = false) ->
    date_chain symbol (add_days c k) rest ->
    date_chain symbol c (add_days c k :: rest).

End StockAnalyzer.
Export StockAnalyzer.

(* ================================================================== *)
(** ** Vocabulary of the statements *)

Module Spec.

Local Open Scope float_scope.

(** [a <= b] on floats (false when either is [nan]). *)
Definition fle (a b : float) : Prop := fleb a b = true.

(** The close before step [k]: [current_price] for the first step, else
    the close of step [k - 1]. *)
Definition prev_close (cp : float) (b : Batch) (k : nat) : float :=
  match k with
  | O => cp
  | S j => nth j (prices b) NaN
  end.

(** The deviate of the [i]-th draw (0, 1 or 2) of step [k] for a generator
    that was in state [g] when the loop started. *)
Definition deviate (g : rng) (k i : nat) : float :=
  Fin (draws g (pos g + 3 * k + i)).

(** The daily return of step [k]: [mean_return + random_factor * volatility]. *)
Definition daily_return_at (s : Stats) (g : rng) (k : nat) : float :=
  mean_return s + deviate g k 0 * volatility s.

(** The price range of step [k]:
    [new_price * mean_high_low_ratio * (0.8 + 0.4 * u)]. *)
Definition price_range_at (s : Stats) (g : rng) (b : Batch) (k : nat) : float :=
  nth k (prices b) NaN * mean_high_low_ratio s
  * (Fin (8 / 10) + Fin (4 / 10) * deviate g k 2).

(** Point [k] of the batch [b] is what iteration [k] of the loop computes
    from the close before it and its three deviates. *)
Definition point_computed (s : Stats) (g : rng) (cp : float) (b : Batch)
    (k : nat) : Prop :=
  let new_price := nth k (prices b) NaN in
  let open_price := nth k (open_prices b) NaN in
  new_price = prev_close cp b k * (of_Z 1 + daily_return_at s g k) /\
  nth k (percentage_changes b) NaN = daily_return_at s g k * of_Z 100 /\
  open_price
  = prev_close cp b k
    * (of_Z 1 + mean_open_close_diff s
       + (of_Z 0 + volatility s / of_Z 2 * deviate g k 1)) /\
  nth k (high_prices b) NaN
  = pymax new_price open_price + price_range_at s g b k / of_Z 2 /\
  nth k (low_prices b) NaN
  = pymin new_price open_price - price_range_at s g b k / of_Z 2.

(** All five lists of the batch have [m] elements. *)
Definition batch_length (b : Batch) (m : nat) : Prop :=
  length (prices b) = m /\ length (percentage_changes b) = m /\
  length (open_prices b) = m /\ length (high_prices b) = m /\
  length (low_prices b) = m.

(** The state of the loop after [m] iterations started with generator [g0]
    and [last_price = cp]. *)
Definition loop_invariant (s : Stats) (g0 : rng) (cp : float) (m : nat)
    (st : LoopState) (g : rng) : Prop :=
  g = mk_rng (draws g0) (3 * m + pos g0) /\
  batch_length (acc st) m /\
  last_price st = prev_close cp (acc st) m /\
  forall k, (k < m)%nat -> point_computed s g0 cp (acc st) k.

End Spec.
Export Spec.

(* ================================================================== *)
(** ** Formulas over the reals *)

Module Formulas.

(** Sums of real numbers. *)
Definition Rsum (l : list R) : R := fold_right Rplus 0 l.

(** The smoothing factor of a span: [alpha = 2 / (span + 1)]. *)
Definition ewm_alpha (span : Z) : R := 2 / (IZR span + 1).

(** The exponentially weighted mean at the last point of [xs] as pandas
    documents it for [adjust=True]: with [f = 1 - alpha],
    [sum_i f^i x_(t-i) / sum_i f^i] over [i = 0 .. t]. *)
Definition adjusted_ewm (span : Z) (xs : list R) : R :=
  let f := 1 - ewm_alpha span in
  Rsum (map (fun i => f ^ i * nth i (rev xs) 0) (seq 0 (length xs)))
  / Rsum (map (fun i => f ^ i) (seq 0 (length xs))).

(** The exponential moving average by the recursion
    [y_0 = x_0], [y_t = (1 - alpha) y_(t-1) + alpha x_t]. *)
Fixpoint recursive_ema_from (alpha y : R) (xs : list R) : R :=
  match xs with
  | [] => y
  | x :: t => recursive_ema_from alpha ((1 - alpha) * y + alpha * x) t
  end.

Definition recursive_ema (span : Z) (xs : list R) : R :=
  match xs with
  | [] => 0
  | x :: t => recursive_ema_from (ewm_alpha span) x t
  end.

(** Horner forms of the two sums of [adjusted_ewm]: [horner f [y0; y1; ..]]
    is [y0 + f y1 + f^2 y2 + ..] and [geom f n] is [1 + f + .. + f^(n-1)]. *)
Fixpoint horner (f : R) (ys : list R) : R :=
  match ys with
  | [] => 0
  | y :: t => y + f * horner f t
  end.

Fixpoint geom (f : R) (n : nat) : R :=
  match n with
  | O => 0
  | S n' => 1 + f * geom f n'
  end.

(** The indices [0, 1, .., n-1]. *)
Definition indices (n : nat) : list R := map INR (seq 0 n).

(** The sum of the products of corresponding elements. *)
Definition dot (xs ys : list R) : R :=
  Rsum (map (fun p => fst p * snd p) (combine xs ys)).

(** The slope of the least-squares line of [ys] against its indices:
    [(n Sxy - Sx Sy) / (n Sxx - Sx Sx)]. *)
Definition ls_slope (ys : list R) : R :=
  let n := INR (length ys) in
  let xs := indices (length ys) in
  (n * dot xs ys - Rsum xs * Rsum ys) / (n * dot xs xs - Rsum xs * Rsum xs).

(** The solver without rounding: the slope of the least-squares line of
    [ys] against [xs]. *)
Definition exact_lstsq (xs ys : list R) : R :=
  let n := INR (length xs) in
  (n * dot xs ys - Rsum xs * Rsum ys) / (n * dot xs xs - Rsum xs * Rsum xs).

(** The intercept that goes with [ls_slope], and the sum of squared
    residuals of the line [a x + b] on the points [(x_i, y_i)]. *)
Definition ls_intercept (ys : list R) : R :=
  (Rsum ys - ls_slope ys * Rsum (indices (length ys))) / INR (length ys).

Definition squared_error (a b : R) (xs ys : list R) : R :=
  Rsum (map (fun p => (snd p - (a * fst p + b)) * (snd p - (a * fst p + b)))
            (combine xs ys)).

(** The percentage changes [c_t / c_(t-1) - 1] of a series with at least two
    values. *)
Definition pct_changes (cs : list R) : list R :=
  map (fun p => snd p / fst p - 1) (combine cs (List.tl cs)).

Definition mean (xs : list R) : R := Rsum xs / INR (length xs).

(** The standard deviation with [ddof] delta degrees of freedom: the sample
    standard deviation has [ddof = 1], the population one [ddof = 0]. *)
Definition std (ddof : nat) (xs : list R) : R :=
  sqrt (Rsum (map (fun x => (x - mean xs) * (x - mean xs)) xs)
        / INR (length xs - ddof)).

(** [clamp(x, 0, 100)]. *)
Definition clamp (x : R) : R := Rmin 100 (Rmax 0 x).

(** The strength of C5 as the specification has it, with the sample
    standard deviation ... *)
Definition strength_sample (cs ps : list R) : R :=
  clamp (Rabs (ls_slope ps) / (std 1 (pct_changes cs) * 10) * 100).

(** ... and with the population standard deviation. *)
Definition strength_population (cs ps : list R) : R :=
  clamp (Rabs (ls_slope ps) / (std 0 (pct_changes cs) * 10) * 100).

End Formulas.
Export Formulas.

(* ================================================================== *)
(** ** Concrete data for the examples *)

Module Examples.

(** Friday 2024-01-05 at midnight. *)
Definition friday : datetime := mk_datetime 738890 0.

(** A row whose four prices are all [c]. *)
Definition flat_row (d : datetime) (c : R) : Row :=
  mk_row d (Fin c) (Fin c) (Fin c) (Fin c).

(** Three trading days, Wednesday to Friday, all closing at 50. *)
Definition flat_history : DataFrame :=
  [flat_row (add_days friday (-2)) 50; flat_row (add_days friday (-1)) 50;
   flat_row friday 50].

(** Closes 1, 1, 2: percentage changes 0 and 1. *)
Definition step_history : DataFrame :=
  [flat_row (add_days friday (-2)) 1; flat_row (add_days friday (-1)) 1;
   flat_row friday 2].

(** Closes 1 and 2. *)
Definition short_history : DataFrame :=
  [flat_row (add_days friday (-1)) 1; flat_row friday 2].

(** A batch of two points whose closes are [p] and [q]. *)
Definition batch2 (p q : R) : Batch :=
  mk_batch [Fin p; Fin q] [Fin 0; Fin 0] [Fin p; Fin q] [Fin p; Fin q]
           [Fin p; Fin q].

(** A generator whose every deviate is 0. *)
Definition zero_rng : rng := mk_rng (fun _ => 0) 0.

(** An analyzer that has fetched [flat_history] and holds a batch of two
    points; its fetcher would fail from now on. *)
Definition warm_analyzer (sym : string) : Analyzer :=
  {| symbol := sym;
     real_time_data_cache := Some (mk_quote (Fin 50) (Fin 0) (Fin 50));
     historical_data_cache := Some flat_history;
     predictive_data_cache := Some (batch2 50 51);
     quote_feed := fun _ => None; quote_calls := 1;
     history_feed := fun _ => None; history_calls := 1;
     generator := zero_rng; clock := friday; generate_log := [2%Z] |}.

End Examples.

(* ================================================================== *)
(** ** Further vocabulary: windows, extremes and differences of reals *)

Module Window.

(** The closes [analyze_trend] looks at: the last 20 historical closes
    followed by the predicted closes. *)
Definition window (cs ps : list R) : list R := tail 20 cs ++ ps.

(** The smallest and the largest element of [x :: l]. *)
Definition Rlist_min (x : R) (l : list R) : R := fold_left Rmin l x.
Definition Rlist_max (x : R) (l : list R) : R := fold_left Rmax l x.

(** First differences [x_(i+1) - x_i]. *)
Fixpoint Rdiff (xs : list R) : list R :=
  match xs with
  | a :: (b :: _) as t => (b - a) :: Rdiff t
  | _ => []
  end.

(** The sum of the positive differences and the absolute value of the sum
    of the negative ones, as lines 74 and 75 form them. *)
Definition gains (xs : list R) : R :=
  Rsum (filter (fun d => Rltb 0 d) (Rdiff xs)).
Definition losses (xs : list R) : R :=
  Rabs (Rsum (filter (fun d => Rltb d 0) (Rdiff xs))).

(** The arithmetic progression [p, p + d, .., p + (n - 1) d]. *)
Definition progression (p d : R) (n : nat) : list R :=
  map (fun i => p + d * INR i) (seq 0 n).

End Window.
Export Window.

(* ================================================================== *)
(** ** Further concrete data *)

Module MoreExamples.

Definition quote50 : Quote := mk_quote (Fin 50) (Fin 0) (Fin 50).

(** A fetcher that fails at the first call and answers the empty frame
    from the second call on. *)
Definition late_empty_feed (i : nat) : option DataFrame :=
  match i with
  | O => None
  | S _ => Some []
  end.

(** A new analyzer whose history fetch fails once. *)
Definition retry_analyzer : Analyzer :=
  init "aapl" (fun _ => None) late_empty_feed Examples.zero_rng Examples.friday.

(** A new analyzer whose fetcher answers a quote of 50 and the flat
    history. *)
Definition cold_analyzer (sym : string) : Analyzer :=
  init sym (fun _ => Some quote50) (fun _ => Some Examples.flat_history)
       Examples.zero_rng Examples.friday.

(** A batch of a single point closing at [p], what one day of prediction
    gives. *)
Definition batch1 (p : R) : Batch :=
  mk_batch [Fin p] [Fin 0] [Fin p] [Fin p] [Fin p].

(** Four trading days: the values of the first are missing, the other
    three close at 50. *)
Definition nan_history : DataFrame :=
  mk_row (add_days Examples.friday (-3)) NaN NaN NaN NaN
  :: Examples.flat_history.

(** A new analyzer whose fetcher has the history but no quote. *)
Definition no_quote_analyzer : Analyzer :=
  init "AAPL" (fun _ => None) (fun _ => Some Examples.flat_history)
       Examples.zero_rng Examples.friday.

End MoreExamples.

(* ================================================================== *)
(** ** portfolio_analyzer.py: class PortfolioAnalyzer, the analysis *)

Module PortfolioAnalyzer.

Local Open Scope float_scope.

(** Exceptions met in [analyze_portfolio]: a name that is bound nowhere, and
    whatever a [StockAnalyzer] call raises. *)
Inductive perr : Type :=
| NameError
| Inner (e : exn).

Inductive outcome (A : Type) : Type :=
| Done (a : A)
| Failed (e : perr).
Arguments Done {A} a.
Arguments Failed {A} e.

(** A [dict] with string keys: the keys are distinct and keep the order in
    which they were first set. *)
Fixpoint dict_get {A : Type} (k : string) (d : list (string * A)) : option A :=
  match d with
  | [] => None
  | (k', v) :: t => if String.eqb k k' then Some v else dict_get k t
  end.

Fixpoint dict_set {A : Type} (k : string) (v : A) (d : list (string * A))
  : list (string * A) :=
  match d with
  | [] => [(k, v)]
  | (k', v') :: t =>
    if String.eqb k k' then (k, v) :: t else (k', v') :: dict_set k v t
  end.

(** An entry of [stock_analysis] (the name is left out, as in [Quote]). *)
Record StockEntry : Type := mk_entry {
  quantity : float;
  current_price : float;
  current_value : float;
  predicted_price : float;
  predicted_value : float;
  predicted_change : float;
  trend : direction;
  entry_trend_strength : float;
  entry_rsi : float
}.

(** [portfolio_trends] and [trend_percentages]: one number per direction. *)
Record PerTrend (A : Type) : Type := mk_per_trend {
  of_upward : A;
  of_downward : A;
  of_sideways : A;
  of_unknown : A
}.
Arguments mk_per_trend {A}.
Arguments of_upward {A}.
Arguments of_downward {A}.
Arguments of_sideways {A}.
Arguments of_unknown {A}.

(** [portfolio_trends[d] += 1]. *)
Definition count_trend (d : direction) (c : PerTrend Z) : PerTrend Z :=
  match d with
  | upward =>
    mk_per_trend (of_upward c + 1)%Z (of_downward c) (of_sideways c)
                 (of_unknown c)
  | downward =>
    mk_per_trend (of_upward c) (of_downward c + 1)%Z (of_sideways c)
                 (of_unknown c)
  | sideways =>
    mk_per_trend (of_upward c) (of_downward c) (of_sideways c + 1)%Z
                 (of_unknown c)
  | unknown =>
    mk_per_trend (of_upward c) (of_downward c) (of_sideways c)
                 (of_unknown c + 1)%Z
  end.

(** The dictionary [analyze_portfolio] returns. *)
Record Summary : Type := mk_summary {
  total_value : float;
  total_prediction : float;
  portfolio_prediction_change : float;
  overall_trend : direction;
  trend_percentages : PerTrend float;
  stocks : list (string * StockEntry)
}.

(** What the data providers will answer to the analyzer made for each key
    of the portfolio, and the date. *)
Record Providers : Type := mk_providers {
  quotes_of : string -> nat -> option Quote;
  history_of : string -> nat -> option DataFrame;
  today : datetime
}.

(** The local variables of [analyze_portfolio] that its second loop
    updates. *)
Record Vars : Type := mk_vars {
  stock_analysis : list (string * StockEntry);
  var_total_value : float;
  var_total_prediction : float;
  portfolio_trends : PerTrend Z
}.

(** The body of the [try]: it works on one analyzer and on the local
    variables, and what it did before an exception stays done. *)
Definition PE (A : Type) : Type :=
  Analyzer * Vars -> outcome A * (Analyzer * Vars).

Definition pret {A : Type} (a : A) : PE A := fun s => (Done a, s).

Definition pbind {A B : Type} (m : PE A) (k : A -> PE B) : PE B :=
  fun s =>
    match m s with
    | (Done a, s') => k a s'
    | (Failed e, s') => (Failed e, s')
    end.

(** A method call on the analyzer. *)
Definition call {A : Type} (m : SE Analyzer A) : PE A :=
  fun s =>
    let '(r, a') := m (fst s) in
    (match r with Ok v => Done v | Raise e => Failed (Inner e) end,
     (a', snd s)).

Definition assign (f : Vars -> Vars) : PE unit :=
  fun s => (Done tt, (fst s, f (snd s))).

(** [portfolio_data[symbol]['quantity']] and
    [portfolio_data[symbol]['position_type']], lines 226 and 227: the name
    [portfolio_data] is bound neither in the method nor in the module. *)
Definition read_unbound_portfolio_data : PE (float * string) :=
  fun s => (Failed NameError, s).

(** Lines 221 to 266, the body of the [try], for the entry [key]. *)
Definition analyze_stock (lstsq : solver) (prediction_days : Z)
    (key : string) : PE unit :=
  pbind (call get_real_time_data) (fun real_time_data =>
  match real_time_data with
  | None => pret tt
  | Some q =>
    let current_price := price q in
    pbind read_unbound_portfolio_data (fun unbound =>
    let quantity := fst unbound in
    let position_type := snd unbound in
    let current_value :=
      if String.eqb position_type "Short"
      then fopp (current_price * quantity)
      else current_price * quantity in
    pbind (assign (fun v =>
             mk_vars (stock_analysis v)
                     (var_total_value v + fabs current_value)
                     (var_total_prediction v) (portfolio_trends v))) (fun _ =>
    pbind (call (get_trend_analysis lstsq prediction_days)) (fun trend_data =>
    pbind (assign (fun v =>
             mk_vars (stock_analysis v) (var_total_value v)
                     (var_total_prediction v)
                     (count_trend (trend_direction trend_data)
                                  (portfolio_trends v)))) (fun _ =>
    pbind (call (get_predictive_data prediction_days)) (fun predictive_data =>
    let generated :=
      match predictive_data with
      | Some b => negb (is_empty (prices b))
      | None => false
      end in
    let final_predicted_price :=
      match predictive_data with
      | Some b => if generated then last (prices b) NaN else current_price
      | None => current_price
      end in
    let predicted_value :=
      if generated then final_predicted_price * quantity else current_value in
    let predicted_change :=
      if generated
      then (final_predicted_price - current_price) / current_price * of_Z 100
      else of_Z 0 in
    assign (fun v =>
      mk_vars
        (dict_set key
           (mk_entry quantity current_price current_value
              final_predicted_price predicted_value predicted_change
              (trend_direction trend_data) (strength trend_data)
              (rsi trend_data))
           (stock_analysis v))
        (var_total_value v)
        (if generated then var_total_prediction v + predicted_value
         else var_total_prediction v)
        (portfolio_trends v)))))))
  end).

(** The state of the second loop: the analyzers, NumPy's global generator,
    which they all draw from, and the local variables. *)
Record Progress : Type := mk_loop {
  analyzers : list (string * Analyzer);
  random_state : rng;
  vars : Vars
}.

(** The analyzer [a] seeing the global generator [g]. *)
Definition with_generator (g : rng) (a : Analyzer) : Analyzer :=
  {| symbol := symbol a;
     real_time_data_cache := real_time_data_cache a;
     historical_data_cache := historical_data_cache a;
     predictive_data_cache := predictive_data_cache a;
     quote_feed := quote_feed a; quote_calls := quote_calls a;
     history_feed := history_feed a; history_calls := history_calls a;
     generator := g; clock := clock a; generate_log := generate_log a |}.

(** One turn of the loop of line 216: the [except] swallows every
    exception. *)
Definition analyze_item {V : Type} (lstsq : solver) (prediction_days : Z)
    (s : Progress) (item : string * V) : Progress :=
  match dict_get (fst item) (analyzers s) with
  | Some analyzer =>
    let '(_, (analyzer', vars')) :=
      analyze_stock lstsq prediction_days (fst item)
        (with_generator (random_state s) analyzer, vars s) in
    mk_loop (dict_set (fst item) analyzer' (analyzers s))
            (generator analyzer') vars'
  | None => s
  end.

(** [count / total_stocks * 100 if total_stocks > 0 else 0]. *)
Definition percentage (count total_stocks : Z) : float :=
  if (0 <? total_stocks)%Z then of_Z count / of_Z total_stocks * of_Z 100
  else of_Z 0.

(** Lines 270 to 296. *)
Definition summarize (v : Vars) : Summary :=
  let total_value := var_total_value v in
  let total_prediction := var_total_prediction v in
  let c := portfolio_trends v in
  let total_stocks :=
    (of_upward c + of_downward c + of_sideways c + of_unknown c)%Z in
  {| total_value := total_value;
     total_prediction := total_prediction;
     portfolio_prediction_change :=
       if fgtb total_value (of_Z 0)
       then (total_prediction - total_value) / total_value * of_Z 100
       else of_Z 0;
     overall_trend :=
       if (of_downward c + of_sideways c <? of_upward c)%Z then upward
       else if (of_upward c + of_sideways c <? of_downward c)%Z then downward
       else sideways;
     trend_percentages :=
       mk_per_trend (percentage (of_upward c) total_stocks)
                    (percentage (of_downward c) total_stocks)
                    (percentage (of_sideways c) total_stocks)
                    (percentage (of_unknown c) total_stocks);
     stocks := stock_analysis v |}.

(** [StockAnalyzer(symbol)] in the present surroundings. *)
Definition new_analyzer (env : Providers) (g : rng) (symbol : string)
  : Analyzer :=
  init symbol (quotes_of env symbol) (history_of env symbol) g (today env).

Section Portfolio.

(** The values of [portfolio_data]: quantities, or dictionaries with a
    quantity and a position type; [analyze_portfolio] never reads them. *)
Variable V : Type.

(** The object, with NumPy's global generator. *)
Record Portfolio : Type := mk_portfolio {
  portfolio_data : list (string * V);
  stock_analyzers : list (string * Analyzer);
  portfolio_summary : option Summary;
  np_random : rng
}.

Definition analyze_portfolio (lstsq : solver) (env : Providers)
    (prediction_days : Z) (p : Portfolio) : option Summary * Portfolio :=
  match portfolio_data p with
  | [] => (None, p)
  | _ =>
    let created :=
      fold_left
        (fun d item =>
           dict_set (fst item) (new_analyzer env (np_random p) (fst item)) d)
        (portfolio_data p) (stock_analyzers p) in
    let start :=
      mk_loop created (np_random p)
              (mk_vars [] (of_Z 0) (of_Z 0) (mk_per_trend 0%Z 0%Z 0%Z 0%Z)) in
    let final :=
      fold_left (analyze_item lstsq prediction_days) (portfolio_data p) start in
    let summary := summarize (vars final) in
    (Some summary,
     {| portfolio_data := portfolio_data p;
        stock_analyzers := analyzers final;
        portfolio_summary := Some summary;
        np_random := random_state final |})
  end.

(** [get_trend_distribution]: the values, for the labels Upward, Sideways,
    Downward. *)
Definition get_trend_distribution (p : Portfolio) : list float :=
  match portfolio_summary p with
  | None => []
  | Some s =>
    [of_upward (trend_percentages s); of_sideways (trend_percentages s);
     of_downward (trend_percentages s)]
  end.

End Portfolio.

Arguments portfolio_data {V}.
Arguments stock_analyzers {V}.
Arguments portfolio_summary {V}.
Arguments np_random {V}.
Arguments analyze_portfolio {V}.
Arguments get_trend_distribution {V}.

End PortfolioAnalyzer.

(** What [analyze_portfolio] is shown to leave behind. *)
Module PortfolioSpec.

Import PortfolioAnalyzer.

(** The summary of a portfolio in which no stock was recorded. *)
Definition nothing_recorded : Summary :=
  {| total_value := Fin 0;
     total_prediction := Fin 0;
     portfolio_prediction_change := Fin 0;
     overall_trend := sideways;
     trend_percentages := mk_per_trend (Fin 0) (Fin 0) (Fin 0) (Fin 0);
     stocks := [] |}.

(** The analyzer made for [key] has fetched no history and generated no
    prediction. *)
Definition untouched (key : string) (a : Analyzer) : Prop :=
  symbol a = upper key /\ historical_data_cache a = None /\
  predictive_data_cache a = None /\ generate_log a = [] /\
  history_calls a = 0%nat.

Definition all_untouched {V : Type} (items : list (string * V))
    (d : list (string * Analyzer)) : Prop :=
  forall key v, In (key, v) items ->
    exists a, dict_get key d = Some a /\ untouched key a.

(** Two long positions, with answers for every symbol. *)
Definition answering : Providers :=
  mk_providers (fun _ _ => Some MoreExamples.quote50)
               (fun _ _ => Some Examples.flat_history) Examples.friday.

Definition two_stocks : Portfolio (float * string) :=
  mk_portfolio (float * string)
    [("AAPL"%string, (Fin 3, "Long"%string));
     ("msft"%string, (Fin 2, "Short"%string))]
    [] None Examples.zero_rng.

End PortfolioSpec.
(* ================================================================== *)
(** * Properties *)

(** ** Missing data: the sentinels of [PredictiveModel] *)

(** C4.  On a missing ([None]) or empty history [generate_predictions]
    returns the batch of five empty lists, raising nothing and leaving the
    generator alone; on a missing or empty history (whatever the prediction
    argument, [None] included) and on an empty list of predicted prices
    [analyze_trend] returns the neutral default: direction unknown, strength
    0, support 0, resistance 0, rsi 50, macd 0. *)
Theorem C4_empty_inputs_give_sentinels :
  (forall cp days g,
      generate_predictions None cp days g = (Ok (mk_batch [] [] [] [] []), g)) /\
  (forall cp days g,
      generate_predictions (Some []) cp days g
      = (Ok (mk_batch [] [] [] [] []), g)) /\
  (forall lstsq p,
      analyze_trend lstsq None p
      = Ok (mk_trend unknown (Fin 0) (Fin 0) (Fin 0) (Fin 50) (Fin 0))) /\
  (forall lstsq p,
      analyze_trend lstsq (Some []) p
      = Ok (mk_trend unknown (Fin 0) (Fin 0) (Fin 0) (Fin 50) (Fin 0))) /\
  (forall lstsq r df pc o h l,
      analyze_trend lstsq (Some (r :: df)) (Some (mk_batch [] pc o h l))
      = Ok (mk_trend unknown (Fin 0) (Fin 0) (Fin 0) (Fin 50) (Fin 0))).
Proof.
  repeat split; intros; reflexivity.
Qed.

(** ** The facade: caching *)

Ltac unfold_monad :=
  unfold bindS, ret, gets, lift, throw, getitem_price in *; cbn [fst snd] in *.

Lemma regenerate_false_iff (cache : option Batch) (days : Z) :
  regenerate cache days = false <->
  exists b, cache = Some b /\ Z.of_nat (length (prices b)) = days.
Proof.
  unfold regenerate. destruct cache as [b|].
  - rewrite negb_false_iff, Z.eqb_eq. split.
    + intros H. exists b. split; [reflexivity | exact H].
    + intros [b' [Hb H]]. congruence.
  - split; [discriminate | intros [b [Hb _]]; discriminate].
Qed.

Lemma get_predictive_data_hit (a : Analyzer) (days : Z) (b : Batch) :
  predictive_data_cache a = Some b ->
  Z.of_nat (length (prices b)) = days ->
  get_predictive_data days a = (Ok (Some b), a).
Proof.
  intros Hc Hlen.
  assert (Hr : regenerate (predictive_data_cache a) days = false).
  { apply regenerate_false_iff. exists b. split; assumption. }
  unfold get_predictive_data. unfold_monad.
  rewrite Hr, Hc. reflexivity.
Qed.

Lemma store_predictions_log hd cp days a r a' :
  store_predictions hd cp days a = (r, a') ->
  generate_log a' = days :: generate_log a.
Proof.
  unfold store_predictions.
  destruct (generate_predictions hd cp days (generator a)) as [res g].
  intros H. inversion H. reflexivity.
Qed.

Lemma get_historical_data_log a r a' :
  get_historical_data a = (r, a') ->
  generate_log a' = generate_log a /\ symbol a' = symbol a /\
  predictive_data_cache a' = predictive_data_cache a /\
  clock a' = clock a /\
  exists h, r = Ok h /\ historical_data_cache a' = h.
Proof.
  unfold get_historical_data.
  destruct (historical_data_cache a) eqn:E; intros H; inversion H; subst;
    cbn; repeat split; eauto.
Qed.

Lemma get_real_time_data_log a r a' :
  get_real_time_data a = (r, a') ->
  generate_log a' = generate_log a /\ symbol a' = symbol a /\
  predictive_data_cache a' = predictive_data_cache a /\
  historical_data_cache a' = historical_data_cache a /\
  clock a' = clock a /\ exists q, r = Ok q.
Proof.
  unfold get_real_time_data.
  destruct (real_time_data_cache a) eqn:E; intros H; inversion H; subst;
    cbn; repeat split; eauto.
Qed.

(** Whenever a call of [get_predictive_data] invokes [generate_predictions]
    (the log grows), the cache was [None] or held a batch of another length. *)
Lemma generate_only_on_miss (a : Analyzer) (days : Z) r a' :
  get_predictive_data days a = (r, a') ->
  generate_log a' <> generate_log a ->
  generate_log a' = days :: generate_log a /\
  (predictive_data_cache a = None \/
   exists b, predictive_data_cache a = Some b /\
             Z.of_nat (length (prices b)) <> days).
Proof.
  intros Hrun Hlog.
  assert (Hmiss : regenerate (predictive_data_cache a) days = true).
  { destruct (regenerate (predictive_data_cache a) days) eqn:Hr;
      [reflexivity|].
    apply regenerate_false_iff in Hr. destruct Hr as [b [Hc Hlen]].
    rewrite (get_predictive_data_hit a days b Hc Hlen) in Hrun.
    inversion Hrun. subst. contradiction. }
  split.
  - unfold get_predictive_data in Hrun. unfold_monad.
    rewrite Hmiss in Hrun.
    destruct (get_historical_data a) as [rh a1] eqn:Eh.
    destruct (get_historical_data_log _ _ _ Eh)
      as (Hl1 & _ & _ & _ & [h [-> _]]).
    destruct h as [df|]; cbn in Hrun.
    + destruct (df_empty df); cbn in Hrun.
      * inversion Hrun. subst. congruence.
      * destruct (get_real_time_data a1) as [rq a2] eqn:Eq.
        destruct (get_real_time_data_log _ _ _ Eq)
          as (Hl2 & _ & _ & _ & _ & [q ->]).
        destruct q as [q|]; cbn in Hrun.
        -- destruct (store_predictions (Some df) (price q) days a2)
             as [rs a3] eqn:Es.
           apply store_predictions_log in Es.
           destruct rs; inversion Hrun; subst; congruence.
        -- inversion Hrun. subst. congruence.
    + inversion Hrun. subst. congruence.
  - unfold regenerate in Hmiss.
    destruct (predictive_data_cache a) as [b|]; [right | left; reflexivity].
    exists b. split; [reflexivity|].
    apply negb_true_iff, Z.eqb_neq in Hmiss. exact Hmiss.
Qed.

(** C8.  [get_predictive_data(days)] with a cached batch whose price list
    has length [days] returns that batch and leaves the whole state as it
    was: nothing is fetched, [generate_predictions] is not called (the log
    and the generator are untouched), however often the call is repeated.
    So [generate_predictions] is invoked only when the cache is [None] or
    holds a batch of another length. *)
Theorem C8_predictions_regenerated_only_on_miss (a : Analyzer) (days : Z)
    (b : Batch) :
  predictive_data_cache a = Some b ->
  Z.of_nat (length (prices b)) = days ->
  get_predictive_data days a = (Ok (Some b), a) /\
  (forall n, Nat.iter n (fun s => snd (get_predictive_data days s)) a = a) /\
  (forall n,
      generate_log (Nat.iter n (fun s => snd (get_predictive_data days s)) a)
      = generate_log a).
Proof.
  intros Hc Hlen.
  assert (Hiter : forall n,
             Nat.iter n (fun s => snd (get_predictive_data days s)) a = a).
  { induction n as [|n IH]; [reflexivity|].
    rewrite Nat.iter_succ, IH.
    rewrite (get_predictive_data_hit a days b Hc Hlen). reflexivity. }
  split; [apply get_predictive_data_hit; assumption|].
  split; [exact Hiter|].
  intros n. rewrite Hiter. reflexivity.
Qed.

(** A cached batch of two points is returned as it is when two days are
    asked for. *)
Lemma C8_predictions_regenerated_only_on_miss_witness :
  predictive_data_cache (Examples.warm_analyzer "AAPL")
  = Some (Examples.batch2 50 51) /\
  Z.of_nat (length (prices (Examples.batch2 50 51))) = 2%Z /\
  get_predictive_data 2 (Examples.warm_analyzer "AAPL")
  = (Ok (Some (Examples.batch2 50 51)), Examples.warm_analyzer "AAPL").
Proof.
  split; [reflexivity|]. split; [reflexivity|].
  apply (C8_predictions_regenerated_only_on_miss
           (Examples.warm_analyzer "AAPL") 2 (Examples.batch2 50 51)
           eq_refl eq_refl).
Defined.

(** ** The facade: missing upstream data *)

(** With no usable history (the fetcher answers [None] or an empty frame)
    [get_predictive_data] returns [None] and [get_trend_analysis] the neutral
    default; neither raises. *)
Lemma missing_history_degrades_gracefully :
  forall lstsq sym qf g clk days h,
    h = None \/ h = Some [] ->
    fst (get_predictive_data days (init sym qf (fun _ => h) g clk)) = Ok None /\
    fst (get_trend_analysis lstsq days (init sym qf (fun _ => h) g clk))
    = Ok neutral_trend.
Proof.
  intros lstsq sym qf g clk days h [-> | ->]; split; reflexivity.
Qed.

(** C2.  [combine_historical_and_predictive] does raise when the history is
    missing: on a fresh analyzer whose fetcher answers [None] the call
    [self.get_historical_data().copy()] raises [AttributeError], and when it
    answers an empty frame (what [fetch_historical_data] returns after a
    provider failure) the loop condition [len(predictive_data['prices'])]
    subscripts [None] and raises [TypeError]. *)
Theorem C2_combine_raises_on_missing_history :
  forall sym qf g clk days,
    fst (combine_historical_and_predictive days
           (init sym qf (fun _ => None) g clk)) = Raise AttributeError /\
    fst (combine_historical_and_predictive days
           (init sym qf (fun _ => Some []) g clk)) = Raise TypeError.
Proof.
  intros. split; reflexivity.
Qed.

(** ** The dates of the predictive points *)

Lemma add_days_add (c : datetime) (j k : Z) :
  add_days (add_days c j) k = add_days c (j + k).
Proof.
  unfold add_days. cbn. f_equal. lia.
Qed.

Lemma dt_lt_add_days (c : datetime) (k : Z) :
  (0 < k)%Z -> dt_lt c (add_days c k).
Proof.
  intros Hk. left. cbn. lia.
Qed.

Lemma dt_lt_trans (a b c : datetime) : dt_lt a b -> dt_lt b c -> dt_lt a c.
Proof.
  unfold dt_lt. intros [H1 | [H1 H1']] [H2 | [H2 H2']]; [left | left | left | right]; lia.
Qed.

Lemma date_chain_skip (sym : string) (c : datetime) (ds : list datetime) :
  accepted sym (add_days c 1) = false ->
  date_chain sym (add_days c 1) ds ->
  date_chain sym c ds.
Proof.
  intros Hrej Hch. inversion Hch as [c0 | c0 k rest Hk Hacc Hgap Hrest]; subst.
  - constructor.
  - rewrite add_days_add in *.
    apply chain_cons; try assumption; [lia|].
    intros j Hj. destruct (Z.eq_dec j 1) as [-> | Hne]; [exact Hrej|].
    replace j with (1 + (j - 1))%Z by lia.
    rewrite <- add_days_add. apply Hgap. lia.
Qed.

Lemma date_loop_chain (sym : string) (n : nat) (cur : datetime) (added : nat)
    (dates : list datetime) :
  (added <= n)%nat ->
  exists new,
    date_loop sym n cur added dates = dates ++ new /\
    length new = (n - added)%nat /\
    date_chain sym cur new.
Proof.
  funelim (date_loop sym n cur added dates); intros Hle;
    try rewrite <- Heqcall.
  - pose proof (proj1 (Nat.ltb_ge _ _) Hge) as Hge'. exists []. rewrite app_nil_r.
    repeat split; [simpl; lia | constructor].
  - pose proof (proj1 (Nat.ltb_lt _ _) Hlt) as Hlt'.
    destruct H as (new & Heq & Hlen & Hch); [lia|].
    exists (add_days current_date 1 :: new). rewrite Heq, <- app_assoc.
    repeat split; [simpl; lia|].
    apply chain_cons; [lia | unfold accepted; rewrite Hc; reflexivity | lia | exact Hch].
  - pose proof (proj1 (Nat.ltb_lt _ _) Hlt) as Hlt'.
    destruct H as (new & Heq & Hlen & Hch); [lia|].
    exists (add_days current_date 1 :: new). rewrite Heq, <- app_assoc.
    repeat split; [simpl; lia|].
    apply chain_cons; [lia | unfold accepted; rewrite Hw; apply orb_true_r | lia | exact Hch].
  - destruct H as (new & Heq & Hlen & Hch); [lia|].
    exists new. repeat split; try assumption.
    apply date_chain_skip; [|exact Hch].
    unfold accepted. rewrite Hc, Hw. reflexivity.
Qed.

Lemma date_chain_after (sym : string) (c : datetime) (ds : list datetime) :
  date_chain sym c ds -> Forall (dt_lt c) ds.
Proof.
  induction 1 as [c | c k rest Hk Hacc Hgap Hrest IH]; constructor.
  - apply dt_lt_add_days. exact Hk.
  - eapply Forall_impl; [|exact IH].
    intros d Hd. eapply dt_lt_trans; [|exact Hd]. apply dt_lt_add_days. exact Hk.
Qed.

Lemma date_chain_sorted (sym : string) (c : datetime) (ds : list datetime) :
  date_chain sym c ds -> StronglySorted dt_lt ds.
Proof.
  induction 1 as [c | c k rest Hk Hacc Hgap Hrest IH]; constructor.
  - exact IH.
  - eapply date_chain_after. exact Hrest.
Qed.

Lemma date_chain_accepted (sym : string) (c : datetime) (ds : list datetime) :
  date_chain sym c ds -> Forall (fun d => accepted sym d = true) ds.
Proof.
  induction 1; constructor; assumption.
Qed.

Lemma date_chain_complete (sym : string) (c : datetime) (ds : list datetime) :
  date_chain sym c ds ->
  forall j, (0 < j)%Z ->
    accepted sym (add_days c j) = true ->
    (exists d, In d ds /\ (ordinal c + j <= ordinal d)%Z) ->
    In (add_days c j) ds.
Proof.
  induction 1 as [c | c k rest Hk Hacc Hgap Hrest IH];
    intros j Hj Haccj [d [Hin Hle]].
  - destruct Hin.
  - destruct (Z.lt_trichotomy j k) as [Hlt | [-> | Hgt]].
    + rewrite Hgap in Haccj by lia. discriminate.
    + left. reflexivity.
    + right. replace j with (k + (j - k))%Z by lia.
      rewrite <- add_days_add. apply IH; [lia | | ].
      * rewrite add_days_add. replace (k + (j - k))%Z with j by lia. exact Haccj.
      * destruct Hin as [<- | Hin].
        -- cbn in Hle. lia.
        -- exists d. split; [exact Hin|]. cbn. lia.
Qed.

Lemma date_chain_every_day (sym : string) (c : datetime) (ds : list datetime) :
  trades_every_day sym = true ->
  date_chain sym c ds ->
  ds = map (fun i => add_days c (Z.of_nat (S i))) (seq 0 (length ds)).
Proof.
  intros Hall. induction 1 as [c | c k rest Hk Hacc Hgap Hrest IH].
  - reflexivity.
  - assert (k = 1%Z) as ->.
    { destruct (Z.eq_dec k 1) as [|Hne]; [assumption|].
      specialize (Hgap 1%Z ltac:(lia)). unfold accepted in Hgap.
      rewrite Hall in Hgap. discriminate. }
    cbn [length seq map]. f_equal.
    rewrite <- seq_shift, map_map. rewrite IH at 1.
    apply map_ext. intros i. rewrite add_days_add. f_equal. lia.
Qed.

Lemma store_predictions_frame hd cp days a r a' :
  store_predictions hd cp days a = (r, a') ->
  symbol a' = symbol a /\ clock a' = clock a.
Proof.
  unfold store_predictions.
  destruct (generate_predictions hd cp days (generator a)) as [res g].
  intros H. inversion H. split; reflexivity.
Qed.

Lemma get_predictive_data_frame days a r a' :
  get_predictive_data days a = (r, a') ->
  symbol a' = symbol a /\ clock a' = clock a.
Proof.
  unfold get_predictive_data. unfold_monad.
  destruct (regenerate (predictive_data_cache a) days).
  - destruct (get_historical_data a) as [rh a1] eqn:Eh.
    destruct (get_historical_data_log _ _ _ Eh)
      as (_ & Hs1 & _ & Hc1 & [h [-> _]]).
    destruct h as [df|]; cbn.
    + destruct (df_empty df); cbn.
      * intros H; inversion H; subst. split; assumption.
      * destruct (get_real_time_data a1) as [rq a2] eqn:Eq.
        destruct (get_real_time_data_log _ _ _ Eq)
          as (_ & Hs2 & _ & _ & Hc2 & [q ->]).
        destruct q as [q|]; cbn.
        -- destruct (store_predictions (Some df) (price q) days a2)
             as [rs a3] eqn:Es.
           apply store_predictions_frame in Es. destruct Es as [Hs3 Hc3].
           destruct rs; intros H; inversion H; subst; split; congruence.
        -- intros H; inversion H; subst. split; congruence.
    + intros H; inversion H; subst. split; assumption.
  - intros H; inversion H; subst. split; reflexivity.
Qed.

Lemma zip_rows_dates dates o h l c rows :
  zip_rows dates o h l c = Ok rows -> map date rows = dates.
Proof.
  revert o h l c rows.
  induction dates as [|d dates IH]; intros o h l c rows;
    destruct o, h, l, c; cbn; try discriminate.
  - intros H; inversion H; reflexivity.
  - destruct (zip_rows dates o h l c) as [rows'|e] eqn:E; cbn; [|discriminate].
    intros H; inversion H; subst. cbn. f_equal. eapply IH. exact E.
Qed.

Lemma filter_tagged_predictive (hs ps : list Row) :
  filter is_predictive
    (map (fun r => (r, historical)) hs ++ map (fun r => (r, predictive)) ps)
  = map (fun r => (r, predictive)) ps.
Proof.
  rewrite filter_app.
  replace (filter is_predictive (map (fun r => (r, historical)) hs))
    with (@nil (Row * row_type)).
  - cbn. induction ps as [|p ps IH]; [reflexivity|]. cbn. rewrite IH. reflexivity.
  - induction hs as [|x hs IH]; [reflexivity|]. cbn. exact IH.
Qed.

Lemma filter_tagged_historical (hs ps : list Row) :
  filter is_historical
    (map (fun r => (r, historical)) hs ++ map (fun r => (r, predictive)) ps)
  = map (fun r => (r, historical)) hs.
Proof.
  rewrite filter_app.
  replace (filter is_historical (map (fun r => (r, predictive)) ps))
    with (@nil (Row * row_type)).
  - rewrite app_nil_r.
    induction hs as [|x hs IH]; [reflexivity|]. cbn. rewrite IH. reflexivity.
  - induction ps as [|x ps IH]; [reflexivity|]. cbn. exact IH.
Qed.

(** What a successful call of [combine_historical_and_predictive] returns:
    the history tagged historical, then the predictive rows, dated by the
    date loop started from the last historical date (from today's midnight
    if there were no history). *)
Lemma combine_ok_inv days a cf a' :
  combine_historical_and_predictive days a = (Ok cf, a') ->
  exists df b rows,
    cf = map (fun r => (r, historical)) df ++ map (fun r => (r, predictive)) rows /\
    map date rows =
      date_loop (symbol a) (length (prices b))
        (match rev df with
         | [] => midnight (clock a)
         | last_row :: _ => date last_row
         end) 0 [].
Proof.
  unfold combine_historical_and_predictive. unfold_monad.
  destruct (get_historical_data a) as [rh a1] eqn:Eh.
  destruct (get_historical_data_log _ _ _ Eh) as (_ & Hs1 & _ & Hc1 & [h [-> _]]).
  destruct h as [df|]; cbn -[get_predictive_data date_loop].
 2:{ intros H; inversion H. }
  destruct (get_predictive_data days a1) as [rp a2] eqn:Ep.
  destruct (get_predictive_data_frame _ _ _ _ Ep) as [Hs2 Hc2].
  destruct rp as [pd|e]; [|intros H; inversion H].
  rewrite <- map_rev.
  destruct pd as [b|].
  - intros H. exists df, b.
    destruct (rev df) as [|last_row rest]; cbn -[get_predictive_data date_loop] in H.
    + destruct (zip_rows _ _ _ _ _) as [rows|e] eqn:Ez in H; [|inversion H].
      inversion H; subst. exists rows. split; [reflexivity|].
      apply zip_rows_dates in Ez. rewrite Ez. congruence.
    + destruct (zip_rows _ _ _ _ _) as [rows|e] eqn:Ez in H; [|inversion H].
      inversion H; subst. exists rows. split; [reflexivity|].
      apply zip_rows_dates in Ez. rewrite Ez. congruence.
  - destruct (rev df) as [|last_row rest]; cbn -[get_predictive_data date_loop]; intros H; inversion H.
Qed.

(** C7.  In the frame [combine_historical_and_predictive] returns for a
    non-empty history, the dates of the predictive rows all lie strictly
    after the last historical date and are strictly increasing.  For a
    symbol that ends neither with ".X" nor with "-USD" none of them is a
    Saturday or Sunday and no weekday is left out between the last
    historical date and the last predictive date; for a symbol with one of
    these endings they are the consecutive calendar days that follow the
    last historical date. *)
Theorem C7_predictive_dates (a : Analyzer) (days : Z) (cf : CombinedFrame)
    (a' : Analyzer) (hist : list Row) (last_row : Row) :
  combine_historical_and_predictive days a = (Ok cf, a') ->
  map fst (filter is_historical cf) = hist ++ [last_row] ->
  let dates := map (fun x => date (fst x)) (filter is_predictive cf) in
  let last_date := date last_row in
  Forall (dt_lt last_date) dates /\
  StronglySorted dt_lt dates /\
  (trades_every_day (symbol a) = false ->
   Forall (fun d => (weekday d < 5)%Z) dates /\
   forall j,
     (0 < j)%Z ->
     (weekday (add_days last_date j) < 5)%Z ->
     (exists d, In d dates /\ (ordinal last_date + j <= ordinal d)%Z) ->
     In (add_days last_date j) dates) /\
  (trades_every_day (symbol a) = true ->
   dates = map (fun i => add_days last_date (Z.of_nat (S i)))
               (seq 0 (length dates))).
Proof.
  intros Hrun Hhist dates last_date.
  destruct (combine_ok_inv _ _ _ _ Hrun) as (df & b & rows & -> & Hdates).
  rewrite filter_tagged_historical, map_map in Hhist. cbn in Hhist.
  rewrite map_id in Hhist. subst df.
  rewrite rev_app_distr in Hdates. cbn in Hdates.
  assert (Hd : dates = map date rows).
  { unfold dates. rewrite filter_tagged_predictive, map_map. reflexivity. }
  destruct (date_loop_chain (symbol a) (length (prices b)) (date last_row) 0 [])
    as (new & Heq & _ & Hch); [lia|].
  cbn in Heq. rewrite Heq in Hdates. rewrite Hdates in Hd. clearbody dates.
  subst new. fold last_date in Hch. rewrite <- Hd in Hch.
  split; [eapply date_chain_after; exact Hch|].
  split; [eapply date_chain_sorted; exact Hch|].
  split.
  - intros Hsym. split.
    + eapply Forall_impl; [|eapply date_chain_accepted; exact Hch].
      intros d Hacc. unfold accepted in Hacc. rewrite Hsym in Hacc.
      cbn in Hacc. apply Z.ltb_lt. exact Hacc.
    + intros j Hj Hw Hex. eapply date_chain_complete; try eassumption.
      unfold accepted. apply Z.ltb_lt in Hw. rewrite Hw. apply orb_true_r.
  - intros Hsym. eapply date_chain_every_day; eassumption.
Qed.

(** With the history ending on Friday 2024-01-05, the two predictive points
    of "AAPL" are dated the following Monday and Tuesday. *)
Lemma C7_predictive_dates_witness :
  combine_historical_and_predictive 2 (Examples.warm_analyzer "AAPL")
  = (Ok (map (fun r => (r, historical)) Examples.flat_history ++
         map (fun r => (r, predictive))
           [Examples.flat_row (add_days Examples.friday 3) 50;
            Examples.flat_row (add_days Examples.friday 4) 51]),
     Examples.warm_analyzer "AAPL") /\
  Forall (dt_lt Examples.friday)
    [add_days Examples.friday 3; add_days Examples.friday 4] /\
  StronglySorted dt_lt [add_days Examples.friday 3; add_days Examples.friday 4].
Proof.
  split; [reflexivity|].
  pose proof (C7_predictive_dates (Examples.warm_analyzer "AAPL") 2
                (map (fun r => (r, historical)) Examples.flat_history ++
                 map (fun r => (r, predictive))
                   [Examples.flat_row (add_days Examples.friday 3) 50;
                    Examples.flat_row (add_days Examples.friday 4) 51])
                (Examples.warm_analyzer "AAPL")
                [Examples.flat_row (add_days Examples.friday (-2)) 50;
                 Examples.flat_row (add_days Examples.friday (-1)) 50]
                (Examples.flat_row Examples.friday 50)
                eq_refl eq_refl) as H.
  cbv zeta in H. split; [exact (proj1 H) | exact (proj1 (proj2 H))].
Defined.

(** ** Float arithmetic *)

Lemma Rltb_spec (a b : R) : reflect (a < b) (Rltb a b).
Proof.
  unfold Rltb. destruct (Rlt_dec a b); constructor; assumption.
Qed.

Lemma Reqb_spec (a b : R) : reflect (a = b) (Reqb a b).
Proof.
  unfold Reqb. destruct (Req_dec_T a b); constructor; assumption.
Qed.

(** Decide every comparison of reals in the goal and close the impossible
    branches by linear arithmetic. *)
Ltac Rdecide :=
  repeat match goal with
    | |- context [Rltb ?a ?b] => destruct (Rltb_spec a b); try lra
    | |- context [Reqb ?a ?b] => destruct (Reqb_spec a b); try lra
    | H : context [Rltb ?a ?b] |- _ => destruct (Rltb_spec a b); try lra
    | H : context [Reqb ?a ?b] |- _ => destruct (Reqb_spec a b); try lra
    end.

Lemma standard_normal_draw (z : R) :
  (of_Z 0 + of_Z 1 * Fin z)%fl = Fin z.
Proof.
  cbn. f_equal. lra.
Qed.

Lemma fsqrt_half_not_negative (x : float) :
  fltb (fsqrt x / of_Z 2)%fl (Fin 0) = false.
Proof.
  destruct x as [r| | |]; cbn; try reflexivity.
  - destruct (Rltb_spec r 0); cbn; [reflexivity|].
    destruct (Reqb_spec 2 0); [lra|]. cbn.
    pose proof (sqrt_pos r). destruct (Rltb_spec (sqrt r / 2) 0); [lra | reflexivity].
  - destruct (Rltb_spec 2 0); [lra | reflexivity].
Qed.

Lemma series_std_half_not_negative (ddof : nat) (xs : list float) :
  fltb (series_std ddof xs / of_Z 2)%fl (Fin 0) = false.
Proof.
  unfold series_std. destruct (_ <=? _)%nat.
  - reflexivity.
  - apply fsqrt_half_not_negative.
Qed.

(** ** The simulation loop *)

Lemma random_normal_standard (g : rng) :
  random_normal (of_Z 0) (of_Z 1) g
  = (Ok (Fin (draws g (pos g))), mk_rng (draws g) (S (pos g))).
Proof.
  unfold random_normal. cbn. destruct (Rltb_spec 1 0); [lra|].
  rewrite <- (standard_normal_draw (draws g (pos g))). reflexivity.
Qed.

(** The loop body never raises when the volatility is a standard deviation;
    it draws three deviates and appends one value to each list. *)
Lemma loop_body_runs (s : Stats) (st : LoopState) (g : rng) :
  fltb (volatility s / of_Z 2)%fl (Fin 0) = false ->
  exists st' pt,
    loop_body s st g = (Ok (st', pt), mk_rng (draws g) (3 + pos g)) /\
    last_price st' = pt_close pt /\
    prices (acc st') = prices (acc st) ++ [pt_close pt] /\
    percentage_changes (acc st') = percentage_changes (acc st) ++ [pt_change pt] /\
    open_prices (acc st') = open_prices (acc st) ++ [pt_open pt] /\
    high_prices (acc st') = high_prices (acc st) ++ [pt_high pt] /\
    low_prices (acc st') = low_prices (acc st) ++ [pt_low pt] /\
    let dr := (mean_return s + Fin (draws g (pos g)) * volatility s)%fl in
    let range :=
      (pt_close pt * mean_high_low_ratio s
       * (Fin (8 / 10) + Fin (4 / 10) * Fin (draws g (2 + pos g))))%fl in
    pt_close pt = (last_price st * (of_Z 1 + dr))%fl /\
    pt_change pt = (dr * of_Z 100)%fl /\
    pt_open pt
    = (last_price st
       * (of_Z 1 + mean_open_close_diff s
          + (of_Z 0 + volatility s / of_Z 2 * Fin (draws g (1 + pos g)))))%fl /\
    pt_high pt = (pymax (pt_close pt) (pt_open pt) + range / of_Z 2)%fl /\
    pt_low pt = (pymin (pt_close pt) (pt_open pt) - range / of_Z 2)%fl.
Proof.
  intros Hvol. unfold loop_body, bindS.
  rewrite random_normal_standard.
  unfold random_normal at 1. cbn [draws pos]. rewrite Hvol.
  unfold random_random, ret. cbn [draws pos].
  eexists. eexists. split; [reflexivity|].
  cbn. repeat split; reflexivity.
Qed.

Lemma nth_snoc_old {A : Type} (l : list A) (x d : A) (k : nat) :
  (k < length l)%nat -> nth k (l ++ [x]) d = nth k l d.
Proof.
  intros Hk. apply app_nth1. exact Hk.
Qed.

Lemma nth_snoc_new {A : Type} (l : list A) (x d : A) (m : nat) :
  length l = m -> nth m (l ++ [x]) d = x.
Proof.
  intros <-. apply nth_middle.
Qed.

Lemma point_computed_snoc (s : Stats) (g : rng) (cp : float) (b b' : Batch)
    (m k : nat) (x1 x2 x3 x4 x5 : float) :
  batch_length b m ->
  prices b' = prices b ++ [x1] ->
  percentage_changes b' = percentage_changes b ++ [x2] ->
  open_prices b' = open_prices b ++ [x3] ->
  high_prices b' = high_prices b ++ [x4] ->
  low_prices b' = low_prices b ++ [x5] ->
  (k < m)%nat ->
  point_computed s g cp b k ->
  point_computed s g cp b' k.
Proof.
  intros (L1 & L2 & L3 & L4 & L5) E1 E2 E3 E4 E5 Hk.
  unfold point_computed, price_range_at, prev_close.
  rewrite E1, E2, E3, E4, E5.
  rewrite !nth_snoc_old by lia.
  destruct k as [|j]; [tauto|].
  rewrite !nth_snoc_old by lia. tauto.
Qed.

Lemma loop_invariant_step (s : Stats) (g0 : rng) (cp : float) (m : nat)
    (st : LoopState) (g : rng) :
  fltb (volatility s / of_Z 2)%fl (Fin 0) = false ->
  loop_invariant s g0 cp m st g ->
  exists st' pt g',
    loop_body s st g = (Ok (st', pt), g') /\
    loop_invariant s g0 cp (S m) st' g'.
Proof.
  intros Hvol (Hg & Hlen & Hlast & Hpts).
  destruct (loop_body_runs s st g Hvol)
    as (st' & pt & Hrun & Hl & E1 & E2 & E3 & E4 & E5 & F1 & F2 & F3 & F4 & F5).
  exists st', pt, (mk_rng (draws g) (3 + pos g)).
  split; [exact Hrun|].
  pose proof Hlen as (L1 & L2 & L3 & L4 & L5).
  assert (Hnew : nth m (prices (acc st')) NaN = pt_close pt).
  { rewrite E1. apply nth_snoc_new. exact L1. }
  split; [|split; [|split]].
  - subst g. cbn. f_equal. lia.
  - unfold batch_length. rewrite E1, E2, E3, E4, E5, !length_app. cbn. lia.
  - cbn [prev_close]. rewrite Hnew. exact Hl.
  - intros k Hk. destruct (Nat.eq_dec k m) as [-> | Hne].
    + assert (Hprev : prev_close cp (acc st') m = last_price st).
      { rewrite Hlast. destruct m as [|j]; [reflexivity|]. cbn [prev_close].
        rewrite E1. apply nth_snoc_old. lia. }
      unfold point_computed, price_range_at, daily_return_at, deviate.
      rewrite Hprev, Hnew.
      rewrite E2, E3, E4, E5.
      rewrite (nth_snoc_new _ _ _ m L2), (nth_snoc_new _ _ _ m L3),
        (nth_snoc_new _ _ _ m L4), (nth_snoc_new _ _ _ m L5).
      subst g. cbn [draws pos] in *.
      replace (pos g0 + 3 * m + 0)%nat with (3 * m + pos g0)%nat by lia.
      replace (pos g0 + 3 * m + 1)%nat with (1 + (3 * m + pos g0))%nat by lia.
      replace (pos g0 + 3 * m + 2)%nat with (2 + (3 * m + pos g0))%nat by lia.
      repeat split; assumption.
    + assert (Hkm : (k < m)%nat) by lia.
      apply (point_computed_snoc s g0 cp (acc st) (acc st') m k _ _ _ _ _
               Hlen E1 E2 E3 E4 E5 Hkm (Hpts k Hkm)).
Qed.

Lemma for_range_invariant (s : Stats) (g0 : rng) (cp : float) (n : nat) :
  fltb (volatility s / of_Z 2)%fl (Fin 0) = false ->
  forall m st g,
    loop_invariant s g0 cp m st g ->
    exists st' g',
      for_range s n st g = (Ok st', g') /\
      loop_invariant s g0 cp (m + n) st' g'.
Proof.
  intros Hvol. induction n as [|n IH]; intros m st g Hinv.
  - exists st, g. rewrite Nat.add_0_r. split; [reflexivity | exact Hinv].
  - destruct (loop_invariant_step s g0 cp m st g Hvol Hinv)
      as (st1 & pt & g1 & Hrun & Hinv1).
    destruct (IH (S m) st1 g1 Hinv1) as (st' & g' & Hrest & Hinv').
    exists st', g'. split.
    + cbn [for_range]. unfold bindS. rewrite Hrun. exact Hrest.
    + replace (m + S n)%nat with (S m + n)%nat by lia. exact Hinv'.
Qed.

Lemma history_volatility_half_not_negative (df : DataFrame) :
  fltb (volatility (history_stats df) / of_Z 2)%fl (Fin 0) = false.
Proof.
  apply series_std_half_not_negative.
Qed.

(** [generate_predictions] on a non-empty history runs the loop [days]
    times. *)
Lemma generate_predictions_runs (r : Row) (df : DataFrame) (cp : float)
    (days : Z) (g : rng) :
  exists b,
    generate_predictions (Some (r :: df)) cp days g
    = (Ok b, mk_rng (draws g) (3 * Z.to_nat days + pos g)) /\
    batch_length b (Z.to_nat days) /\
    forall k, (k < Z.to_nat days)%nat ->
      point_computed (history_stats (r :: df)) g cp b k.
Proof.
  destruct (for_range_invariant (history_stats (r :: df)) g cp (Z.to_nat days)
              (history_volatility_half_not_negative (r :: df))
              0%nat (mk_loop empty_batch cp) g)
    as (st' & g' & Hrun & Hg & Hlen & _ & Hpts).
  { split; [destruct g; cbn; f_equal|].
    split; [repeat split|]. split; [reflexivity|]. intros k Hk. lia. }
  exists (acc st'). cbn [Nat.add] in *. split; [|split; assumption].
  unfold generate_predictions. cbn [df_empty]. unfold bindS.
  rewrite Hrun. unfold ret. rewrite Hg. reflexivity.
Qed.

(** ** The simulated batch *)

(** C3.  For a non-empty history, any current price and [days >= 1],
    [generate_predictions] returns (it does not raise) a batch whose five
    lists, predicted closes, percentage changes, opens, highs and lows, each
    have exactly [days] elements; the lists are in chronological order: the
    close at position [k] is the close before it (the current price for
    [k = 0], else the close at position [k - 1]) times one plus the daily
    return drawn at step [k], and the percentage change at position [k] is
    that daily return times 100. *)
Theorem C3_generate_returns_days_points (r : Row) (df : DataFrame)
    (cp : float) (days : Z) (g : rng) :
  (1 <= days)%Z ->
  exists b g',
    generate_predictions (Some (r :: df)) cp days g = (Ok b, g') /\
    Z.of_nat (length (prices b)) = days /\
    Z.of_nat (length (percentage_changes b)) = days /\
    Z.of_nat (length (open_prices b)) = days /\
    Z.of_nat (length (high_prices b)) = days /\
    Z.of_nat (length (low_prices b)) = days /\
    forall k,
      (Z.of_nat k < days)%Z ->
      nth k (prices b) NaN
      = (prev_close cp b k
         * (of_Z 1 + daily_return_at (history_stats (r :: df)) g k))%fl /\
      nth k (percentage_changes b) NaN
      = (daily_return_at (history_stats (r :: df)) g k * of_Z 100)%fl.
Proof.
  intros Hdays.
  destruct (generate_predictions_runs r df cp days g)
    as (b & Hrun & (L1 & L2 & L3 & L4 & L5) & Hpts).
  exists b. eexists. split; [exact Hrun|].
  rewrite L1, L2, L3, L4, L5.
  repeat (split; [lia|]).
  intros k Hk. destruct (Hpts k ltac:(lia)) as (P1 & P2 & _).
  split; assumption.
Qed.

(** Five days from a flat history. *)
Lemma C3_generate_returns_days_points_witness :
  (1 <= 5)%Z /\
  exists b g',
    generate_predictions (Some Examples.flat_history) (Fin 50) 5
      Examples.zero_rng = (Ok b, g') /\
    Z.of_nat (length (prices b)) = 5%Z.
Proof.
  split; [lia|].
  destruct (C3_generate_returns_days_points
              (Examples.flat_row (add_days Examples.friday (-2)) 50)
              [Examples.flat_row (add_days Examples.friday (-1)) 50;
               Examples.flat_row Examples.friday 50]
              (Fin 50) 5 Examples.zero_rng ltac:(lia))
    as (b & g' & Hrun & Hlen & _).
  exists b, g'. split; [exact Hrun | exact Hlen].
Defined.

Lemma fmul_finite_inv (a b : float) (r : R) :
  (a * b)%fl = Fin r -> exists x y, a = Fin x /\ b = Fin y /\ r = x * y.
Proof.
  destruct a as [x| | |], b as [y| | |]; cbn; unfold signed_inf;
    try discriminate; Rdecide; try discriminate.
  intros H. inversion H. exists x, y. repeat split.
Qed.

Lemma fle_refl_finite (x : R) : fle (Fin x) (Fin x).
Proof.
  unfold fle, fleb. cbn. destruct (Reqb_spec x x); [|contradiction].
  apply orb_true_r.
Qed.

Lemma fle_finite (x y : R) : fle (Fin x) (Fin y) <-> x <= y.
Proof.
  unfold fle, fleb. cbn. rewrite orb_true_iff.
  destruct (Rltb_spec x y), (Reqb_spec x y); split; intros; try lra; auto.
Qed.

(** The bracket of one point: a finite close, any open, a finite
    non-negative range. *)
Lemma high_low_bracket (c : R) (o : float) (range : R) :
  0 <= range ->
  let high := (pymax (Fin c) o + Fin range / of_Z 2)%fl in
  let low := (pymin (Fin c) o - Fin range / of_Z 2)%fl in
  fle low (pymin (Fin c) o) /\ fle (pymax (Fin c) o) high /\
  (isnan o = false ->
   fle low o /\ fle low (Fin c) /\ fle o high /\ fle (Fin c) high).
Proof.
  intros Hr. cbn zeta.
  assert (H2 : (Fin range / of_Z 2)%fl = Fin (range / 2)).
  { cbn. destruct (Reqb_spec 2 0); [lra | reflexivity]. }
  rewrite H2.
  destruct o as [o| | |]; unfold pymax, pymin, fgtb; cbn [fltb].
  - destruct (Rltb_spec c o), (Rltb_spec o c); try lra; cbn;
      rewrite ?fle_finite; repeat split; intros; lra.
  - cbn. unfold fle, fleb. cbn.
    destruct (Rltb_spec (c + - (range / 2)) c), (Reqb_spec (c + - (range / 2)) c);
      repeat split; intros; try reflexivity; try lra.
  - cbn. unfold fle, fleb. cbn.
    destruct (Rltb_spec c (c + range / 2)), (Reqb_spec c (c + range / 2));
      repeat split; intros; try reflexivity; try lra.
  - cbn. rewrite !fle_finite. repeat split; try lra; discriminate.
Qed.

(** C10.  At every step [k] of [generate_predictions] whose drawn price
    range [new_price * mean_high_low_ratio * (0.8 + 0.4 u)] is (finite and)
    non-negative, the emitted low is at most [min(new_price, open_price)]
    and the emitted high at least [max(new_price, open_price)]; when the
    open is a number (not [nan]) this is [low <= open], [low <= close],
    [open <= high] and [close <= high]. *)
Theorem C10_high_low_bracket_open_close (r0 : Row) (df : DataFrame)
    (cp : float) (days : Z) (g : rng) (b : Batch) (g' : rng) (k : nat)
    (range : R) :
  generate_predictions (Some (r0 :: df)) cp days g = (Ok b, g') ->
  (k < length (prices b))%nat ->
  price_range_at (history_stats (r0 :: df)) g b k = Fin range ->
  0 <= range ->
  let close_k := nth k (prices b) NaN in
  let open_k := nth k (open_prices b) NaN in
  let high_k := nth k (high_prices b) NaN in
  let low_k := nth k (low_prices b) NaN in
  fle low_k (pymin close_k open_k) /\
  fle (pymax close_k open_k) high_k /\
  (isnan open_k = false ->
   fle low_k open_k /\ fle low_k close_k /\
   fle open_k high_k /\ fle close_k high_k).
Proof.
  intros Hrun Hk Hrange Hpos.
  destruct (generate_predictions_runs r0 df cp days g)
    as (b0 & Hrun0 & (L1 & _) & Hpts).
  rewrite Hrun in Hrun0. inversion Hrun0; subst b0.
  destruct (Hpts k ltac:(lia)) as (_ & _ & _ & Hhigh & Hlow).
  cbn zeta. rewrite Hhigh, Hlow, Hrange.
  unfold price_range_at in Hrange.
  apply fmul_finite_inv in Hrange. destruct Hrange as (x & y & Hxy & _ & _).
  apply fmul_finite_inv in Hxy. destruct Hxy as (c & m & Hc & _ & _).
  rewrite Hc. apply high_low_bracket. exact Hpos.
Qed.

(** Evaluate float operations on numerals, deciding the comparisons met. *)
Ltac fl_eval :=
  repeat (cbn -[IZR Rplus Rmult Rdiv Rminus Ropp Rinv sqrt Rabs];
          unfold signed_inf;
          Rdecide).

Lemma sqrt_of_zero (x : R) : x = 0 -> sqrt x = 0.
Proof.
  intros ->. apply sqrt_0.
Qed.

Lemma flat_history_stats :
  history_stats Examples.flat_history
  = mk_stats (Fin 0) (Fin 0) (Fin 0) (Fin 0).
Proof.
  unfold history_stats, Examples.flat_history, Examples.flat_row,
    series_mean, series_std, pct_change, dropna, np_sum, col_close, col_open,
    shift1.
  fl_eval.
  f_equal; f_equal; try lra.
  apply sqrt_of_zero. field.
Qed.

(** One day simulated from the flat history with all deviates 0: the range
    is 0 and the point is bracketed. *)
Lemma C10_high_low_bracket_open_close_witness :
  exists b g',
    generate_predictions (Some Examples.flat_history) (Fin 50) 1
      Examples.zero_rng = (Ok b, g') /\
    (0 < length (prices b))%nat /\
    price_range_at (history_stats Examples.flat_history) Examples.zero_rng b 0
    = Fin 0 /\
    0 <= 0 /\
    fle (nth 0 (low_prices b) NaN)
        (pymin (nth 0 (prices b) NaN) (nth 0 (open_prices b) NaN)) /\
    fle (pymax (nth 0 (prices b) NaN) (nth 0 (open_prices b) NaN))
        (nth 0 (high_prices b) NaN).
Proof.
  destruct (generate_predictions_runs
              (Examples.flat_row (add_days Examples.friday (-2)) 50)
              [Examples.flat_row (add_days Examples.friday (-1)) 50;
               Examples.flat_row Examples.friday 50]
              (Fin 50) 1 Examples.zero_rng)
    as (b & Hrun & (L1 & _) & Hpts).
  destruct (Hpts 0%nat ltac:(cbn; lia)) as (Hclose & _).
  fold Examples.flat_history in Hrun, Hclose.
  assert (Hrange :
            price_range_at (history_stats Examples.flat_history)
              Examples.zero_rng b 0 = Fin 0).
  { unfold price_range_at. rewrite Hclose.
    unfold daily_return_at, deviate. rewrite flat_history_stats.
    cbn. f_equal. lra. }
  assert (Hlen : (0 < length (prices b))%nat) by (rewrite L1; cbn; lia).
  assert (Hpos : 0 <= 0) by lra.
  exists b. eexists. split; [exact Hrun|].
  split; [exact Hlen|]. split; [exact Hrange|]. split; [exact Hpos|].
  pose proof (C10_high_low_bracket_open_close
                (Examples.flat_row (add_days Examples.friday (-2)) 50)
                [Examples.flat_row (add_days Examples.friday (-1)) 50;
                 Examples.flat_row Examples.friday 50]
                (Fin 50) 1 Examples.zero_rng b _ 0%nat 0
                Hrun Hlen Hrange Hpos) as H.
  cbv zeta in H. split; [exact (proj1 H) | exact (proj1 (proj2 H))].
Defined.

(** ** The trend analysis *)

Lemma tail_nonempty {A : Type} (n : nat) (x : A) (xs : list A) :
  exists y ys, tail (S n) (x :: xs) = y :: ys.
Proof.
  unfold tail.
  destruct (skipn (length (x :: xs) - S n) (x :: xs)) as [|y ys] eqn:E.
  - apply (f_equal (@length A)) in E. rewrite length_skipn in E. cbn [length] in E. lia.
  - exists y, ys. reflexivity.
Qed.

Lemma length_tail {A : Type} (n : nat) (l : list A) :
  length (tail n l) = Nat.min n (length l).
Proof.
  unfold tail. rewrite length_skipn. lia.
Qed.

(** *** The fit *)

Lemma arange_finite (n : nat) : arange n = map Fin (indices n).
Proof.
  unfold arange, indices. rewrite map_map. reflexivity.
Qed.

Lemma length_arange (n : nat) : length (arange n) = n.
Proof.
  unfold arange. rewrite length_map, length_seq. reflexivity.
Qed.

Lemma reals_finite (l : list R) : reals (map Fin l) = Some l.
Proof.
  induction l as [|x l IH]; cbn; [reflexivity|]. rewrite IH. reflexivity.
Qed.

Lemma indices_not_all_zero (n : nat) :
  (2 <= n)%nat -> forallb (fun x => Reqb x 0) (indices n) = false.
Proof.
  destruct n as [|[|n]]; try lia. intros _.
  unfold indices. cbn [seq map forallb].
  apply andb_false_iff. right. apply andb_false_iff. left.
  destruct (Reqb_spec (INR 1) 0) as [H|_]; [|reflexivity].
  cbn in H. lra.
Qed.

(** On at least two points [np.polyfit] returns: for finite values what the
    solver answers on the indices, [nan] otherwise. *)
Lemma polyfit_slope_runs (lstsq : solver) (ys : list float) :
  (2 <= length ys)%nat ->
  exists s,
    polyfit_slope lstsq (arange (length ys)) ys = Ok s /\
    forall l, ys = map Fin l -> s = Fin (lstsq (indices (length l)) l).
Proof.
  intros Hn. unfold polyfit_slope.
  destruct (arange (length ys)) as [|a l'] eqn:Ea.
  { apply (f_equal (@length float)) in Ea. rewrite length_arange in Ea.
    cbn in Ea. lia. }
  rewrite <- Ea. clear Ea a l'.
  rewrite length_arange, Nat.eqb_refl. cbn [negb].
  rewrite arange_finite, reals_finite, indices_not_all_zero by exact Hn.
  destruct (reals ys) as [ry|] eqn:Er.
  - eexists. split; [reflexivity|]. intros l ->.
    rewrite reals_finite in Er. inversion Er. subst ry.
    rewrite length_map. reflexivity.
  - eexists. split; [reflexivity|]. intros l ->.
    rewrite reals_finite in Er. discriminate.
Qed.

Lemma polyfit_slope_finite (lstsq : solver) (ys : list R) :
  (2 <= length ys)%nat ->
  polyfit_slope lstsq (arange (length ys)) (map Fin ys)
  = Ok (Fin (lstsq (indices (length ys)) ys)).
Proof.
  intros Hn.
  destruct (polyfit_slope_runs lstsq (map Fin ys)) as (s & Hs & Hl).
  { rewrite length_map. exact Hn. }
  rewrite length_map in Hs. rewrite Hs, (Hl ys eq_refl). reflexivity.
Qed.

(** With a single point the only index is 0: the fit raises, whatever the
    value. *)
Lemma polyfit_slope_single (lstsq : solver) (y : float) :
  polyfit_slope lstsq (arange 1) [y] = Raise LinAlgError.
Proof.
  unfold polyfit_slope, arange, of_nat. cbn.
  destruct (Reqb_spec 0 0) as [_|H]; [reflexivity | contradiction].
Qed.

(** *** What [analyze_trend] computes *)

(** On a history of at least two rows and at least two predicted prices
    [analyze_trend] does not raise, and this is what it returns. *)
Lemma analyze_trend_runs (lstsq : solver) (r : Row) (df : DataFrame)
    (b : Batch) :
  df <> [] ->
  (2 <= length (prices b))%nat ->
  let closes := col_close (r :: df) in
  let recent := tail 20 closes in
  exists hist_slope pred_slope min_recent min_pred max_recent max_pred
         ema12 ema26 dir,
    polyfit_slope lstsq (arange (length recent)) recent = Ok hist_slope /\
    polyfit_slope lstsq (arange (length (prices b))) (prices b)
    = Ok pred_slope /\
    np_min recent = Ok min_recent /\ np_min (prices b) = Ok min_pred /\
    np_max recent = Ok max_recent /\ np_max (prices b) = Ok max_pred /\
    ewm_mean_last 12 closes = Ok ema12 /\
    ewm_mean_last 26 closes = Ok ema26 /\
    analyze_trend lstsq (Some (r :: df)) (Some b)
    = Ok (mk_trend dir
            (trend_strength pred_slope
               (series_std 0 (dropna (pct_change closes))))
            (pymin min_recent min_pred * Fin (98 / 100))%fl
            (pymax max_recent max_pred * Fin (102 / 100))%fl
            (simple_rsi (recent ++ prices b))
            (ema12 - ema26)%fl).
Proof.
  intros Hdf Hps closes recent.
  assert (Hrec2 : (2 <= length recent)%nat).
  { unfold recent, closes. rewrite length_tail. cbn [col_close map length].
    rewrite length_map. destruct df; [contradiction|]. cbn [length]. lia. }
  destruct (polyfit_slope_runs lstsq recent Hrec2) as (hs & Hhs & _).
  destruct (polyfit_slope_runs lstsq (prices b) Hps) as (sl & Hsl & _).
  unfold analyze_trend. cbn [df_empty getitem_prices bind].
  fold closes. fold recent. rewrite Hhs, Hsl.
  destruct (prices b) as [|p ps] eqn:Ep; [cbn in Hps; lia|]. cbn [is_empty].
  destruct (tail_nonempty 19 (close r) (map close df)) as (y & ys & Hrec).
  change (tail 20 (close r :: map close df)) with recent in Hrec.
  rewrite Hrec.
  cbn [np_min np_max bind].
  unfold closes. cbn [col_close map ewm_mean_last bind].
  do 9 eexists. repeat split; reflexivity.
Qed.

(** A history of a single row, or a single predicted price, makes
    [np.polyfit] raise: line 48 fits the only close, line 51 the only
    price. *)
Lemma analyze_trend_single_row (lstsq : solver) (r : Row) (b : Batch) :
  prices b <> [] ->
  analyze_trend lstsq (Some [r]) (Some b) = Raise LinAlgError.
Proof.
  intros Hne. unfold analyze_trend. cbn [df_empty getitem_prices bind].
  destruct (prices b) as [|p ps]; [contradiction|]. cbn [is_empty].
  change (tail 20 (col_close [r])) with [close r].
  cbn [length]. rewrite polyfit_slope_single. reflexivity.
Qed.

Lemma analyze_trend_single_point (lstsq : solver) (r : Row) (df : DataFrame)
    (b : Batch) (x : float) :
  df <> [] ->
  prices b = [x] ->
  analyze_trend lstsq (Some (r :: df)) (Some b) = Raise LinAlgError.
Proof.
  intros Hdf Hp. unfold analyze_trend. cbn [df_empty getitem_prices bind].
  rewrite Hp. cbn [is_empty].
  assert (Hrec2 : (2 <= length (tail 20 (col_close (r :: df))))%nat).
  { rewrite length_tail. cbn [col_close map length].
    rewrite length_map. destruct df; [contradiction|]. cbn [length]. lia. }
  destruct (polyfit_slope_runs lstsq _ Hrec2) as (hs & Hhs & _).
  rewrite Hhs. cbn [bind length]. rewrite polyfit_slope_single. reflexivity.
Qed.

(** *** The RSI *)

Lemma fsub_no_inf (a b : float) :
  isinf a = false -> isinf b = false -> isinf (b - a)%fl = false.
Proof.
  destruct a, b; cbn; intros; try reflexivity; discriminate.
Qed.

Lemma np_diff_no_inf (xs : list float) :
  Forall (fun x => isinf x = false) xs ->
  Forall (fun d => isinf d = false) (np_diff xs).
Proof.
  induction xs as [|a [|b t] IH]; intros H; cbn [np_diff]; try constructor.
  - inversion H as [|? ? Ha Ht]; subst. inversion Ht; subst.
    apply fsub_no_inf; assumption.
  - apply IH. inversion H; assumption.
Qed.

Lemma positive_diff_finite (d : float) :
  isinf d = false -> fgtb d (of_Z 0) = true -> exists x, d = Fin x /\ 0 < x.
Proof.
  destruct d as [x| | |]; cbn; try discriminate.
  intros _ H. exists x. split; [reflexivity|].
  destruct (Rltb_spec 0 x); [assumption | discriminate].
Qed.

Lemma negative_diff_finite (d : float) :
  isinf d = false -> fltb d (of_Z 0) = true -> exists x, d = Fin x /\ x < 0.
Proof.
  destruct d as [x| | |]; cbn; try discriminate.
  intros _ H. exists x. split; [reflexivity|].
  destruct (Rltb_spec x 0); [assumption | discriminate].
Qed.

Lemma sum_of_positives (l : list float) :
  Forall (fun d => exists x, d = Fin x /\ 0 < x) l ->
  forall a, exists g,
    fold_left fadd l (Fin a) = Fin g /\ a <= g /\ (g = a -> l = []).
Proof.
  induction 1 as [|d l [x [-> Hx]] Hl IH]; intros a.
  - exists a. repeat split; lra.
  - cbn [fold_left fadd]. destruct (IH (a + x)) as (g & Hg & Hle & _).
    exists g. split; [exact Hg|]. split; [lra|]. intros ->. lra.
Qed.

Lemma sum_of_negatives (l : list float) :
  Forall (fun d => exists x, d = Fin x /\ x < 0) l ->
  forall a, exists s,
    fold_left fadd l (Fin a) = Fin s /\ s <= a /\ (s = a -> l = []).
Proof.
  induction 1 as [|d l [x [-> Hx]] Hl IH]; intros a.
  - exists a. repeat split; lra.
  - cbn [fold_left fadd]. destruct (IH (a + x)) as (s & Hs & Hle & _).
    exists s. split; [exact Hs|]. split; [lra|]. intros ->. lra.
Qed.

Lemma filter_Forall_finite (f : float -> bool) (P : float -> Prop)
    (l : list float) :
  (forall d, isinf d = false -> f d = true -> P d) ->
  Forall (fun d => isinf d = false) l ->
  Forall P (filter f l).
Proof.
  intros HP Hl. apply Forall_forall. intros d Hd.
  apply filter_In in Hd. destruct Hd as [Hin Hf].
  rewrite Forall_forall in Hl. apply HP; [apply Hl; exact Hin | exact Hf].
Qed.

Lemma Rdiv_nonneg (x y : R) : 0 <= x -> 0 < y -> 0 <= x / y.
Proof.
  intros Hx Hy. unfold Rdiv. apply Rle_mult_inv_pos; assumption.
Qed.

Lemma rsi_formula_bounds (g l : R) :
  0 <= g -> 0 < l ->
  0 <= 100 + - (100 / (1 + g / l)) <= 100.
Proof.
  intros Hg Hl.
  assert (Hq : 0 <= g / l) by (apply Rdiv_nonneg; assumption).
  assert (Hpos : 0 < 1 + g / l) by lra.
  assert (H1 : 0 < 100 / (1 + g / l)) by (apply Rdiv_lt_0_compat; lra).
  assert (H2 : 100 / (1 + g / l) <= 100).
  { apply (Rmult_le_reg_r (1 + g / l)); [exact Hpos|].
    unfold Rdiv at 1. rewrite Rmult_assoc, Rinv_l by lra. nra. }
  lra.
Qed.

(** The RSI of closes none of which is infinite is a number between 0 and
    100, and it is 100 when the negative differences sum to zero. *)
Lemma simple_rsi_bounds (cs : list float) :
  Forall (fun x => isinf x = false) cs ->
  exists v,
    simple_rsi cs = Fin v /\ 0 <= v <= 100 /\
    (np_sum (filter (fun d => fltb d (of_Z 0)) (np_diff cs)) = Fin 0 ->
     v = 100).
Proof.
  intros Hcs. apply np_diff_no_inf in Hcs.
  unfold simple_rsi, np_sum.
  destruct (sum_of_positives (filter (fun d => fgtb d (of_Z 0)) (np_diff cs))
              (filter_Forall_finite _ _ _ positive_diff_finite Hcs) 0)
    as (g & Hg & Hg0 & _).
  destruct (sum_of_negatives (filter (fun d => fltb d (of_Z 0)) (np_diff cs))
              (filter_Forall_finite _ _ _ negative_diff_finite Hcs) 0)
    as (s & Hs & Hs0 & _).
  rewrite Hg, Hs. unfold of_Z. cbn [fabs feqb].
  destruct (Reqb_spec (Rabs s) 0) as [Hz | Hnz].
  - exists 100. repeat split; lra.
  - assert (Hl : 0 < Rabs s) by (pose proof (Rabs_pos s); lra).
    cbn [fdiv]. destruct (Reqb_spec (Rabs s) 0); [contradiction|].
    cbn [fadd fdiv].
    pose proof (rsi_formula_bounds g (Rabs s) Hg0 Hl) as Hb.
    assert (Hq : 0 <= g / Rabs s) by (apply Rdiv_nonneg; assumption).
    destruct (Reqb_spec (1 + g / Rabs s) 0); [lra|].
    cbn [fsub fopp fadd]. eexists. split; [reflexivity|].
    split; [exact Hb|].
    intros Hzero. inversion Hzero. subst s. rewrite Rabs_R0 in Hnz. lra.
Qed.

Lemma np_diff_skipn (k : nat) (xs : list float) :
  np_diff (skipn k xs) = skipn k (np_diff xs).
Proof.
  revert xs. induction k as [|k IH]; intros xs; [reflexivity|].
  destruct xs as [|a [|b t]].
  - reflexivity.
  - destruct k; reflexivity.
  - change (np_diff (skipn k (b :: t)) = skipn k (np_diff (b :: t))).
    apply IH.
Qed.

Lemma filter_skipn_nil {A : Type} (f : A -> bool) (k : nat) (l : list A) :
  filter f l = [] -> filter f (skipn k l) = [].
Proof.
  intros H. rewrite <- (firstn_skipn k l), filter_app in H.
  apply app_eq_nil in H. tauto.
Qed.

(** If the negative differences over the whole history and the predictions
    sum to zero, so do those over the last 20 closes and the predictions. *)
Lemma no_losses_on_recent (closes pr : list float) :
  closes <> [] ->
  Forall (fun x => isinf x = false) (closes ++ pr) ->
  np_sum (filter (fun d => fltb d (of_Z 0)) (np_diff (closes ++ pr))) = Fin 0 ->
  np_sum (filter (fun d => fltb d (of_Z 0)) (np_diff (tail 20 closes ++ pr)))
  = Fin 0.
Proof.
  intros Hne Hfin Hsum.
  destruct (sum_of_negatives
              (filter (fun d => fltb d (of_Z 0)) (np_diff (closes ++ pr)))
              (filter_Forall_finite _ _ _ negative_diff_finite
                 (np_diff_no_inf _ Hfin)) 0)
    as (s & Hs & _ & Hnil).
  unfold np_sum in Hsum. rewrite Hs in Hsum. inversion Hsum. subst s.
  specialize (Hnil eq_refl).
  unfold tail.
  replace (skipn (length closes - 20) closes ++ pr)
    with (skipn (length closes - 20) (closes ++ pr)).
  - rewrite np_diff_skipn, (filter_skipn_nil _ _ _ Hnil). reflexivity.
  - rewrite skipn_app.
    replace (length closes - 20 - length closes)%nat with 0%nat by lia.
    reflexivity.
Qed.

Lemma Forall_tail {A : Type} (P : A -> Prop) (n : nat) (l : list A) :
  Forall P l -> Forall P (tail n l).
Proof.
  intros H. unfold tail. rewrite <- (firstn_skipn (length l - n) l) in H.
  apply Forall_app in H. tauto.
Qed.

(** C9.  For a history and predicted prices none of which is infinite:
    [analyze_trend] returns on an empty input and on a history of at least
    two rows with at least two predicted prices; and whenever it returns,
    the rsi it returns is a number [v] with [0 <= v <= 100], which is 100
    when history and predictions are non-empty and the negative first
    differences over the historical closes followed by the predicted closes
    sum to zero. *)
Theorem C9_rsi_between_0_and_100 (lstsq : solver) (h : option DataFrame)
    (p : option Batch) :
  (forall df, h = Some df -> Forall (fun x => isinf x = false) (col_close df)) ->
  (forall b, p = Some b -> Forall (fun x => isinf x = false) (prices b)) ->
  (forall b,
      p = Some b ->
      (forall df, h = Some df -> df <> [] -> prices b <> [] ->
                  (2 <= length df)%nat /\ (2 <= length (prices b))%nat) ->
      exists t, analyze_trend lstsq h p = Ok t) /\
  (forall t,
      analyze_trend lstsq h p = Ok t ->
      exists v,
        rsi t = Fin v /\ 0 <= v <= 100 /\
        (forall df b,
            h = Some df -> p = Some b -> df <> [] -> prices b <> [] ->
            np_sum (filter (fun d => fltb d (of_Z 0))
                      (np_diff (col_close df ++ prices b))) = Fin 0 ->
            v = 100)).
Proof.
  intros Hh Hp.
  destruct h as [[|r df]|].
  - split; [intros; eexists; reflexivity|].
    intros t Ht. cbn in Ht. inversion Ht. exists 50. cbn.
    split; [reflexivity|]. split; [lra|].
    intros df b Hdf _ Hne. inversion Hdf. subst. contradiction.
  - specialize (Hh (r :: df) eq_refl).
    destruct p as [b|].
    + specialize (Hp b eq_refl).
      destruct (prices b) as [|x xs] eqn:Ep.
      * assert (Hrun : analyze_trend lstsq (Some (r :: df)) (Some b)
                       = Ok neutral_trend).
        { unfold analyze_trend. cbn [df_empty getitem_prices bind].
          rewrite Ep. reflexivity. }
        split; [intros; eexists; exact Hrun|].
        intros t Ht. pose proof (eq_trans (eq_sym Hrun) Ht) as Heq.
        inversion Heq. exists 50. cbn.
        split; [reflexivity|]. split; [lra|].
        intros df' b' _ Hb' _ Hne. inversion Hb'. subst b'.
        rewrite Ep in Hne. contradiction.
      * assert (Hne : prices b <> []) by (rewrite Ep; discriminate).
        assert (Hruns :
                  df <> [] -> (2 <= length (prices b))%nat ->
                  exists t,
                    analyze_trend lstsq (Some (r :: df)) (Some b) = Ok t /\
                    rsi t = simple_rsi (tail 20 (col_close (r :: df))
                                        ++ prices b)).
        { intros Hdf Hlen.
          destruct (analyze_trend_runs lstsq r df b Hdf Hlen)
            as (hs & ps & m1 & m2 & m3 & m4 & e1 & e2 & dir & _ & _ & _ & _
                & _ & _ & _ & _ & Hrun).
          eexists. split; [exact Hrun | reflexivity]. }
        split.
        { intros b' Hb' Hlen. inversion Hb'. subst b'.
          destruct (Hlen (r :: df) eq_refl) as [Hl1 Hl2];
            [discriminate | exact Hne |].
          destruct (Hruns) as (t & Ht & _);
            [destruct df; [cbn in Hl1; lia | discriminate] | exact Hl2 |].
          exists t. exact Ht. }
        intros t Ht.
        assert (Hdf : df <> []).
        { intros ->.
          pose proof (eq_trans (eq_sym (analyze_trend_single_row lstsq r b Hne))
                        Ht) as Hno.
          discriminate Hno. }
        assert (Hlen : (2 <= length (prices b))%nat).
        { destruct xs as [|x' xs']; [|rewrite Ep; cbn; lia].
          pose proof (eq_trans
                        (eq_sym (analyze_trend_single_point lstsq r df b x
                                   Hdf Ep)) Ht) as Hno.
          discriminate Hno. }
        destruct (Hruns Hdf Hlen) as (t' & Ht' & Hrsi).
        pose proof (eq_trans (eq_sym Ht') Ht) as Heq.
        inversion Heq. subst t'. rewrite Hrsi.
        assert (Hall : Forall (fun x => isinf x = false)
                         (tail 20 (col_close (r :: df)) ++ prices b)).
        { apply Forall_app. split; [apply Forall_tail; exact Hh|].
          rewrite Ep. exact Hp. }
        destruct (simple_rsi_bounds _ Hall) as (v & Hv & Hb & Hz).
        exists v. split; [exact Hv|]. split; [exact Hb|].
        intros df' b' Hdf' Hb' _ _ Hsum.
        inversion Hdf'. inversion Hb'. subst df' b'.
        apply Hz. apply no_losses_on_recent; [discriminate | | exact Hsum].
        apply Forall_app. split; [exact Hh|]. rewrite Ep. exact Hp.
    + split; [intros b Hb; discriminate|].
      intros t Ht. cbn in Ht. discriminate.
  - split; [intros; eexists; reflexivity|].
    intros t Ht. cbn in Ht. inversion Ht. exists 50. cbn.
    split; [reflexivity|]. split; [lra|].
    intros df b Hdf. discriminate.
Qed.

(** The flat history with predicted closes 50 and 51, fitted without
    rounding. *)
Lemma C9_rsi_between_0_and_100_witness :
  Forall (fun x => isinf x = false) (col_close Examples.flat_history) /\
  Forall (fun x => isinf x = false) (prices (Examples.batch2 50 51)) /\
  exists t v,
    analyze_trend exact_lstsq (Some Examples.flat_history)
      (Some (Examples.batch2 50 51))
    = Ok t /\
    rsi t = Fin v /\ 0 <= v <= 100.
Proof.
  assert (H1 : Forall (fun x => isinf x = false)
                 (col_close Examples.flat_history))
    by (repeat constructor).
  assert (H2 : Forall (fun x => isinf x = false)
                 (prices (Examples.batch2 50 51)))
    by (repeat constructor).
  split; [exact H1|]. split; [exact H2|].
  assert (Hh : forall df, Some Examples.flat_history = Some df ->
                 Forall (fun x => isinf x = false) (col_close df))
    by (intros df E; inversion E; subst df; exact H1).
  assert (Hp : forall b, Some (Examples.batch2 50 51) = Some b ->
                 Forall (fun x => isinf x = false) (prices b))
    by (intros b E; inversion E; subst b; exact H2).
  destruct (C9_rsi_between_0_and_100 exact_lstsq (Some Examples.flat_history)
              (Some (Examples.batch2 50 51)) Hh Hp)
    as [Hex Hall].
  assert (Hlen : forall df, Some Examples.flat_history = Some df ->
                   df <> [] -> prices (Examples.batch2 50 51) <> [] ->
                   (2 <= length df)%nat
                   /\ (2 <= length (prices (Examples.batch2 50 51)))%nat)
    by (intros df E _ _; inversion E; subst df; cbn; lia).
  destruct (Hex _ eq_refl Hlen) as [t Ht].
  destruct (Hall t Ht) as (v & Hv & Hb & _).
  exists t, v. repeat split; try assumption; apply Hb.
Defined.

(** *** The exponentially weighted mean *)

Lemma Rsum_map_scale (f : R) (g : nat -> R) (l : list nat) :
  Rsum (map (fun i => f * g i) l) = f * Rsum (map g l).
Proof.
  induction l as [|i l IH]; cbn; [lra|]. unfold Rsum in IH. rewrite IH. lra.
Qed.

Lemma horner_power_sum (f : R) (ys : list R) :
  horner f ys = Rsum (map (fun i => f ^ i * nth i ys 0) (seq 0 (length ys))).
Proof.
  induction ys as [|y t IH]; [reflexivity|].
  cbn [horner length seq map]. rewrite <- seq_shift, map_map.
  unfold Rsum at 1. cbn [fold_right].
  fold (Rsum (map (fun i => f ^ S i * nth (S i) (y :: t) 0)
                (seq 0 (length t)))).
  cbn [nth pow].
  replace (map (fun i => f * f ^ i * nth i t 0) (seq 0 (length t)))
    with (map (fun i => f * (f ^ i * nth i t 0)) (seq 0 (length t)))
    by (apply map_ext; intros i; lra).
  rewrite IH, (Rsum_map_scale f (fun i => f ^ i * nth i t 0)). lra.
Qed.

Lemma geom_power_sum (f : R) (n : nat) :
  geom f n = Rsum (map (fun i => f ^ i) (seq 0 n)).
Proof.
  induction n as [|n IH]; [reflexivity|].
  cbn [geom seq map]. rewrite <- seq_shift, map_map.
  unfold Rsum at 1. cbn [fold_right].
  fold (Rsum (map (fun i => f ^ S i) (seq 0 n))).
  cbn [pow]. rewrite IH, (Rsum_map_scale f (fun i => f ^ i)). lra.
Qed.

Lemma geom_ge_1 (f : R) (n : nat) : 0 <= f -> 1 <= geom f (S n).
Proof.
  intros Hf. induction n as [|n IH]; cbn [geom] in *; [lra | nra].
Qed.

(** The running state of pandas' algorithm after the observations [l]. *)
Lemma ewm_fold_finite (f : R) (t : list R) :
  0 <= f ->
  forall l : list R,
    l <> [] ->
    fold_left (ewm_step (Fin f)) (map Fin t)
      (Fin (horner f (rev l) / geom f (length l)), Fin (geom f (length l)))
    = (Fin (horner f (rev (l ++ t)) / geom f (length (l ++ t))),
       Fin (geom f (length (l ++ t)))).
Proof.
  intros Hf. induction t as [|x t IH]; intros l Hl.
  - rewrite app_nil_r. reflexivity.
  - cbn [map fold_left].
    replace (l ++ x :: t) with ((l ++ [x]) ++ t) by (rewrite <- app_assoc; reflexivity).
    rewrite <- IH by (destruct l; discriminate).
    f_equal.
    rewrite rev_app_distr, length_app. cbn [rev app length horner].
    rewrite Nat.add_1_r. cbn [geom].
    destruct l as [|x0 l0]; [contradiction|].
    set (W := geom f (length (x0 :: l0))).
    set (S := horner f (rev (x0 :: l0))).
    assert (HW : 1 <= W) by (apply geom_ge_1; exact Hf).
    assert (HW' : 0 < 1 + f * W) by nra.
    unfold ewm_step. cbn [isnan negb fmul fadd feqb].
    destruct (Reqb_spec (S / W) x) as [Heq | Hne]; cbn [negb].
    + f_equal; f_equal; [|lra].
      rewrite <- Heq. field. lra.
    + cbn [fdiv]. destruct (Reqb_spec (W * f + 1) 0); [nra|].
      f_equal; f_equal; [|lra]. field. lra.
Qed.

Lemma ewm_factor (span : Z) :
  (1 < IZR span) ->
  (Fin 1 - Fin 2 / (of_Z span + Fin 1))%fl = Fin (1 - ewm_alpha span) /\
  0 <= 1 - ewm_alpha span.
Proof.
  intros Hs. unfold ewm_alpha, of_Z. cbn.
  destruct (Reqb_spec (IZR span + 1) 0); [lra|]. split; [reflexivity|].
  assert (2 / (IZR span + 1) <= 1); [|lra].
  apply (Rmult_le_reg_r (IZR span + 1)); [lra|].
  unfold Rdiv. rewrite Rmult_assoc, Rinv_l by lra. lra.
Qed.

(** On finite observations pandas' algorithm computes the documented
    weighted mean. *)
Lemma ewm_mean_last_adjusted (span : Z) (x : R) (xs : list R) :
  1 < IZR span ->
  ewm_mean_last span (map Fin (x :: xs)) = Ok (Fin (adjusted_ewm span (x :: xs))).
Proof.
  intros Hs. destruct (ewm_factor span Hs) as [Hf Hpos].
  unfold ewm_mean_last. cbn [map]. rewrite Hf.
  set (f := 1 - ewm_alpha span) in *.
  assert (Hstart : (Fin x, Fin 1)
                   = (Fin (horner f (rev [x]) / geom f (length [x])),
                      Fin (geom f (length [x])))).
  { cbn. f_equal; f_equal; [field | lra]. }
  rewrite Hstart, (ewm_fold_finite f xs Hpos [x]) by discriminate.
  cbn [fst app]. unfold adjusted_ewm. cbn zeta. fold f.
  rewrite (horner_power_sum f (rev (x :: xs))), length_rev, geom_power_sum.
  reflexivity.
Qed.

(** The macd of a finite history of at least two rows: the difference of
    the two adjusted exponentially weighted means. *)
Lemma macd_adjusted_ewm (lstsq : solver) (r : Row) (df : DataFrame)
    (b : Batch) (cs : list R) :
  col_close (r :: df) = map Fin cs ->
  df <> [] ->
  (2 <= length (prices b))%nat ->
  exists t,
    analyze_trend lstsq (Some (r :: df)) (Some b) = Ok t /\
    macd t = Fin (adjusted_ewm 12 cs - adjusted_ewm 26 cs).
Proof.
  intros Hcs Hdf Hlen.
  destruct (analyze_trend_runs lstsq r df b Hdf Hlen)
    as (hs & ps & m1 & m2 & m3 & m4 & e12 & e26 & dir & _ & _ & _ & _ & _ & _
        & H12 & H26 & Hrun).
  exists (mk_trend dir
            (trend_strength ps
               (series_std 0 (dropna (pct_change (col_close (r :: df))))))
            (pymin m1 m2 * Fin (98 / 100))%fl
            (pymax m3 m4 * Fin (102 / 100))%fl
            (simple_rsi (tail 20 (col_close (r :: df)) ++ prices b))
            (e12 - e26)%fl).
  split; [exact Hrun|]. cbn [macd].
  rewrite Hcs in H12, H26.
  destruct cs as [|x xs]; [discriminate|].
  rewrite ewm_mean_last_adjusted in H12 by lra.
  rewrite ewm_mean_last_adjusted in H26 by lra.
  inversion H12. inversion H26. reflexivity.
Qed.

Lemma adjusted_ewm_pair (span : Z) (x y : R) :
  0 < ewm_alpha span < 1 ->
  adjusted_ewm span [x; y]
  = ((1 - ewm_alpha span) * x + y) / ((1 - ewm_alpha span) + 1).
Proof.
  intros Ha. unfold adjusted_ewm, Rsum. cbn. field. lra.
Qed.

(** C6 (amended).  For every history of at least two rows with finite
    closes and every prediction of at least two prices, the macd
    [analyze_trend] returns is the span-12 exponentially weighted mean of
    the closes minus the span-26 one, both at the last historical point,
    where the mean of a span is the adjusted (normalised) one that
    [Series.ewm(span=span).mean()] computes: with [alpha = 2 / (span + 1)],
    that is 2/13 and 2/27, the sum of [(1 - alpha)^i x_(t-i)] divided by the
    sum of [(1 - alpha)^i]; on two closes [x], [y] it is
    [((1 - alpha) x + y) / ((1 - alpha) + 1)] for each span. *)
Theorem C6_macd_is_difference_of_adjusted_means (lstsq : solver) (r : Row)
    (df : DataFrame) (b : Batch) (cs : list R) :
  col_close (r :: df) = map Fin cs ->
  df <> [] ->
  (2 <= length (prices b))%nat ->
  exists t,
    analyze_trend lstsq (Some (r :: df)) (Some b) = Ok t /\
    macd t = Fin (adjusted_ewm 12 cs - adjusted_ewm 26 cs) /\
    ewm_mean_last 12 (col_close (r :: df)) = Ok (Fin (adjusted_ewm 12 cs)) /\
    ewm_mean_last 26 (col_close (r :: df)) = Ok (Fin (adjusted_ewm 26 cs)) /\
    ewm_alpha 12 = 2 / 13 /\ ewm_alpha 26 = 2 / 27 /\
    (forall x y,
        cs = [x; y] ->
        macd t = Fin ((11 / 13 * x + y) / (11 / 13 + 1)
                      - (25 / 27 * x + y) / (25 / 27 + 1))).
Proof.
  intros Hcs Hdf Hlen.
  destruct (macd_adjusted_ewm lstsq r df b cs Hcs Hdf Hlen)
    as (t & Hrun & Hmacd).
  assert (H12 : ewm_alpha 12 = 2 / 13) by (unfold ewm_alpha; lra).
  assert (H26 : ewm_alpha 26 = 2 / 27) by (unfold ewm_alpha; lra).
  exists t. split; [exact Hrun|]. split; [exact Hmacd|].
  rewrite Hcs. destruct cs as [|x xs]; [discriminate|].
  split; [apply ewm_mean_last_adjusted; lra|].
  split; [apply ewm_mean_last_adjusted; lra|].
  split; [exact H12|]. split; [exact H26|].
  intros x' y Hxy. inversion Hxy. subst.
  rewrite Hmacd, !adjusted_ewm_pair by (rewrite ?H12, ?H26; lra).
  rewrite H12, H26. f_equal. lra.
Qed.

(** Closes 1 and 2, predicted closes 1 and 2. *)
Lemma C6_macd_is_difference_of_adjusted_means_witness :
  col_close Examples.short_history = map Fin [1; 2] /\
  [Examples.flat_row Examples.friday 2] <> [] /\
  (2 <= length (prices (Examples.batch2 1 2)))%nat /\
  exists t,
    analyze_trend exact_lstsq (Some Examples.short_history)
      (Some (Examples.batch2 1 2))
    = Ok t /\
    macd t = Fin (adjusted_ewm 12 [1; 2] - adjusted_ewm 26 [1; 2]).
Proof.
  assert (H1 : col_close Examples.short_history = map Fin [1; 2])
    by reflexivity.
  assert (H2 : [Examples.flat_row Examples.friday 2] <> []) by discriminate.
  assert (H3 : (2 <= length (prices (Examples.batch2 1 2)))%nat)
    by (cbn; lia).
  split; [exact H1|]. split; [exact H2|]. split; [exact H3|].
  destruct (C6_macd_is_difference_of_adjusted_means exact_lstsq
              (Examples.flat_row (add_days Examples.friday (-1)) 1)
              [Examples.flat_row Examples.friday 2]
              (Examples.batch2 1 2) [1; 2] H1 H2 H3)
    as (t & Hrun & Hmacd & _).
  exists t. split; [exact Hrun | exact Hmacd].
Defined.

(** C6 as stated fails: on the closes 1, 2 (and two predicted closes) the
    macd returned is [37/24 - 79/52 = 7/312], while the
    recursion [y_t = (1 - alpha) y_(t-1) + alpha x_t] seeded with the first
    close gives [15/13 - 29/27 = 28/351]. *)
Lemma C6_recursive_ema_counterexample :
  exists t,
    analyze_trend exact_lstsq (Some Examples.short_history)
      (Some (Examples.batch2 1 2))
    = Ok t /\
    macd t = Fin (7 / 312) /\
    recursive_ema 12 [1; 2] - recursive_ema 26 [1; 2] = 28 / 351 /\
    macd t <> Fin (recursive_ema 12 [1; 2] - recursive_ema 26 [1; 2]).
Proof.
  destruct (macd_adjusted_ewm exact_lstsq
              (Examples.flat_row (add_days Examples.friday (-1)) 1)
              [Examples.flat_row Examples.friday 2]
              (Examples.batch2 1 2) [1; 2] eq_refl ltac:(discriminate)
              ltac:(cbn; lia))
    as (t & Hrun & Hmacd).
  assert (Ha : adjusted_ewm 12 [1; 2] - adjusted_ewm 26 [1; 2] = 7 / 312).
  { unfold adjusted_ewm, ewm_alpha, Rsum. cbn. field. }
  assert (Hr : recursive_ema 12 [1; 2] - recursive_ema 26 [1; 2] = 28 / 351).
  { unfold recursive_ema, ewm_alpha. cbn. field. }
  exists t. split; [exact Hrun|]. rewrite Hmacd, Ha, Hr.
  split; [reflexivity|]. split; [reflexivity|].
  intros H. inversion H. lra.
Qed.

(** *** Finite arrays *)

Lemma fold_fadd_finite (l : list R) (a : R) :
  fold_left fadd (map Fin l) (Fin a) = Fin (a + Rsum l).
Proof.
  revert a. induction l as [|x l IH]; intros a; cbn [map fold_left fadd].
  - cbn. f_equal. lra.
  - rewrite IH. f_equal. unfold Rsum. cbn [fold_right]. lra.
Qed.

Lemma np_sum_finite (l : list R) : np_sum (map Fin l) = Fin (Rsum l).
Proof.
  unfold np_sum. rewrite fold_fadd_finite. f_equal. lra.
Qed.

Lemma mul_arrays_finite (xs ys : list R) :
  mul_arrays (map Fin xs) (map Fin ys)
  = map Fin (map (fun p => fst p * snd p) (combine xs ys)).
Proof.
  unfold mul_arrays. revert ys.
  induction xs as [|x xs IH]; intros [|y ys]; cbn; try reflexivity.
  f_equal. apply IH.
Qed.

Lemma tail_map {A B : Type} (f : A -> B) (n : nat) (l : list A) :
  tail n (map f l) = map f (tail n l).
Proof.
  unfold tail. rewrite length_map, skipn_map. reflexivity.
Qed.

Lemma fold_np_min2_finite (l : list R) (x : R) :
  exists m, fold_left np_min2 (map Fin l) (Fin x) = Fin m.
Proof.
  revert x. induction l as [|y l IH]; intros x; cbn [map fold_left].
  - exists x. reflexivity.
  - unfold np_min2 at 2. cbn. destruct (Rltb y x); apply IH.
Qed.

Lemma fold_np_max2_finite (l : list R) (x : R) :
  exists m, fold_left np_max2 (map Fin l) (Fin x) = Fin m.
Proof.
  revert x. induction l as [|y l IH]; intros x; cbn [map fold_left].
  - exists x. reflexivity.
  - unfold np_max2 at 2, fgtb. cbn. destruct (Rltb x y); apply IH.
Qed.

(** *** The least-squares slope *)

Lemma Rsum_app (l1 l2 : list R) : Rsum (l1 ++ l2) = Rsum l1 + Rsum l2.
Proof.
  unfold Rsum. induction l1 as [|x l IH]; cbn [app fold_right]; [lra|].
  rewrite IH. lra.
Qed.

Lemma sum_indices (n : nat) : Rsum (indices n) = INR n * (INR n - 1) / 2.
Proof.
  unfold indices. induction n as [|n IH].
  - cbn. lra.
  - rewrite seq_S, map_app, Rsum_app, IH, S_INR.
    unfold Rsum. cbn [map fold_right Nat.add]. lra.
Qed.

Lemma combine_self_app {A : Type} (l : list A) (x : A) :
  combine (l ++ [x]) (l ++ [x]) = combine l l ++ [(x, x)].
Proof.
  induction l as [|y l IH]; cbn; [reflexivity|]. rewrite IH. reflexivity.
Qed.

Lemma sum_squared_indices (n : nat) :
  dot (indices n) (indices n) = (INR n - 1) * INR n * (2 * INR n - 1) / 6.
Proof.
  unfold dot, indices. induction n as [|n IH].
  - cbn. lra.
  - rewrite seq_S, map_app. cbn [map Nat.add].
    rewrite combine_self_app, map_app, Rsum_app, IH, S_INR.
    unfold Rsum. cbn [map fold_right fst snd]. lra.
Qed.

Lemma indices_spread (n : nat) :
  (2 <= n)%nat ->
  0 < INR n * dot (indices n) (indices n)
      - Rsum (indices n) * Rsum (indices n).
Proof.
  intros Hn. rewrite sum_squared_indices, sum_indices.
  assert (H2 : 2 <= INR n) by (apply (le_INR 2); exact Hn).
  replace (INR n * ((INR n - 1) * INR n * (2 * INR n - 1) / 6) -
           INR n * (INR n - 1) / 2 * (INR n * (INR n - 1) / 2))
    with (INR n * INR n * (INR n - 1) * (INR n + 1) / 12) by field.
  assert (0 < INR n * INR n * (INR n - 1) * (INR n + 1)); [|lra].
  repeat apply Rmult_lt_0_compat; lra.
Qed.

(** The solver without rounding answers the least-squares slope. *)
Lemma exact_lstsq_slope (ys : list R) :
  exact_lstsq (indices (length ys)) ys = ls_slope ys.
Proof.
  unfold exact_lstsq, ls_slope, indices.
  rewrite length_map, length_seq. reflexivity.
Qed.

Lemma squared_error_expand (a b : R) (xs ys : list R) :
  length xs = length ys ->
  squared_error a b xs ys
  = dot ys ys - 2 * a * dot xs ys - 2 * b * Rsum ys
    + a * a * dot xs xs + 2 * a * b * Rsum xs + INR (length ys) * b * b.
Proof.
  unfold squared_error, dot, Rsum. revert ys.
  induction xs as [|x xs IH]; intros [|y ys] Hlen; try discriminate.
  - cbn. lra.
  - injection Hlen as Hlen. specialize (IH ys Hlen).
    change (length (y :: ys)) with (S (length ys)). rewrite S_INR.
    cbn [combine map fold_right fst snd]. rewrite IH. ring.
Qed.

(** [ls_slope] with [ls_intercept] is the least-squares line: no line has a
    smaller sum of squared residuals on the points [(i, y_i)]. *)
Lemma ls_slope_least_squares (ys : list R) (a b : R) :
  (2 <= length ys)%nat ->
  squared_error (ls_slope ys) (ls_intercept ys) (indices (length ys)) ys
  <= squared_error a b (indices (length ys)) ys.
Proof.
  intros Hn.
  assert (Hlen : length (indices (length ys)) = length ys)
    by (unfold indices; rewrite length_map, length_seq; reflexivity).
  rewrite !squared_error_expand by exact Hlen.
  pose proof (indices_spread (length ys) Hn) as HD.
  assert (Hpos : 0 < INR (length ys)) by (apply lt_0_INR; lia).
  unfold ls_intercept, ls_slope. cbn zeta.
  set (n := INR (length ys)) in *.
  set (Sx := Rsum (indices (length ys))) in *.
  set (Sxx := dot (indices (length ys)) (indices (length ys))) in *.
  set (Sxy := dot (indices (length ys)) ys).
  set (Sy := Rsum ys). set (Syy := dot ys ys).
  set (a0 := (n * Sxy - Sx * Sy) / (n * Sxx - Sx * Sx)).
  set (b0 := (Sy - a0 * Sx) / n).
  assert (N1 : a0 * Sxx + b0 * Sx = Sxy) by (unfold b0, a0; field; lra).
  assert (N2 : a0 * Sx + n * b0 = Sy) by (unfold b0; field; lra).
  rewrite <- N1, <- N2.
  assert (Hsq : 0 <= (n * (b - b0) + Sx * (a - a0)) * (n * (b - b0) + Sx * (a - a0))
                     + (n * Sxx - Sx * Sx) * ((a - a0) * (a - a0))).
  { pose proof (Rle_0_sqr (n * (b - b0) + Sx * (a - a0))) as H1.
    pose proof (Rle_0_sqr (a - a0)) as H2. unfold Rsqr in *.
    assert (0 <= (n * Sxx - Sx * Sx) * ((a - a0) * (a - a0)))
      by (apply Rmult_le_pos; lra).
    lra. }
  apply (Rmult_le_reg_l n); [exact Hpos|].
  match goal with |- ?l <= ?r =>
    assert (Hd : r - l
                 = (n * (b - b0) + Sx * (a - a0)) * (n * (b - b0) + Sx * (a - a0))
                   + (n * Sxx - Sx * Sx) * ((a - a0) * (a - a0))) by ring
  end.
  lra.
Qed.

(** *** Volatility and strength *)

Lemma dropna_finite (xs : list R) : dropna (map Fin xs) = map Fin xs.
Proof.
  unfold dropna. induction xs as [|x xs IH]; cbn; [reflexivity|].
  rewrite IH. reflexivity.
Qed.

Lemma pct_change_pairs (t : list R) (c0 : R) :
  Forall (fun c => c <> 0) (removelast (c0 :: t)) ->
  dropna (map (fun p => (fst p / snd p - Fin 1)%fl)
            (combine (map Fin t) (removelast (map Fin (c0 :: t)))))
  = map Fin (map (fun p => snd p / fst p - 1) (combine (c0 :: t) t)).
Proof.
  revert c0. induction t as [|c1 t IH]; intros c0 Hnz; [reflexivity|].
  change (removelast (c0 :: c1 :: t)) with (c0 :: removelast (c1 :: t)) in Hnz.
  inversion Hnz as [|? ? Hc0 Hrest]; subst.
  change (removelast (map Fin (c0 :: c1 :: t)))
    with (Fin c0 :: removelast (map Fin (c1 :: t))).
  cbn [map combine fst snd fdiv].
  destruct (Reqb_spec c0 0); [contradiction|].
  cbn [fsub fopp fadd dropna filter isnan negb].
  f_equal. exact (IH c1 Hrest).
Qed.

(** On finite closes whose divisors are not zero, the percentage changes
    pandas keeps are the quotients [c_t / c_(t-1) - 1]. *)
Lemma pct_change_finite (cs : list R) :
  Forall (fun c => c <> 0) (removelast cs) ->
  dropna (pct_change (map Fin cs)) = map Fin (pct_changes cs).
Proof.
  intros Hnz. destruct cs as [|c0 t]; [reflexivity|].
  unfold pct_change, shift1, pct_changes.
  cbn [map combine fst snd fdiv fsub fopp fadd dropna filter isnan negb List.tl].
  apply (pct_change_pairs t c0 Hnz).
Qed.

Lemma Rsum_squares_nonneg (m : R) (xs : list R) :
  0 <= Rsum (map (fun x => (m + - x) * (m + - x)) xs).
Proof.
  unfold Rsum. induction xs as [|x xs IH]; cbn [map fold_right]; [lra|].
  pose proof (Rle_0_sqr (m + - x)) as Hsq. unfold Rsqr in Hsq. lra.
Qed.

Lemma map_squares_finite (m : R) (xs : list R) :
  map (fun x => ((Fin m - x) * (Fin m - x))%fl) (map Fin xs)
  = map Fin (map (fun x => (m + - x) * (m + - x)) xs).
Proof.
  rewrite !map_map. reflexivity.
Qed.

(** On finite values pandas' standard deviation is the textbook one. *)
Lemma series_std_finite (ddof : nat) (xs : list R) :
  (ddof < length xs)%nat ->
  series_std ddof (map Fin xs) = Fin (std ddof xs).
Proof.
  intros Hn. unfold series_std. rewrite dropna_finite, length_map.
  destruct (Nat.leb_spec (length xs) ddof) as [Hle | _]; [lia|].
  assert (Hc : INR (length xs) <> 0) by (apply not_0_INR; lia).
  assert (Hd : 0 < INR (length xs - ddof)) by (apply lt_0_INR; lia).
  rewrite np_sum_finite. unfold of_nat. cbn [fdiv].
  destruct (Reqb_spec (INR (length xs)) 0); [contradiction|].
  rewrite map_squares_finite, np_sum_finite. cbn [fdiv].
  destruct (Reqb_spec (INR (length xs - ddof)) 0); [lra|].
  pose proof (Rsum_squares_nonneg (Rsum xs / INR (length xs)) xs) as Hsq.
  cbn [fsqrt].
  destruct (Rltb_spec
              (Rsum (map (fun x => (Rsum xs / INR (length xs) + - x)
                                   * (Rsum xs / INR (length xs) + - x)) xs)
               / INR (length xs - ddof)) 0) as [Hneg | _].
  { exfalso. apply (Rdiv_nonneg _ _ Hsq) in Hd. lra. }
  unfold std, mean. do 4 f_equal.
  apply map_ext. intros x. lra.
Qed.

Lemma pymax_finite (a b : R) : pymax (Fin a) (Fin b) = Fin (Rmax a b).
Proof.
  unfold pymax, fgtb, Rmax. cbn [fltb].
  destruct (Rltb_spec a b), (Rle_dec a b); try lra; try reflexivity.
  f_equal. lra.
Qed.

Lemma pymin_finite (a b : R) : pymin (Fin a) (Fin b) = Fin (Rmin a b).
Proof.
  unfold pymin, Rmin. cbn [fltb].
  destruct (Rltb_spec b a), (Rle_dec a b); try lra; try reflexivity.
Qed.

Lemma trend_strength_finite (s sigma : R) :
  0 < sigma ->
  trend_strength (Fin s) (Fin sigma)
  = Fin (clamp (Rabs s / (sigma * 10) * 100)).
Proof.
  intros Hs. unfold trend_strength, of_Z, clamp. cbn [fabs fmul fdiv].
  destruct (Reqb_spec (sigma * 10) 0); [lra|]. cbn [fmul].
  rewrite pymax_finite, pymin_finite. reflexivity.
Qed.

(** The degenerate case of lines 64 and 65: a zero volatility divides by
    zero, which NumPy answers with [inf] or [nan]; Python's [max] and [min]
    then give 100 for a slope that is not zero and 0 for a zero or undefined
    one. *)
Lemma trend_strength_zero_volatility (slope : float) :
  trend_strength slope (Fin 0)
  = match slope with
    | Fin s => if Reqb s 0 then Fin 0 else Fin 100
    | NaN => Fin 0
    | PInf | NInf => Fin 100
    end.
Proof.
  unfold trend_strength, of_Z, pymax, pymin, fgtb.
  destruct slope as [s| | |]; cbn [fabs fmul fdiv].
  - destruct (Reqb_spec (0 * 10) 0); [|lra]. unfold signed_inf.
    destruct (Reqb_spec s 0) as [-> | Hs].
    + rewrite Rabs_R0. Rdecide. cbn. Rdecide. reflexivity.
    + pose proof (Rabs_pos_lt s Hs).
      destruct (Rltb_spec 0 (Rabs s)); [|lra]. cbn. unfold signed_inf.
      Rdecide. cbn. reflexivity.
  - fl_eval. reflexivity.
  - fl_eval. reflexivity.
  - fl_eval. reflexivity.
Qed.

Lemma Forall_finite_not_inf (l : list R) :
  Forall (fun x => isinf x = false) (map Fin l).
Proof.
  induction l; constructor; [reflexivity | assumption].
Qed.

Lemma np_min_finite (x : R) (l : list R) :
  exists m, np_min (map Fin (x :: l)) = Ok (Fin m).
Proof.
  destruct (fold_np_min2_finite l x) as [m Hm]. exists m. cbn. rewrite Hm.
  reflexivity.
Qed.

Lemma np_max_finite (x : R) (l : list R) :
  exists m, np_max (map Fin (x :: l)) = Ok (Fin m).
Proof.
  destruct (fold_np_max2_finite l x) as [m Hm]. exists m. cbn. rewrite Hm.
  reflexivity.
Qed.

(** [analyze_trend] on a history of at least two rows with finite closes and
    at least two finite predicted prices: the strength is [trend_strength]
    of the slope the solver answers and the population volatility, and
    every other number of the result is finite. *)
Lemma analyze_trend_finite (lstsq : solver) (r : Row) (df : DataFrame)
    (b : Batch) (cs ps : list R) :
  col_close (r :: df) = map Fin cs ->
  prices b = map Fin ps ->
  df <> [] ->
  (2 <= length ps)%nat ->
  exists t,
    polyfit_slope lstsq (arange (length (prices b))) (prices b)
    = Ok (Fin (lstsq (indices (length ps)) ps)) /\
    analyze_trend lstsq (Some (r :: df)) (Some b) = Ok t /\
    strength t
    = trend_strength (Fin (lstsq (indices (length ps)) ps))
        (series_std 0 (dropna (pct_change (map Fin cs)))) /\
    is_finite (support_level t) /\ is_finite (resistance_level t) /\
    is_finite (rsi t) /\ is_finite (macd t).
Proof.
  intros Hcs Hps Hdf Hlen.
  assert (Hlen' : (2 <= length (prices b))%nat)
    by (rewrite Hps, length_map; exact Hlen).
  destruct (analyze_trend_runs lstsq r df b Hdf Hlen')
    as (hs & slope & m1 & m2 & m3 & m4 & e12 & e26 & dir & _ & Hslope & Hm1
        & Hm2 & Hm3 & Hm4 & H12 & H26 & Hrun).
  rewrite Hcs in *. rewrite Hps in *. rewrite length_map in Hslope.
  rewrite (polyfit_slope_finite lstsq ps Hlen) in Hslope.
  inversion Hslope. subst slope.
  destruct cs as [|c cs']; [discriminate|].
  destruct ps as [|p ps']; [cbn in Hlen; lia|].
  destruct (tail_nonempty 19 c cs') as (y & ys & Hrec).
  rewrite tail_map, Hrec in Hm1, Hm3.
  destruct (np_min_finite y ys) as [a1 Ha1].
  destruct (np_min_finite p ps') as [a2 Ha2].
  destruct (np_max_finite y ys) as [a3 Ha3].
  destruct (np_max_finite p ps') as [a4 Ha4].
  rewrite Ha1 in Hm1. rewrite Ha2 in Hm2. rewrite Ha3 in Hm3.
  rewrite Ha4 in Hm4.
  inversion Hm1. inversion Hm2. inversion Hm3. inversion Hm4. subst.
  rewrite ewm_mean_last_adjusted in H12 by lra.
  rewrite ewm_mean_last_adjusted in H26 by lra.
  inversion H12. inversion H26. subst.
  eexists. split; [rewrite length_map; apply polyfit_slope_finite; exact Hlen|].
  split; [exact Hrun|].
  cbn [strength support_level resistance_level rsi macd].
  split; [reflexivity|].
  split; [rewrite pymin_finite; eexists; reflexivity|].
  split; [rewrite pymax_finite; eexists; reflexivity|].
  split.
  - rewrite tail_map, <- map_app.
    destruct (simple_rsi_bounds _ (Forall_finite_not_inf (tail 20 (c :: cs') ++ p :: ps')))
      as (v & Hv & _).
    exists v. exact Hv.
  - eexists. reflexivity.
Qed.

(** A single close has no percentage change, and [np.std] of nothing is
    [nan]. *)
Lemma single_row_volatility (x : float) :
  series_std 0 (dropna (pct_change [x])) = NaN.
Proof.
  unfold pct_change, shift1. destruct x; reflexivity.
Qed.

(** C1 (amended).  For a history of finite closes whose percentage changes
    have standard deviation zero (as [np.std] computes it; there are then at
    least two rows) and at least two finite predicted prices,
    [analyze_trend] returns, without raising, a result whose strength is 100
    when the slope [np.polyfit] fits to the predicted closes is not zero and
    0 when it is exactly zero.  The fitted slope is what the solver answers:
    it is not zero, and the strength 100, as soon as the solver's error is
    smaller than the least-squares slope.  Support, resistance, rsi and
    macd are finite: no [nan] and no infinity is returned. *)
Theorem C1_zero_volatility_strength (lstsq : solver) (r : Row)
    (df : DataFrame) (b : Batch) (cs ps : list R) :
  col_close (r :: df) = map Fin cs ->
  prices b = map Fin ps ->
  (2 <= length ps)%nat ->
  series_std 0 (dropna (pct_change (col_close (r :: df)))) = Fin 0 ->
  let pred_slope := lstsq (indices (length ps)) ps in
  exists t,
    polyfit_slope lstsq (arange (length (prices b))) (prices b)
    = Ok (Fin pred_slope) /\
    analyze_trend lstsq (Some (r :: df)) (Some b) = Ok t /\
    (pred_slope <> 0 -> strength t = Fin 100) /\
    (pred_slope = 0 -> strength t = Fin 0) /\
    (Rabs (pred_slope - ls_slope ps) < Rabs (ls_slope ps) ->
     strength t = Fin 100) /\
    is_finite (support_level t) /\ is_finite (resistance_level t) /\
    is_finite (rsi t) /\ is_finite (macd t).
Proof.
  intros Hcs Hps Hlen Hvol pred_slope.
  assert (Hdf : df <> []).
  { intros ->. cbn [col_close map] in Hvol.
    rewrite single_row_volatility in Hvol. discriminate. }
  destruct (analyze_trend_finite lstsq r df b cs ps Hcs Hps Hdf Hlen)
    as (t & Hslope & Hrun & Hstr & Hfin).
  rewrite <- Hcs, Hvol, trend_strength_zero_volatility in Hstr.
  fold pred_slope in Hstr, Hslope.
  assert (Hnz : pred_slope <> 0 -> strength t = Fin 100).
  { intros Hs. rewrite Hstr. destruct (Reqb_spec pred_slope 0);
      [contradiction | reflexivity]. }
  exists t. split; [exact Hslope|]. split; [exact Hrun|].
  split; [exact Hnz|]. split; [|split; [|exact Hfin]].
  - intros Hz. rewrite Hstr, Hz. destruct (Reqb_spec 0 0); [reflexivity | lra].
  - intros Herr. apply Hnz. intros Hz. rewrite Hz in Herr.
    unfold Rminus in Herr. rewrite Rplus_0_l, Rabs_Ropp in Herr. lra.
Qed.

Lemma flat_history_volatility :
  series_std 0 (dropna (pct_change (col_close Examples.flat_history))) = Fin 0.
Proof.
  unfold Examples.flat_history, Examples.flat_row, series_std, pct_change,
    dropna, np_sum, col_close, shift1.
  fl_eval. f_equal. apply sqrt_of_zero. field.
Qed.

Lemma exact_slope_50_51 : exact_lstsq (indices 2) [50; 51] = 1.
Proof.
  unfold exact_lstsq, dot, indices, Rsum. cbn. lra.
Qed.

(** The flat history (all closes 50) with predicted closes 50 and 51,
    fitted without rounding: the slope is 1 and the strength 100. *)
Lemma C1_zero_volatility_strength_witness :
  col_close Examples.flat_history = map Fin [50; 50; 50] /\
  prices (Examples.batch2 50 51) = map Fin [50; 51] /\
  (2 <= length [50; 51])%nat /\
  series_std 0 (dropna (pct_change (col_close Examples.flat_history))) = Fin 0 /\
  exists t,
    analyze_trend exact_lstsq (Some Examples.flat_history)
      (Some (Examples.batch2 50 51))
    = Ok t /\
    strength t = Fin 100.
Proof.
  assert (H1 : col_close Examples.flat_history = map Fin [50; 50; 50])
    by reflexivity.
  assert (H2 : prices (Examples.batch2 50 51) = map Fin [50; 51])
    by reflexivity.
  assert (H3 : (2 <= length [50; 51])%nat) by (cbn; lia).
  split; [exact H1|]. split; [exact H2|]. split; [exact H3|].
  split; [exact flat_history_volatility|].
  destruct (C1_zero_volatility_strength exact_lstsq
              (Examples.flat_row (add_days Examples.friday (-2)) 50)
              [Examples.flat_row (add_days Examples.friday (-1)) 50;
               Examples.flat_row Examples.friday 50]
              (Examples.batch2 50 51) [50; 50; 50] [50; 51]
              H1 H2 H3 flat_history_volatility)
    as (t & _ & Hrun & Hnz & _).
  exists t. split; [exact Hrun|].
  apply Hnz. cbn [length]. rewrite exact_slope_50_51. lra.
Defined.

Lemma nan_history_volatility :
  series_std 0 (dropna (pct_change (col_close MoreExamples.nan_history)))
  = Fin 0.
Proof.
  unfold MoreExamples.nan_history, Examples.flat_history, Examples.flat_row,
    series_std, pct_change, dropna, np_sum, col_close, shift1.
  fl_eval. f_equal. apply sqrt_of_zero. field.
Qed.

(** C1 as stated fails.  A history whose first close is missing and whose
    other closes are 50 has percentage changes of standard deviation zero,
    and the support level returned for it is [nan]; and for the flat
    history with a single predicted price nothing is returned, because
    [np.polyfit] raises [LinAlgError] on the single point. *)
Lemma C1_nan_close_counterexample :
  series_std 0 (dropna (pct_change (col_close MoreExamples.nan_history)))
  = Fin 0 /\
  prices (Examples.batch2 50 51) <> [] /\
  (exists t,
      analyze_trend exact_lstsq (Some MoreExamples.nan_history)
        (Some (Examples.batch2 50 51)) = Ok t /\
      support_level t = NaN) /\
  series_std 0 (dropna (pct_change (col_close Examples.flat_history)))
  = Fin 0 /\
  prices (MoreExamples.batch1 50) <> [] /\
  analyze_trend exact_lstsq (Some Examples.flat_history)
    (Some (MoreExamples.batch1 50)) = Raise LinAlgError.
Proof.
  split; [exact nan_history_volatility|]. split; [discriminate|].
  split.
  - destruct (analyze_trend_runs exact_lstsq
                (mk_row (add_days Examples.friday (-3)) NaN NaN NaN NaN)
                Examples.flat_history (Examples.batch2 50 51)
                ltac:(discriminate) ltac:(cbn; lia))
      as (hs & sl & m1 & m2 & m3 & m4 & e12 & e26 & dir & _ & _ & Hm1 & _
          & _ & _ & _ & _ & Hrun).
    eexists. split; [exact Hrun|]. cbn [support_level].
    cbv in Hm1. inversion Hm1. destruct m2; reflexivity.
  - split; [exact flat_history_volatility|]. split; [discriminate|].
    apply (analyze_trend_single_point exact_lstsq _ _ _ (Fin 50));
      [discriminate | reflexivity].
Qed.

Lemma std_positive_nonempty (ddof : nat) (xs : list R) :
  0 < std ddof xs -> (0 < length xs)%nat.
Proof.
  intros Hpos. destruct xs as [|x xs]; [|cbn; lia].
  exfalso. unfold std, Rsum in Hpos. cbn in Hpos.
  unfold Rdiv in Hpos. rewrite Rmult_0_l, sqrt_0 in Hpos. lra.
Qed.

(** [clamp] does not move two numbers apart. *)
Lemma clamp_close (x y e : R) :
  Rabs (x - y) <= e -> Rabs (clamp x - clamp y) <= e.
Proof.
  intros H.
  assert (H' : - e <= x - y <= e).
  { unfold Rabs in H. destruct (Rcase_abs (x - y)); lra. }
  apply Rabs_le.
  unfold clamp, Rmax. destruct (Rle_dec 0 x), (Rle_dec 0 y); unfold Rmin;
    repeat match goal with
           | |- context [Rle_dec ?a ?b] => destruct (Rle_dec a b)
           end; lra.
Qed.

(** The strength on finite data in the regular case: at least two rows and
    two predicted prices, no zero divisor among the closes, positive
    volatility. *)
Lemma strength_regular (lstsq : solver) (r : Row) (df : DataFrame)
    (b : Batch) (cs ps : list R) :
  col_close (r :: df) = map Fin cs ->
  prices b = map Fin ps ->
  df <> [] ->
  (2 <= length ps)%nat ->
  Forall (fun c => c <> 0) (removelast cs) ->
  0 < std 0 (pct_changes cs) ->
  exists t,
    analyze_trend lstsq (Some (r :: df)) (Some b) = Ok t /\
    series_std 0 (dropna (pct_change (map Fin cs)))
    = Fin (std 0 (pct_changes cs)) /\
    strength t
    = Fin (clamp (Rabs (lstsq (indices (length ps)) ps)
                  / (std 0 (pct_changes cs) * 10) * 100)).
Proof.
  intros Hcs Hps Hdf Hlen Hnz Hpos.
  destruct (analyze_trend_finite lstsq r df b cs ps Hcs Hps Hdf Hlen)
    as (t & _ & Hrun & Hstr & _).
  assert (Hvol : series_std 0 (dropna (pct_change (map Fin cs)))
                 = Fin (std 0 (pct_changes cs))).
  { rewrite (pct_change_finite cs Hnz).
    apply series_std_finite. apply (std_positive_nonempty 0). exact Hpos. }
  exists t. split; [exact Hrun|]. split; [exact Hvol|].
  rewrite Hstr, Hvol, (trend_strength_finite _ _ Hpos). reflexivity.
Qed.

(** C5 (amended).  For every history of at least two rows with finite
    closes and every list of at least two finite predicted prices, the
    strength [analyze_trend] returns is
    [min(100, max(0, |predSlope| / (volatility * 10) * 100))] where
    [predSlope] is the slope [np.polyfit] fits to the predicted closes
    against their index and [volatility] is [np.std] of the percentage
    changes of the closes of the whole history, that is their population
    standard deviation ([ddof = 0]).  In the regular case (no zero close
    used as a divisor, positive volatility) the strength is the real number
    [clamp(|predSlope| / (volatility * 10) * 100, 0, 100)]; it is the value
    of this formula at the least-squares slope when the solver answers that
    slope, and within [10 e / volatility] of it when the solver's error is
    at most [e]. *)
Theorem C5_strength_uses_population_volatility (lstsq : solver) (r : Row)
    (df : DataFrame) (b : Batch) (cs ps : list R) :
  col_close (r :: df) = map Fin cs ->
  prices b = map Fin ps ->
  df <> [] ->
  (2 <= length ps)%nat ->
  let pred_slope := lstsq (indices (length ps)) ps in
  exists t,
    polyfit_slope lstsq (arange (length (prices b))) (prices b)
    = Ok (Fin pred_slope) /\
    analyze_trend lstsq (Some (r :: df)) (Some b) = Ok t /\
    strength t
    = pymin (Fin 100)
        (pymax (Fin 0)
           (fabs (Fin pred_slope)
            / (series_std 0 (dropna (pct_change (map Fin cs))) * Fin 10)
            * Fin 100)%fl) /\
    (Forall (fun c => c <> 0) (removelast cs) ->
     0 < std 0 (pct_changes cs) ->
     series_std 0 (dropna (pct_change (map Fin cs)))
     = Fin (std 0 (pct_changes cs)) /\
     strength t
     = Fin (clamp (Rabs pred_slope / (std 0 (pct_changes cs) * 10) * 100)) /\
     (pred_slope = ls_slope ps ->
      strength t = Fin (strength_population cs ps)) /\
     (forall e,
         Rabs (pred_slope - ls_slope ps) <= e ->
         exists v,
           strength t = Fin v /\
           Rabs (v - strength_population cs ps)
           <= 10 * e / std 0 (pct_changes cs))).
Proof.
  intros Hcs Hps Hdf Hlen pred_slope.
  destruct (analyze_trend_finite lstsq r df b cs ps Hcs Hps Hdf Hlen)
    as (t & Hslope & Hrun & Hstr & _).
  exists t. split; [exact Hslope|]. split; [exact Hrun|].
  split; [exact Hstr|].
  intros Hnz Hpos.
  destruct (strength_regular lstsq r df b cs ps Hcs Hps Hdf Hlen Hnz Hpos)
    as (t' & Hrun' & Hvol & Hstr').
  pose proof (eq_trans (eq_sym Hrun) Hrun') as Ht. inversion Ht. subst t'.
  fold pred_slope in Hstr'.
  split; [exact Hvol|]. split; [exact Hstr'|]. split.
  - intros Hexact. rewrite Hstr', Hexact. reflexivity.
  - intros e He. eexists. split; [exact Hstr'|].
    unfold strength_population. apply clamp_close.
    set (sigma := std 0 (pct_changes cs)) in *.
    replace (Rabs pred_slope / (sigma * 10) * 100
             - Rabs (ls_slope ps) / (sigma * 10) * 100)
      with ((Rabs pred_slope - Rabs (ls_slope ps)) * (10 / sigma))
      by (field; lra).
    pose proof (Rabs_triang_inv2 pred_slope (ls_slope ps)) as Htri.
    assert (Hk : 0 < 10 / sigma) by (apply Rdiv_lt_0_compat; lra).
    rewrite Rabs_mult, (Rabs_right (10 / sigma)) by lra.
    replace (10 * e / sigma) with (e * (10 / sigma)) by (field; lra).
    apply Rmult_le_compat_r; lra.
Qed.

Lemma slope_1_2 : ls_slope [1; 2] = 1.
Proof.
  unfold ls_slope, dot, indices, Rsum. cbn. field.
Qed.

Lemma step_history_population_std : std 0 (pct_changes [1; 1; 2]) = 1 / 2.
Proof.
  unfold std, mean, pct_changes, Rsum. cbn.
  rewrite <- (sqrt_Rsqr (1 / 2)) by lra. f_equal. unfold Rsqr. field.
Qed.

Lemma step_history_sample_std : std 1 (pct_changes [1; 1; 2]) = sqrt (1 / 2).
Proof.
  unfold std, mean, pct_changes, Rsum. cbn. f_equal. field.
Qed.

Lemma step_history_strength :
  exists t,
    analyze_trend exact_lstsq (Some Examples.step_history)
      (Some (Examples.batch2 1 2))
    = Ok t /\
    strength t = Fin 20.
Proof.
  destruct (strength_regular exact_lstsq
              (Examples.flat_row (add_days Examples.friday (-2)) 1)
              [Examples.flat_row (add_days Examples.friday (-1)) 1;
               Examples.flat_row Examples.friday 2]
              (Examples.batch2 1 2) [1; 1; 2] [1; 2] eq_refl eq_refl)
    as (t & Hrun & _ & Hstr).
  - discriminate.
  - cbn. lia.
  - cbn. repeat constructor; lra.
  - rewrite step_history_population_std. lra.
  - exists t. split; [exact Hrun|]. rewrite Hstr. f_equal.
    rewrite (exact_lstsq_slope [1; 2]), slope_1_2, step_history_population_std.
    rewrite Rabs_R1. unfold clamp, Rmax, Rmin.
    replace (1 / (1 / 2 * 10) * 100) with 20 by field.
    destruct (Rle_dec 0 20); [|lra]. destruct (Rle_dec 100 20); lra.
Qed.

(** C5 as stated fails: for the closes 1, 1, 2 (percentage changes 0 and 1)
    and the predicted closes 1, 2 (slope 1) the strength returned is 20,
    the value for the population standard deviation 1/2; with the sample
    standard deviation [sqrt(1/2)] the formula gives about 14.1. *)
Lemma C5_sample_std_counterexample :
  exists t,
    analyze_trend exact_lstsq (Some Examples.step_history)
      (Some (Examples.batch2 1 2))
    = Ok t /\
    strength t = Fin 20 /\
    strength t <> Fin (strength_sample [1; 1; 2] [1; 2]).
Proof.
  destruct step_history_strength as (t & Hrun & Hstr).
  exists t. split; [exact Hrun|]. split; [exact Hstr|].
  rewrite Hstr. intros H. inversion H as [H20]. clear H.
  unfold strength_sample in H20.
  rewrite slope_1_2, step_history_sample_std, Rabs_R1 in H20.
  set (sigma := sqrt (1 / 2)) in *.
  assert (Hsq : sigma * sigma = 1 / 2) by (apply sqrt_sqrt; lra).
  assert (Hpos : 0 < sigma) by (apply sqrt_lt_R0; lra).
  set (X := 1 / (sigma * 10) * 100) in *.
  assert (HX : X * sigma = 10) by (unfold X; field; lra).
  unfold clamp, Rmax, Rmin in H20.
  destruct (Rle_dec 0 X); destruct (Rle_dec 100 _); try lra; nra.
Qed.

(** Closes 1, 1, 2 and predicted closes 1, 2, fitted without rounding: the
    regular case. *)
Lemma C5_strength_uses_population_volatility_witness :
  col_close Examples.step_history = map Fin [1; 1; 2] /\
  prices (Examples.batch2 1 2) = map Fin [1; 2] /\
  [Examples.flat_row (add_days Examples.friday (-1)) 1;
   Examples.flat_row Examples.friday 2] <> [] /\
  (2 <= length [1; 2])%nat /\
  Forall (fun c => c <> 0) (removelast [1; 1; 2]) /\
  0 < std 0 (pct_changes [1; 1; 2]) /\
  exact_lstsq (indices (length [1; 2])) [1; 2] = ls_slope [1; 2] /\
  exists t,
    analyze_trend exact_lstsq (Some Examples.step_history)
      (Some (Examples.batch2 1 2))
    = Ok t /\
    strength t = Fin (strength_population [1; 1; 2] [1; 2]).
Proof.
  assert (H1 : col_close Examples.step_history = map Fin [1; 1; 2])
    by reflexivity.
  assert (H2 : prices (Examples.batch2 1 2) = map Fin [1; 2]) by reflexivity.
  assert (H3 : [Examples.flat_row (add_days Examples.friday (-1)) 1;
                Examples.flat_row Examples.friday 2] <> []) by discriminate.
  assert (H4 : (2 <= length [1; 2])%nat) by (cbn; lia).
  assert (H5 : Forall (fun c => c <> 0) (removelast [1; 1; 2]))
    by (cbn; repeat constructor; lra).
  assert (H6 : 0 < std 0 (pct_changes [1; 1; 2]))
    by (rewrite step_history_population_std; lra).
  assert (H7 : exact_lstsq (indices (length [1; 2])) [1; 2] = ls_slope [1; 2])
    by (apply exact_lstsq_slope).
  repeat (split; [assumption|]).
  destruct (C5_strength_uses_population_volatility exact_lstsq
              (Examples.flat_row (add_days Examples.friday (-2)) 1)
              [Examples.flat_row (add_days Examples.friday (-1)) 1;
               Examples.flat_row Examples.friday 2]
              (Examples.batch2 1 2) [1; 1; 2] [1; 2] H1 H2 H3 H4)
    as (t & _ & Hrun & _ & Hreg).
  exists t. split; [exact Hrun|].
  destruct (Hreg H5 H6) as (_ & _ & Hexact & _). apply Hexact. exact H7.
Defined.

(* ================================================================== *)
(** * Further properties *)

(** ** [analyze_trend]: strength, direction, support and resistance *)

Lemma clamp_any_float (y : float) :
  exists v, pymin (of_Z 100) (pymax (of_Z 0) y) = Fin v /\ 0 <= v <= 100.
Proof.
  unfold pymin, pymax, fgtb, of_Z.
  destruct y as [r| | |]; cbn [fltb].
  - destruct (Rltb_spec 0 r); cbn [fltb].
    + destruct (Rltb_spec r 100); eexists; (split; [reflexivity | lra]).
    + destruct (Rltb_spec 0 100); [|lra]. exists 0. split; [reflexivity | lra].
  - cbn. exists 100. split; [reflexivity | lra].
  - cbn. destruct (Rltb_spec 0 100); [|lra]. exists 0. split; [reflexivity | lra].
  - cbn. destruct (Rltb_spec 0 100); [|lra]. exists 0. split; [reflexivity | lra].
Qed.

(** When [analyze_trend] returns on a non-empty history and a non-empty
    prediction, the history has at least two rows and the prediction at
    least two prices. *)
Lemma analyze_trend_returns_only (lstsq : solver) (r : Row) (df : DataFrame)
    (b : Batch) (t : Trend) :
  prices b <> [] ->
  analyze_trend lstsq (Some (r :: df)) (Some b) = Ok t ->
  df <> [] /\ (2 <= length (prices b))%nat.
Proof.
  intros Hne Hrun.
  assert (Hdf : df <> []).
  { intros ->.
    pose proof (eq_trans (eq_sym (analyze_trend_single_row lstsq r b Hne))
                  Hrun) as Hno.
    discriminate Hno. }
  split; [exact Hdf|].
  destruct (prices b) as [|x [|y l]] eqn:Ep; [contradiction| |cbn; lia].
  pose proof (eq_trans
                (eq_sym (analyze_trend_single_point lstsq r df b x Hdf Ep))
                Hrun) as Hno.
  discriminate Hno.
Qed.

(** X1.  Whatever the history and the prediction (infinite and [nan] values
    included) and whatever the solver answers, whenever [analyze_trend]
    returns, the strength it returns is a number between 0 and 100. *)
Theorem X1_strength_between_0_and_100 (lstsq : solver)
    (h : option DataFrame) (p : option Batch) (t : Trend) :
  analyze_trend lstsq h p = Ok t ->
  exists v, strength t = Fin v /\ 0 <= v <= 100.
Proof.
  intros Hrun.
  assert (Hneutral : exists v, strength neutral_trend = Fin v /\ 0 <= v <= 100).
  { exists 0. split; [reflexivity | lra]. }
  destruct h as [[|r df]|]; try (cbn in Hrun; inversion Hrun; exact Hneutral).
  destruct p as [b|]; [|cbn in Hrun; discriminate].
  destruct (prices b) as [|x xs] eqn:Ep.
  - unfold analyze_trend in Hrun. cbn [df_empty getitem_prices bind] in Hrun.
    rewrite Ep in Hrun. cbn in Hrun. inversion Hrun. exact Hneutral.
  - assert (Hne : prices b <> []) by (rewrite Ep; discriminate).
    destruct (analyze_trend_returns_only lstsq r df b t Hne Hrun)
      as [Hdf Hlen].
    destruct (analyze_trend_runs lstsq r df b Hdf Hlen)
      as (hs & ps & m1 & m2 & m3 & m4 & e1 & e2 & dir & _ & _ & _ & _ & _ & _
          & _ & _ & Hrun').
    pose proof (eq_trans (eq_sym Hrun') Hrun) as Heq. inversion Heq.
    cbn [strength]. unfold trend_strength. apply clamp_any_float.
Qed.

(** A flat history with two predicted closes, fitted without rounding. *)
Lemma X1_strength_between_0_and_100_witness :
  exists t,
    analyze_trend exact_lstsq (Some Examples.flat_history)
      (Some (Examples.batch2 50 51))
    = Ok t /\
    exists v, strength t = Fin v /\ 0 <= v <= 100.
Proof.
  destruct (analyze_trend_finite exact_lstsq
              (Examples.flat_row (add_days Examples.friday (-2)) 50)
              [Examples.flat_row (add_days Examples.friday (-1)) 50;
               Examples.flat_row Examples.friday 50]
              (Examples.batch2 50 51) [50; 50; 50] [50; 51]
              eq_refl eq_refl ltac:(discriminate) ltac:(cbn; lia))
    as (t & _ & Hrun & _).
  exists t. split; [exact Hrun|].
  exact (X1_strength_between_0_and_100 _ _ _ t Hrun).
Defined.

Lemma fold_np_min2_Rmin (l : list R) (x : R) :
  fold_left np_min2 (map Fin l) (Fin x) = Fin (Rlist_min x l).
Proof.
  unfold Rlist_min. revert x.
  induction l as [|y l IH]; intros x; cbn [map fold_left]; [reflexivity|].
  replace (np_min2 (Fin x) (Fin y)) with (Fin (Rmin x y)); [apply IH|].
  unfold np_min2, Rmin. cbn.
  destruct (Rltb_spec y x), (Rle_dec x y); try lra; reflexivity.
Qed.

Lemma fold_np_max2_Rmax (l : list R) (x : R) :
  fold_left np_max2 (map Fin l) (Fin x) = Fin (Rlist_max x l).
Proof.
  unfold Rlist_max. revert x.
  induction l as [|y l IH]; intros x; cbn [map fold_left]; [reflexivity|].
  replace (np_max2 (Fin x) (Fin y)) with (Fin (Rmax x y)); [apply IH|].
  unfold np_max2, fgtb, Rmax. cbn.
  destruct (Rltb_spec x y), (Rle_dec x y); try lra; try reflexivity.
  f_equal. lra.
Qed.

Lemma Rlist_min_spec (l : list R) (x : R) :
  In (Rlist_min x l) (x :: l) /\ forall y, In y (x :: l) -> Rlist_min x l <= y.
Proof.
  unfold Rlist_min. revert x.
  induction l as [|z l IH]; intros x; cbn [fold_left].
  - split; [left; reflexivity|]. intros y [<- | []]. lra.
  - destruct (IH (Rmin x z)) as [Hin Hle]. split.
    + destruct Hin as [Heq | Hin]; [|right; right; exact Hin].
      rewrite <- Heq. unfold Rmin. destruct (Rle_dec x z); cbn; auto.
    + intros y Hy.
      assert (Hm : fold_left Rmin l (Rmin x z) <= Rmin x z)
        by (apply Hle; left; reflexivity).
      destruct Hy as [<- | [<- | Hy]].
      * pose proof (Rmin_l x z). lra.
      * pose proof (Rmin_r x z). lra.
      * apply Hle. right. exact Hy.
Qed.

Lemma Rlist_max_spec (l : list R) (x : R) :
  In (Rlist_max x l) (x :: l) /\ forall y, In y (x :: l) -> y <= Rlist_max x l.
Proof.
  unfold Rlist_max. revert x.
  induction l as [|z l IH]; intros x; cbn [fold_left].
  - split; [left; reflexivity|]. intros y [<- | []]. lra.
  - destruct (IH (Rmax x z)) as [Hin Hle]. split.
    + destruct Hin as [Heq | Hin]; [|right; right; exact Hin].
      rewrite <- Heq. unfold Rmax. destruct (Rle_dec x z); cbn; auto.
    + intros y Hy.
      assert (Hm : Rmax x z <= fold_left Rmax l (Rmax x z))
        by (apply Hle; left; reflexivity).
      destruct Hy as [<- | [<- | Hy]].
      * pose proof (Rmax_l x z). lra.
      * pose proof (Rmax_r x z). lra.
      * apply Hle. right. exact Hy.
Qed.

(** X3.  For a history of at least two rows with finite closes and at
    least two finite predicted prices, the support level is 0.98 times the
    smallest and the resistance level 1.02 times the largest of the closes
    of the window (the last 20 historical closes and the predicted closes);
    so when all these closes are positive, every one of them lies strictly
    between support and resistance. *)
Theorem X3_support_and_resistance_bracket (lstsq : solver) (r : Row)
    (df : DataFrame) (b : Batch) (cs ps : list R) :
  col_close (r :: df) = map Fin cs ->
  prices b = map Fin ps ->
  df <> [] ->
  (2 <= length ps)%nat ->
  exists t lo hi,
    analyze_trend lstsq (Some (r :: df)) (Some b) = Ok t /\
    support_level t = Fin (lo * (98 / 100)) /\
    resistance_level t = Fin (hi * (102 / 100)) /\
    In lo (window cs ps) /\ In hi (window cs ps) /\
    (forall x, In x (window cs ps) -> lo <= x <= hi) /\
    ((forall x, In x (window cs ps) -> 0 < x) ->
     forall x, In x (window cs ps) ->
       lo * (98 / 100) < x < hi * (102 / 100)).
Proof.
  intros Hcs Hps Hdf Hlen.
  assert (Hlen' : (2 <= length (prices b))%nat)
    by (rewrite Hps, length_map; exact Hlen).
  destruct (analyze_trend_runs lstsq r df b Hdf Hlen')
    as (hs & slope & m1 & m2 & m3 & m4 & e12 & e26 & dir & _ & _ & Hm1
        & Hm2 & Hm3 & Hm4 & _ & _ & Hrun).
  rewrite Hcs in *. rewrite Hps in *.
  destruct cs as [|c cs']; [discriminate|].
  destruct ps as [|p ps']; [cbn in Hlen; lia|].
  destruct (tail_nonempty 19 c cs') as (y & ys & Hrec).
  rewrite tail_map, Hrec in Hm1, Hm3. cbn [map np_min np_max] in *.
  rewrite fold_np_min2_Rmin in Hm1, Hm2.
  rewrite fold_np_max2_Rmax in Hm3, Hm4.
  inversion Hm1. inversion Hm2. inversion Hm3. inversion Hm4. subst.
  destruct (Rlist_min_spec ys y) as [Hi1 Hl1].
  destruct (Rlist_min_spec ps' p) as [Hi2 Hl2].
  destruct (Rlist_max_spec ys y) as [Hi3 Hl3].
  destruct (Rlist_max_spec ps' p) as [Hi4 Hl4].
  assert (Hwin : forall x, In x (window (c :: cs') (p :: ps')) <->
                           In x (y :: ys) \/ In x (p :: ps')).
  { intros x. unfold window. rewrite Hrec. apply in_app_iff. }
  eexists.
  exists (Rmin (Rlist_min y ys) (Rlist_min p ps')),
         (Rmax (Rlist_max y ys) (Rlist_max p ps')).
  split; [exact Hrun|]. cbn [support_level resistance_level].
  rewrite pymin_finite, pymax_finite.
  split; [reflexivity|]. split; [reflexivity|].
  assert (Hlo : In (Rmin (Rlist_min y ys) (Rlist_min p ps'))
                  (window (c :: cs') (p :: ps'))).
  { apply Hwin. unfold Rmin. destruct (Rle_dec _ _); auto. }
  assert (Hhi : In (Rmax (Rlist_max y ys) (Rlist_max p ps'))
                  (window (c :: cs') (p :: ps'))).
  { apply Hwin. unfold Rmax. destruct (Rle_dec _ _); auto. }
  assert (Hall : forall x, In x (window (c :: cs') (p :: ps')) ->
                   Rmin (Rlist_min y ys) (Rlist_min p ps') <= x
                   <= Rmax (Rlist_max y ys) (Rlist_max p ps')).
  { intros x Hx. apply Hwin in Hx.
    pose proof (Rmin_l (Rlist_min y ys) (Rlist_min p ps')).
    pose proof (Rmin_r (Rlist_min y ys) (Rlist_min p ps')).
    pose proof (Rmax_l (Rlist_max y ys) (Rlist_max p ps')).
    pose proof (Rmax_r (Rlist_max y ys) (Rlist_max p ps')).
    destruct Hx as [Hx | Hx].
    - specialize (Hl1 x Hx). specialize (Hl3 x Hx). lra.
    - specialize (Hl2 x Hx). specialize (Hl4 x Hx). lra. }
  split; [exact Hlo|]. split; [exact Hhi|]. split; [exact Hall|].
  intros Hpos x Hx.
  pose proof (Hall x Hx). pose proof (Hpos x Hx). pose proof (Hpos _ Hlo).
  pose proof (Hpos _ Hhi). lra.
Qed.

(** The flat history with predicted closes 50 and 51. *)
Lemma X3_support_and_resistance_bracket_witness :
  col_close Examples.flat_history = map Fin [50; 50; 50] /\
  prices (Examples.batch2 50 51) = map Fin [50; 51] /\
  [Examples.flat_row (add_days Examples.friday (-1)) 50;
   Examples.flat_row Examples.friday 50] <> [] /\
  (2 <= length [50; 51])%nat /\
  exists t lo hi,
    analyze_trend exact_lstsq (Some Examples.flat_history)
      (Some (Examples.batch2 50 51))
    = Ok t /\
    support_level t = Fin (lo * (98 / 100)) /\
    resistance_level t = Fin (hi * (102 / 100)) /\
    In lo (window [50; 50; 50] [50; 51]) /\
    In hi (window [50; 50; 50] [50; 51]).
Proof.
  assert (H1 : col_close Examples.flat_history = map Fin [50; 50; 50])
    by reflexivity.
  assert (H2 : prices (Examples.batch2 50 51) = map Fin [50; 51])
    by reflexivity.
  assert (H3 : [Examples.flat_row (add_days Examples.friday (-1)) 50;
                Examples.flat_row Examples.friday 50] <> [])
    by discriminate.
  assert (H4 : (2 <= length [50; 51])%nat) by (cbn; lia).
  split; [exact H1|]. split; [exact H2|]. split; [exact H3|].
  split; [exact H4|].
  destruct (X3_support_and_resistance_bracket exact_lstsq
              (Examples.flat_row (add_days Examples.friday (-2)) 50)
              [Examples.flat_row (add_days Examples.friday (-1)) 50;
               Examples.flat_row Examples.friday 50]
              (Examples.batch2 50 51) [50; 50; 50] [50; 51] H1 H2 H3 H4)
    as (t & lo & hi & Hrun & Hs & Hr & Hlo & Hhi & _).
  exists t, lo, hi. repeat split; assumption.
Defined.

(** The direction [analyze_trend] reports is read off the slope fitted to
    the predicted prices. *)
Lemma analyze_trend_direction (lstsq : solver) (r : Row) (df : DataFrame)
    (b : Batch) :
  df <> [] ->
  (2 <= length (prices b))%nat ->
  exists t pred_slope,
    analyze_trend lstsq (Some (r :: df)) (Some b) = Ok t /\
    polyfit_slope lstsq (arange (length (prices b))) (prices b)
    = Ok pred_slope /\
    trend_direction t
    = if fgtb pred_slope (Fin (1 / 1000)) then upward
      else if fltb pred_slope (Fin (- (1 / 1000))) then downward
      else sideways.
Proof.
  intros Hdf Hps.
  assert (Hrec2 : (2 <= length (tail 20 (col_close (r :: df))))%nat).
  { rewrite length_tail. cbn [col_close map length].
    rewrite length_map. destruct df; [contradiction|]. cbn [length]. lia. }
  destruct (polyfit_slope_runs lstsq _ Hrec2) as (hs & Hhs & _).
  destruct (polyfit_slope_runs lstsq (prices b) Hps) as (sl & Hsl & _).
  unfold analyze_trend. cbn [df_empty getitem_prices bind].
  rewrite Hhs, Hsl.
  destruct (prices b) as [|p ps] eqn:Ep; [cbn in Hps; lia|]. cbn [is_empty].
  destruct (tail_nonempty 19 (close r) (map close df)) as (y & ys & Hrec).
  change (tail 20 (col_close (r :: df))) with (tail 20 (close r :: map close df)).
  rewrite Hrec.
  cbn [np_min np_max bind].
  cbn [col_close map ewm_mean_last bind].
  eexists. eexists. split; [reflexivity|]. split; reflexivity.
Qed.

Lemma length_progression (p d : R) (n : nat) : length (progression p d n) = n.
Proof.
  unfold progression. rewrite length_map, length_seq. reflexivity.
Qed.

Lemma Rsum_progression (p d : R) (n : nat) :
  Rsum (progression p d n) = INR n * p + d * Rsum (indices n).
Proof.
  unfold progression, indices. induction n as [|n IH].
  - cbn. lra.
  - rewrite !seq_S, !map_app, !Rsum_app, IH, S_INR.
    unfold Rsum. cbn [map fold_right Nat.add]. lra.
Qed.

Lemma combine_snoc {A B : Type} (l1 : list A) (l2 : list B) (a : A) (b : B) :
  length l1 = length l2 ->
  combine (l1 ++ [a]) (l2 ++ [b]) = combine l1 l2 ++ [(a, b)].
Proof.
  revert l2. induction l1 as [|x l1 IH]; intros [|y l2] Hlen; try discriminate.
  - reflexivity.
  - cbn. rewrite IH by (cbn in Hlen; lia). reflexivity.
Qed.

Lemma dot_progression (p d : R) (n : nat) :
  dot (indices n) (progression p d n)
  = p * Rsum (indices n) + d * dot (indices n) (indices n).
Proof.
  unfold dot, progression, indices. induction n as [|n IH].
  - cbn. lra.
  - rewrite !seq_S, !map_app. cbn [map Nat.add].
    rewrite combine_self_app, combine_snoc
      by (rewrite !length_map; reflexivity).
    rewrite !map_app, !Rsum_app, IH.
    unfold Rsum. cbn [map fold_right fst snd]. lra.
Qed.

(** The least-squares slope of an arithmetic progression is its step. *)
Lemma ls_slope_progression (p d : R) (n : nat) :
  (2 <= n)%nat -> ls_slope (progression p d n) = d.
Proof.
  intros Hn. pose proof (indices_spread n Hn) as HD.
  unfold ls_slope. cbn zeta. rewrite length_progression.
  rewrite dot_progression, Rsum_progression. field. lra.
Qed.

(** X2.  When the predicted closes advance by a constant step [d] (at least
    two of them, on a history of at least two rows), their least-squares
    slope is [d]; and when the solver's error on them is at most [e], the
    direction reported is upward for [d > 0.001 + e], downward for
    [d < -0.001 - e] and sideways for [-0.001 + e <= d <= 0.001 - e]. *)
Theorem X2_direction_of_a_linear_prediction (lstsq : solver) (r : Row)
    (df : DataFrame) (b : Batch) (p d e : R) (n : nat) :
  prices b = map Fin (progression p d n) ->
  df <> [] ->
  (2 <= n)%nat ->
  Rabs (lstsq (indices n) (progression p d n)
        - ls_slope (progression p d n)) <= e ->
  exists t,
    analyze_trend lstsq (Some (r :: df)) (Some b) = Ok t /\
    ls_slope (progression p d n) = d /\
    polyfit_slope lstsq (arange n) (prices b)
    = Ok (Fin (lstsq (indices n) (progression p d n))) /\
    (1 / 1000 + e < d -> trend_direction t = upward) /\
    (d < - (1 / 1000) - e -> trend_direction t = downward) /\
    (- (1 / 1000) + e <= d <= 1 / 1000 - e -> trend_direction t = sideways).
Proof.
  intros Hps Hdf Hn Herr.
  assert (Hlen : (2 <= length (progression p d n))%nat)
    by (rewrite length_progression; exact Hn).
  assert (Hlen' : (2 <= length (prices b))%nat)
    by (rewrite Hps, length_map; exact Hlen).
  destruct (analyze_trend_direction lstsq r df b Hdf Hlen')
    as (t & slope & Hrun & Hslope & Hdir).
  pose proof (polyfit_slope_finite lstsq (progression p d n) Hlen) as Hfit.
  rewrite length_progression in Hfit.
  rewrite Hps, length_map, length_progression in Hslope.
  rewrite Hfit in Hslope. inversion Hslope. subst slope.
  rewrite (ls_slope_progression p d n Hn) in Herr.
  set (s := lstsq (indices n) (progression p d n)) in *.
  assert (Hs : d - e <= s <= d + e).
  { unfold Rabs in Herr. destruct (Rcase_abs (s - d)); lra. }
  exists t. split; [exact Hrun|].
  split; [apply ls_slope_progression; exact Hn|].
  split; [rewrite Hps; exact Hfit|].
  rewrite Hdir. unfold fgtb. cbn [fltb].
  repeat split; intros Hd;
    destruct (Rltb_spec (1 / 1000) s), (Rltb_spec s (- (1 / 1000)));
    try lra; reflexivity.
Qed.

(** Predicted closes 50 and 51 on the flat history, fitted without
    rounding: upward. *)
Lemma X2_direction_of_a_linear_prediction_witness :
  prices (Examples.batch2 50 51) = map Fin (progression 50 1 2) /\
  [Examples.flat_row (add_days Examples.friday (-1)) 50;
   Examples.flat_row Examples.friday 50] <> [] /\
  (2 <= 2)%nat /\
  Rabs (exact_lstsq (indices 2) (progression 50 1 2)
        - ls_slope (progression 50 1 2)) <= 0 /\
  exists t,
    analyze_trend exact_lstsq (Some Examples.flat_history)
      (Some (Examples.batch2 50 51))
    = Ok t /\
    trend_direction t = upward.
Proof.
  assert (H1 : prices (Examples.batch2 50 51) = map Fin (progression 50 1 2)).
  { unfold progression. cbn. repeat f_equal; lra. }
  assert (H2 : [Examples.flat_row (add_days Examples.friday (-1)) 50;
                Examples.flat_row Examples.friday 50] <> [])
    by discriminate.
  assert (H3 : (2 <= 2)%nat) by lia.
  assert (H4 : Rabs (exact_lstsq (indices 2) (progression 50 1 2)
                     - ls_slope (progression 50 1 2)) <= 0).
  { rewrite <- (exact_lstsq_slope (progression 50 1 2)).
    rewrite length_progression.
    unfold Rminus. rewrite Rplus_opp_r, Rabs_R0. lra. }
  split; [exact H1|]. split; [exact H2|]. split; [exact H3|].
  split; [exact H4|].
  destruct (X2_direction_of_a_linear_prediction exact_lstsq
              (Examples.flat_row (add_days Examples.friday (-2)) 50)
              [Examples.flat_row (add_days Examples.friday (-1)) 50;
               Examples.flat_row Examples.friday 50]
              (Examples.batch2 50 51) 50 1 0 2 H1 H2 H3 H4)
    as (t & Hrun & _ & _ & Hup & _).
  exists t. split; [exact Hrun|]. apply Hup. lra.
Defined.

(** ** [analyze_trend]: the rsi and the macd *)

Lemma np_diff_finite (xs : list R) : np_diff (map Fin xs) = map Fin (Rdiff xs).
Proof.
  induction xs as [|a [|b t] IH]; try reflexivity.
  change (np_diff (map Fin (a :: b :: t)))
    with ((Fin b - Fin a)%fl :: np_diff (map Fin (b :: t))).
  rewrite IH. reflexivity.
Qed.

Lemma filter_positive_finite (ds : list R) :
  filter (fun d => fgtb d (of_Z 0)) (map Fin ds)
  = map Fin (filter (fun d => Rltb 0 d) ds).
Proof.
  induction ds as [|d ds IH]; [reflexivity|].
  cbn [map filter]. unfold fgtb at 1, of_Z at 1. cbn [fltb].
  destruct (Rltb 0 d); cbn [map]; rewrite IH; reflexivity.
Qed.

Lemma filter_negative_finite (ds : list R) :
  filter (fun d => fltb d (of_Z 0)) (map Fin ds)
  = map Fin (filter (fun d => Rltb d 0) ds).
Proof.
  induction ds as [|d ds IH]; [reflexivity|].
  cbn [map filter]. unfold of_Z at 1. cbn [fltb].
  destruct (Rltb d 0); cbn [map]; rewrite IH; reflexivity.
Qed.

Lemma Rsum_positive_part (ds : list R) :
  0 <= Rsum (filter (fun d => Rltb 0 d) ds).
Proof.
  unfold Rsum. induction ds as [|d ds IH]; cbn [filter fold_right]; [lra|].
  destruct (Rltb_spec 0 d); cbn [fold_right]; lra.
Qed.

Lemma Rsum_negative_part (ds : list R) :
  Rsum (filter (fun d => Rltb d 0) ds) <= 0.
Proof.
  unfold Rsum. induction ds as [|d ds IH]; cbn [filter fold_right]; [lra|].
  destruct (Rltb_spec d 0); cbn [fold_right]; lra.
Qed.

Lemma Rsum_by_sign (ds : list R) :
  Rsum (filter (fun d => Rltb 0 d) ds) + Rsum (filter (fun d => Rltb d 0) ds)
  = Rsum ds.
Proof.
  unfold Rsum. induction ds as [|d ds IH]; cbn [filter fold_right]; [lra|].
  destruct (Rltb_spec 0 d), (Rltb_spec d 0); cbn [fold_right]; lra.
Qed.

Lemma Rsum_Rdiff (x : R) (l : list R) :
  Rsum (Rdiff (x :: l)) = last (x :: l) 0 - x.
Proof.
  revert x. induction l as [|y l IH]; intros x.
  - cbn. lra.
  - change (Rdiff (x :: y :: l)) with ((y - x) :: Rdiff (y :: l)).
    change (last (x :: y :: l) 0) with (last (y :: l) 0).
    unfold Rsum in *. cbn [fold_right]. rewrite IH. lra.
Qed.

Lemma gains_minus_losses (x : R) (l : list R) :
  gains (x :: l) - losses (x :: l) = last (x :: l) 0 - x.
Proof.
  unfold gains, losses.
  pose proof (Rsum_negative_part (Rdiff (x :: l))) as Hneg.
  rewrite Rabs_left1 by exact Hneg.
  rewrite <- Rsum_Rdiff, <- (Rsum_by_sign (Rdiff (x :: l))). lra.
Qed.

(** The "simple RSI" of finite closes, in terms of gains and losses. *)
Lemma simple_rsi_finite (xs : list R) :
  simple_rsi (map Fin xs)
  = Fin (if Reqb (losses xs) 0 then 100
         else 100 * gains xs / (gains xs + losses xs)).
Proof.
  unfold simple_rsi.
  rewrite np_diff_finite, filter_positive_finite, filter_negative_finite,
    !np_sum_finite.
  fold (gains xs). cbn [fabs]. fold (losses xs).
  unfold of_Z. cbn [feqb].
  pose proof (Rsum_positive_part (Rdiff xs)) as Hg. fold (gains xs) in Hg.
  assert (Hl : 0 <= losses xs) by apply Rabs_pos.
  destruct (Reqb_spec (losses xs) 0) as [Hz | Hnz]; [reflexivity|].
  cbn [fdiv]. destruct (Reqb_spec (losses xs) 0); [contradiction|].
  cbn [fadd fdiv].
  assert (Hq : 0 <= gains xs / losses xs) by (apply Rdiv_nonneg; lra).
  destruct (Reqb_spec (1 + gains xs / losses xs) 0); [lra|].
  cbn [fsub fopp fadd]. f_equal. field. lra.
Qed.

(** X4.  For a history of at least two rows with finite closes and at
    least two finite predicted prices, with gains [G] and losses [L] over
    the window (the last 20 historical closes followed by the predicted
    closes): neither [G] nor [L] is negative, the rsi is 100 if [L = 0] and
    [100 G / (G + L)] otherwise, and [G - L] is the net change from the
    first to the last close of the window. *)
Theorem X4_rsi_and_net_change (lstsq : solver) (r : Row) (df : DataFrame)
    (b : Batch) (cs ps : list R) :
  col_close (r :: df) = map Fin cs ->
  prices b = map Fin ps ->
  df <> [] ->
  (2 <= length ps)%nat ->
  let w := window cs ps in
  exists t v,
    analyze_trend lstsq (Some (r :: df)) (Some b) = Ok t /\
    rsi t = Fin v /\
    0 <= gains w /\ 0 <= losses w /\
    (losses w = 0 -> v = 100) /\
    (losses w <> 0 -> v = 100 * gains w / (gains w + losses w)) /\
    gains w - losses w = last w 0 - hd 0 w.
Proof.
  intros Hcs Hps Hdf Hlen w.
  assert (Hlen' : (2 <= length (prices b))%nat)
    by (rewrite Hps, length_map; exact Hlen).
  assert (Hne : ps <> []) by (destruct ps; [cbn in Hlen; lia | discriminate]).
  destruct (analyze_trend_runs lstsq r df b Hdf Hlen')
    as (hs & slope & m1 & m2 & m3 & m4 & e12 & e26 & dir & _ & _ & _ & _ & _
        & _ & _ & _ & Hrun).
  rewrite Hcs, Hps, tail_map, <- map_app in Hrun. fold (window cs ps) in Hrun.
  fold w in Hrun. rewrite simple_rsi_finite in Hrun.
  assert (Hw : exists x l, w = x :: l).
  { unfold w, window. destruct (tail 20 cs ++ ps) as [|x l] eqn:E.
    - apply app_eq_nil in E. destruct E as [_ E]. contradiction.
    - exists x, l. reflexivity. }
  destruct Hw as (x & l & Hw).
  pose proof (gains_minus_losses x l) as Hnet. rewrite <- Hw in Hnet.
  assert (Hhd : hd 0 w = x) by (rewrite Hw; reflexivity).
  rewrite <- Hhd in Hnet.
  pose proof (Rsum_positive_part (Rdiff w)) as Hg. fold (gains w) in Hg.
  assert (Hl : 0 <= losses w) by apply Rabs_pos.
  eexists. eexists. split; [exact Hrun|]. cbn [rsi]. split; [reflexivity|].
  split; [exact Hg|]. split; [exact Hl|].
  destruct (Reqb_spec (losses w) 0) as [Hz | Hnz].
  - split; [reflexivity|]. split; [contradiction | exact Hnet].
  - split; [contradiction|]. split; [reflexivity | exact Hnet].
Qed.

(** The flat history with predicted closes 50 and 51: no loss in the
    window, so the rsi is 100. *)
Lemma X4_rsi_and_net_change_witness :
  col_close Examples.flat_history = map Fin [50; 50; 50] /\
  prices (Examples.batch2 50 51) = map Fin [50; 51] /\
  [Examples.flat_row (add_days Examples.friday (-1)) 50;
   Examples.flat_row Examples.friday 50] <> [] /\
  (2 <= length [50; 51])%nat /\
  exists t,
    analyze_trend exact_lstsq (Some Examples.flat_history)
      (Some (Examples.batch2 50 51))
    = Ok t /\
    rsi t = Fin 100.
Proof.
  assert (H1 : col_close Examples.flat_history = map Fin [50; 50; 50])
    by reflexivity.
  assert (H2 : prices (Examples.batch2 50 51) = map Fin [50; 51])
    by reflexivity.
  assert (H3 : [Examples.flat_row (add_days Examples.friday (-1)) 50;
                Examples.flat_row Examples.friday 50] <> [])
    by discriminate.
  assert (H4 : (2 <= length [50; 51])%nat) by (cbn; lia).
  split; [exact H1|]. split; [exact H2|]. split; [exact H3|].
  split; [exact H4|].
  destruct (X4_rsi_and_net_change exact_lstsq
              (Examples.flat_row (add_days Examples.friday (-2)) 50)
              [Examples.flat_row (add_days Examples.friday (-1)) 50;
               Examples.flat_row Examples.friday 50]
              (Examples.batch2 50 51) [50; 50; 50] [50; 51] H1 H2 H3 H4)
    as (t & v & Hrun & Hv & _ & _ & Hfull & _).
  exists t. split; [exact Hrun|]. rewrite Hv. f_equal. apply Hfull.
  unfold losses, window, tail, Rdiff, Rsum. cbn.
  repeat match goal with
         | |- context [Rltb ?a ?b] => destruct (Rltb_spec a b); try lra
         end; cbn; rewrite Rabs_R0; reflexivity.
Defined.

Lemma ewm_fold_constant (f : float) (c : R) (l : list float) :
  Forall (fun x => x = Fin c) l ->
  forall w, fst (fold_left (ewm_step f) l (Fin c, w)) = Fin c.
Proof.
  induction 1 as [|x l Hx Hl IH]; intros w; [reflexivity|].
  subst x. cbn [fold_left]. unfold ewm_step at 2. cbn [isnan negb feqb].
  destruct (Reqb_spec c c); [|contradiction]. cbn [negb]. apply IH.
Qed.

(** X5.  On a history of at least two rows whose closes are all the same
    finite number the macd is 0, whatever the prediction of at least two
    prices. *)
Theorem X5_macd_of_a_flat_history (lstsq : solver) (r : Row)
    (df : DataFrame) (b : Batch) (c : R) :
  Forall (fun x => x = Fin c) (col_close (r :: df)) ->
  df <> [] ->
  (2 <= length (prices b))%nat ->
  exists t,
    analyze_trend lstsq (Some (r :: df)) (Some b) = Ok t /\ macd t = Fin 0.
Proof.
  intros Hflat Hdf Hlen.
  destruct (analyze_trend_runs lstsq r df b Hdf Hlen)
    as (hs & slope & m1 & m2 & m3 & m4 & e12 & e26 & dir & _ & _ & _ & _ & _
        & _ & H12 & H26 & Hrun).
  cbn [col_close map] in Hflat, H12, H26.
  inversion Hflat as [|x l Hx Hl]; subst.
  unfold ewm_mean_last in H12, H26. rewrite Hx in H12, H26.
  rewrite (ewm_fold_constant _ c _ Hl) in H12.
  rewrite (ewm_fold_constant _ c _ Hl) in H26.
  inversion H12. inversion H26. subst.
  eexists. split; [exact Hrun|]. cbn. f_equal. lra.
Qed.

(** The flat history. *)
Lemma X5_macd_of_a_flat_history_witness :
  Forall (fun x => x = Fin 50) (col_close Examples.flat_history) /\
  [Examples.flat_row (add_days Examples.friday (-1)) 50;
   Examples.flat_row Examples.friday 50] <> [] /\
  (2 <= length (prices (Examples.batch2 50 51)))%nat /\
  exists t,
    analyze_trend exact_lstsq (Some Examples.flat_history)
      (Some (Examples.batch2 50 51))
    = Ok t /\
    macd t = Fin 0.
Proof.
  assert (H1 : Forall (fun x => x = Fin 50) (col_close Examples.flat_history))
    by (repeat constructor).
  assert (H2 : [Examples.flat_row (add_days Examples.friday (-1)) 50;
                Examples.flat_row Examples.friday 50] <> [])
    by discriminate.
  assert (H3 : (2 <= length (prices (Examples.batch2 50 51)))%nat)
    by (cbn; lia).
  split; [exact H1|]. split; [exact H2|]. split; [exact H3|].
  exact (X5_macd_of_a_flat_history exact_lstsq
           (Examples.flat_row (add_days Examples.friday (-2)) 50)
           [Examples.flat_row (add_days Examples.friday (-1)) 50;
            Examples.flat_row Examples.friday 50]
           (Examples.batch2 50 51) 50 H1 H2 H3).
Defined.

(** ** [generate_predictions]: degenerate histories, the generator, the
       horizon *)

Lemma fadd_nan_r (a : float) : (a + NaN)%fl = NaN.
Proof. destruct a; reflexivity. Qed.

Lemma fmul_nan_r (a : float) : (a * NaN)%fl = NaN.
Proof. destruct a; reflexivity. Qed.

Lemma fsub_nan_r (a : float) : (a - NaN)%fl = NaN.
Proof. destruct a; reflexivity. Qed.

Lemma fdiv_nan_r (a : float) : (a / NaN)%fl = NaN.
Proof. destruct a; reflexivity. Qed.

Lemma nth_all_repeat {A : Type} (d : A) (l : list A) (n : nat) :
  length l = n -> (forall k, (k < n)%nat -> nth k l d = d) -> l = repeat d n.
Proof.
  revert n. induction l as [|x l IH]; intros n Hlen Hnth; subst n.
  - reflexivity.
  - cbn [length repeat]. f_equal.
    + apply (Hnth 0%nat). cbn. lia.
    + apply IH; [reflexivity|]. intros k Hk. apply (Hnth (S k)). cbn. lia.
Qed.

(** With fewer than two percentage changes the sample standard deviation
    does not exist. *)
Lemma short_history_volatility (r : Row) (df : DataFrame) :
  (length df <= 1)%nat ->
  volatility (history_stats (r :: df)) = NaN.
Proof.
  intros Hlen. unfold history_stats. cbn [volatility].
  destruct df as [|r2 [|r3 df]]; [| |cbn in Hlen; lia].
  - unfold series_std, pct_change, shift1, col_close. cbn [map combine fst snd].
    rewrite fdiv_nan_r. reflexivity.
  - unfold series_std, pct_change, shift1, col_close.
    cbn [map combine fst snd removelast]. rewrite fdiv_nan_r.
    cbn [fsub fopp fadd dropna filter isnan negb].
    destruct (negb (isnan (close r2 / close r - Fin 1)%fl)) eqn:E;
      cbn [filter]; rewrite ?E; reflexivity.
Qed.

(** X6.  A history of one or two rows gives no sample standard deviation of
    the returns ([nan]), and every predicted close, percentage change, open,
    high and low is then [nan], whatever the current price and the
    deviates. *)
Theorem X6_short_history_predicts_nan (r : Row) (df : DataFrame) (cp : float)
    (days : Z) (g : rng) :
  (length df <= 1)%nat ->
  exists b g',
    generate_predictions (Some (r :: df)) cp days g = (Ok b, g') /\
    prices b = repeat NaN (Z.to_nat days) /\
    percentage_changes b = repeat NaN (Z.to_nat days) /\
    open_prices b = repeat NaN (Z.to_nat days) /\
    high_prices b = repeat NaN (Z.to_nat days) /\
    low_prices b = repeat NaN (Z.to_nat days).
Proof.
  intros Hlen.
  destruct (generate_predictions_runs r df cp days g)
    as (b & Hrun & (L1 & L2 & L3 & L4 & L5) & Hpts).
  pose proof (short_history_volatility r df Hlen) as Hvol.
  assert (Hall : forall k, (k < Z.to_nat days)%nat ->
            nth k (prices b) NaN = NaN /\
            nth k (percentage_changes b) NaN = NaN /\
            nth k (open_prices b) NaN = NaN /\
            nth k (high_prices b) NaN = NaN /\
            nth k (low_prices b) NaN = NaN).
  { intros k Hk. destruct (Hpts k Hk) as (P1 & P2 & P3 & P4 & P5).
    assert (Hdr : daily_return_at (history_stats (r :: df)) g k = NaN).
    { unfold daily_return_at, deviate. rewrite Hvol. cbn [fmul].
      apply fadd_nan_r. }
    rewrite Hdr in P1, P2. rewrite fadd_nan_r, fmul_nan_r in P1.
    cbn [fmul] in P2. rewrite Hvol in P3.
    cbn [fdiv fmul] in P3. rewrite !fadd_nan_r, fmul_nan_r in P3.
    unfold price_range_at in P4, P5. rewrite P1, P3 in P4, P5.
    cbn in P4, P5. repeat split; assumption. }
  exists b. eexists. split; [exact Hrun|].
  repeat split; apply nth_all_repeat; try assumption; intros k Hk;
    apply (Hall k Hk).
Qed.

(** Two rows, five days. *)
Lemma X6_short_history_predicts_nan_witness :
  (length [Examples.flat_row Examples.friday 2] <= 1)%nat /\
  exists b g',
    generate_predictions (Some Examples.short_history) (Fin 2) 5
      Examples.zero_rng = (Ok b, g') /\
    prices b = [NaN; NaN; NaN; NaN; NaN].
Proof.
  assert (H1 : (length [Examples.flat_row Examples.friday 2] <= 1)%nat)
    by (cbn; lia).
  split; [exact H1|].
  destruct (X6_short_history_predicts_nan
              (Examples.flat_row (add_days Examples.friday (-1)) 1)
              [Examples.flat_row Examples.friday 2] (Fin 2) 5
              Examples.zero_rng H1)
    as (b & g' & Hrun & Hp & _).
  exists b, g'. split; [exact Hrun | exact Hp].
Defined.

Lemma batch_length_0 (b : Batch) : batch_length b 0 -> b = empty_batch.
Proof.
  destruct b as [p c o h l]. unfold batch_length. cbn.
  intros (H1 & H2 & H3 & H4 & H5).
  apply length_zero_iff_nil in H1, H2, H3, H4, H5. subst. reflexivity.
Qed.

(** X7.  On a non-empty history [generate_predictions] never raises and
    takes exactly three deviates from the generator for each simulated day;
    for [days <= 0] the loop does not run: the batch is empty and the
    generator is left as it was. *)
Theorem X7_three_deviates_per_day (r : Row) (df : DataFrame) (cp : float)
    (days : Z) (g : rng) :
  exists b g',
    generate_predictions (Some (r :: df)) cp days g = (Ok b, g') /\
    draws g' = draws g /\
    Z.of_nat (pos g') = (3 * Z.max days 0 + Z.of_nat (pos g))%Z /\
    ((days <= 0)%Z -> b = empty_batch /\ g' = g).
Proof.
  destruct (generate_predictions_runs r df cp days g)
    as (b & Hrun & Hlen & _).
  exists b. eexists. split; [exact Hrun|]. cbn [draws pos].
  split; [reflexivity|]. split; [lia|].
  intros Hd. replace (Z.to_nat days) with 0%nat in * by lia.
  split; [apply batch_length_0; exact Hlen|]. destruct g; reflexivity.
Qed.

Lemma nth_firstn_lt {A : Type} (n k : nat) (l : list A) (d : A) :
  (k < n)%nat -> nth k (firstn n l) d = nth k l d.
Proof.
  revert k l. induction n as [|n IH]; intros k l Hk; [lia|].
  destruct l as [|x l]; [destruct k; reflexivity|].
  destruct k as [|k]; [reflexivity|]. cbn. apply IH. lia.
Qed.

Lemma eq_firstn_of_nth {A : Type} (d : A) (l1 l2 : list A) (n : nat) :
  length l1 = n -> (n <= length l2)%nat ->
  (forall k, (k < n)%nat -> nth k l1 d = nth k l2 d) ->
  l1 = firstn n l2.
Proof.
  intros H1 H2 Hnth. apply (nth_ext _ _ d d).
  - rewrite length_firstn. lia.
  - intros k Hk. rewrite nth_firstn_lt by lia. apply Hnth. lia.
Qed.

(** Two batches simulated from the same history, price and generator agree
    on the points both have. *)
Lemma points_agree (s : Stats) (g : rng) (cp : float) (b1 b2 : Batch)
    (n : nat) :
  (forall k, (k < n)%nat -> point_computed s g cp b1 k) ->
  (forall k, (k < n)%nat -> point_computed s g cp b2 k) ->
  forall k, (k < n)%nat ->
    nth k (prices b1) NaN = nth k (prices b2) NaN /\
    nth k (percentage_changes b1) NaN = nth k (percentage_changes b2) NaN /\
    nth k (open_prices b1) NaN = nth k (open_prices b2) NaN /\
    nth k (high_prices b1) NaN = nth k (high_prices b2) NaN /\
    nth k (low_prices b1) NaN = nth k (low_prices b2) NaN.
Proof.
  intros H1 H2.
  assert (Hprev : forall k, (k < n)%nat ->
            prev_close cp b1 k = prev_close cp b2 k /\
            nth k (prices b1) NaN = nth k (prices b2) NaN).
  { induction k as [|k IH]; intros Hk.
    - destruct (H1 0%nat Hk) as (P1 & _). destruct (H2 0%nat Hk) as (Q1 & _).
      split; [reflexivity|]. rewrite P1, Q1. reflexivity.
    - destruct (IH ltac:(lia)) as [_ Hp].
      destruct (H1 (S k) Hk) as (P1 & _). destruct (H2 (S k) Hk) as (Q1 & _).
      assert (Hpc : prev_close cp b1 (S k) = prev_close cp b2 (S k))
        by exact Hp.
      split; [exact Hpc|]. rewrite P1, Q1, Hpc. reflexivity. }
  intros k Hk. destruct (Hprev k Hk) as [Hpc Hp].
  destruct (H1 k Hk) as (_ & P2 & P3 & P4 & P5).
  destruct (H2 k Hk) as (_ & Q2 & Q3 & Q4 & Q5).
  assert (Ho : nth k (open_prices b1) NaN = nth k (open_prices b2) NaN)
    by (rewrite P3, Q3, Hpc; reflexivity).
  split; [exact Hp|]. split; [rewrite P2, Q2; reflexivity|].
  split; [exact Ho|].
  unfold price_range_at in *.
  split; [rewrite P4, Q4, Hp, Ho | rewrite P5, Q5, Hp, Ho]; reflexivity.
Qed.

(** X8.  With the same history, current price and generator state, the
    batch for a shorter horizon is the beginning of the batch for a longer
    one: asking for more days adds points and changes none. *)
Theorem X8_longer_horizon_extends_shorter (r : Row) (df : DataFrame)
    (cp : float) (d1 d2 : Z) (g : rng) :
  (d1 <= d2)%Z ->
  exists b1 g1 b2 g2,
    generate_predictions (Some (r :: df)) cp d1 g = (Ok b1, g1) /\
    generate_predictions (Some (r :: df)) cp d2 g = (Ok b2, g2) /\
    prices b1 = firstn (Z.to_nat d1) (prices b2) /\
    percentage_changes b1 = firstn (Z.to_nat d1) (percentage_changes b2) /\
    open_prices b1 = firstn (Z.to_nat d1) (open_prices b2) /\
    high_prices b1 = firstn (Z.to_nat d1) (high_prices b2) /\
    low_prices b1 = firstn (Z.to_nat d1) (low_prices b2).
Proof.
  intros Hd.
  destruct (generate_predictions_runs r df cp d1 g)
    as (b1 & Hrun1 & (L1 & L2 & L3 & L4 & L5) & Hpts1).
  destruct (generate_predictions_runs r df cp d2 g)
    as (b2 & Hrun2 & (M1 & M2 & M3 & M4 & M5) & Hpts2).
  assert (Hle : (Z.to_nat d1 <= Z.to_nat d2)%nat) by lia.
  pose proof (points_agree (history_stats (r :: df)) g cp b1 b2 (Z.to_nat d1)
                Hpts1 (fun k Hk => Hpts2 k ltac:(lia))) as Hagree.
  exists b1. eexists. exists b2. eexists.
  split; [exact Hrun1|]. split; [exact Hrun2|].
  repeat split; apply (eq_firstn_of_nth NaN); try assumption; try lia;
    intros k Hk; apply (Hagree k Hk).
Qed.

(** Two days are the beginning of five days. *)
Lemma X8_longer_horizon_extends_shorter_witness :
  (2 <= 5)%Z /\
  exists b1 g1 b2 g2,
    generate_predictions (Some Examples.flat_history) (Fin 50) 2
      Examples.zero_rng = (Ok b1, g1) /\
    generate_predictions (Some Examples.flat_history) (Fin 50) 5
      Examples.zero_rng = (Ok b2, g2) /\
    prices b1 = firstn 2 (prices b2).
Proof.
  assert (H1 : (2 <= 5)%Z) by lia.
  split; [exact H1|].
  destruct (X8_longer_horizon_extends_shorter
              (Examples.flat_row (add_days Examples.friday (-2)) 50)
              [Examples.flat_row (add_days Examples.friday (-1)) 50;
               Examples.flat_row Examples.friday 50]
              (Fin 50) 2 5 Examples.zero_rng H1)
    as (b1 & g1 & b2 & g2 & Hrun1 & Hrun2 & Hp & _).
  exists b1, g1, b2, g2. split; [exact Hrun1|]. split; [exact Hrun2|].
  exact Hp.
Defined.

(** X9.  When every normal deviate drawn for the daily return is 0 and the
    mean return [mu] and the volatility of the history are finite, the
    predicted closes grow from the current price [c] at the constant rate
    [mu]: the close of day [k] (counted from 0) is [c (1 + mu)^(k + 1)] and
    every percentage change is [100 mu]. *)
Theorem X9_zero_deviates_give_geometric_closes (r : Row) (df : DataFrame)
    (c mu sigma : R) (days : Z) (g : rng) :
  mean_return (history_stats (r :: df)) = Fin mu ->
  volatility (history_stats (r :: df)) = Fin sigma ->
  (forall k, draws g (pos g + 3 * k + 0) = 0) ->
  exists b g',
    generate_predictions (Some (r :: df)) (Fin c) days g = (Ok b, g') /\
    forall k, (Z.of_nat k < days)%Z ->
      nth k (prices b) NaN = Fin (c * (1 + mu) ^ S k) /\
      nth k (percentage_changes b) NaN = Fin (mu * 100).
Proof.
  intros Hmu Hsigma Hz.
  destruct (generate_predictions_runs r df (Fin c) days g)
    as (b & Hrun & _ & Hpts).
  exists b. eexists. split; [exact Hrun|].
  assert (Hdr : forall k,
            daily_return_at (history_stats (r :: df)) g k = Fin mu).
  { intros k. unfold daily_return_at, deviate. rewrite Hmu, Hsigma, Hz.
    cbn. f_equal. lra. }
  assert (Hclose : forall k, (Z.of_nat k < days)%Z ->
            nth k (prices b) NaN = Fin (c * (1 + mu) ^ S k)).
  { induction k as [|k IH]; intros Hk.
    - destruct (Hpts 0%nat ltac:(lia)) as (P1 & _).
      rewrite P1, Hdr. cbn. f_equal. lra.
    - destruct (Hpts (S k) ltac:(lia)) as (P1 & _).
      rewrite P1, Hdr. cbn [prev_close]. rewrite IH by lia.
      cbn [of_Z fadd fmul]. f_equal. cbn [pow]. ring. }
  intros k Hk. split; [apply Hclose; exact Hk|].
  destruct (Hpts k ltac:(lia)) as (_ & P2 & _). rewrite P2, Hdr. reflexivity.
Qed.

(** The flat history has mean return and volatility 0: with all deviates 0
    the price stays at 50. *)
Lemma X9_zero_deviates_give_geometric_closes_witness :
  mean_return (history_stats Examples.flat_history) = Fin 0 /\
  volatility (history_stats Examples.flat_history) = Fin 0 /\
  (forall k, draws Examples.zero_rng (pos Examples.zero_rng + 3 * k + 0) = 0) /\
  exists b g',
    generate_predictions (Some Examples.flat_history) (Fin 50) 3
      Examples.zero_rng = (Ok b, g') /\
    nth 2 (prices b) NaN = Fin (50 * (1 + 0) ^ 3).
Proof.
  assert (H1 : mean_return (history_stats Examples.flat_history) = Fin 0)
    by (rewrite flat_history_stats; reflexivity).
  assert (H2 : volatility (history_stats Examples.flat_history) = Fin 0)
    by (rewrite flat_history_stats; reflexivity).
  assert (H3 : forall k,
             draws Examples.zero_rng (pos Examples.zero_rng + 3 * k + 0) = 0)
    by (intros k; reflexivity).
  split; [exact H1|]. split; [exact H2|]. split; [exact H3|].
  destruct (X9_zero_deviates_give_geometric_closes
              (Examples.flat_row (add_days Examples.friday (-2)) 50)
              [Examples.flat_row (add_days Examples.friday (-1)) 50;
               Examples.flat_row Examples.friday 50]
              50 0 0 3 Examples.zero_rng H1 H2 H3)
    as (b & g' & Hrun & Hpts).
  exists b, g'. split; [exact Hrun|].
  apply (Hpts 2%nat). lia.
Defined.

(** ** The facade: fetching, generating, combining *)

Lemma get_historical_data_miss (a : Analyzer) :
  historical_data_cache a = None ->
  exists a',
    get_historical_data a = (Ok (history_feed a (history_calls a)), a') /\
    historical_data_cache a' = history_feed a (history_calls a) /\
    history_calls a' = S (history_calls a) /\
    history_feed a' = history_feed a.
Proof.
  intros Hc. unfold get_historical_data. rewrite Hc.
  eexists. split; [reflexivity|]. cbn. repeat split.
Qed.

Lemma get_historical_data_cached (a : Analyzer) (df : DataFrame) :
  historical_data_cache a = Some df ->
  get_historical_data a = (Ok (Some df), a).
Proof.
  intros Hc. unfold get_historical_data. rewrite Hc. reflexivity.
Qed.

(** X10.  [get_historical_data] asks the fetcher again at every call as
    long as the fetcher answers [None]; the first answer that is a frame,
    the empty frame included, is kept: every later call returns it and the
    fetcher is not asked again. *)
Theorem X10_history_fetched_until_a_frame_arrives (m : nat) (df : DataFrame) :
  forall a : Analyzer,
    historical_data_cache a = None ->
    (forall i, (i < m)%nat -> history_feed a (history_calls a + i) = None) ->
    history_feed a (history_calls a + m) = Some df ->
    exists a1,
      Nat.iter (S m) (fun s => snd (get_historical_data s)) a = a1 /\
      historical_data_cache a1 = Some df /\
      history_calls a1 = (history_calls a + S m)%nat /\
      forall n,
        Nat.iter n (fun s => snd (get_historical_data s)) a1 = a1 /\
        get_historical_data a1 = (Ok (Some df), a1).
Proof.
  induction m as [|m IH]; intros a Hc Hnone Hsome.
  - destruct (get_historical_data_miss a Hc) as (a' & Hrun & Hc' & Hn' & _).
    rewrite Nat.add_0_r in Hsome. rewrite Hsome in Hc'.
    exists a'. cbn [Nat.iter nat_rect]. rewrite Hrun. cbn [snd].
    split; [reflexivity|]. split; [exact Hc'|]. split; [lia|].
    pose proof (get_historical_data_cached a' df Hc') as Hhit.
    intros n. split; [|exact Hhit].
    induction n as [|n IHn]; [reflexivity|].
    rewrite Nat.iter_succ, IHn, Hhit. reflexivity.
  - destruct (get_historical_data_miss a Hc) as (a' & Hrun & Hc' & Hn' & Hf').
    assert (H0 : history_feed a (history_calls a) = None).
    { rewrite <- (Nat.add_0_r (history_calls a)). apply Hnone. lia. }
    rewrite H0 in Hc', Hrun.
    destruct (IH a' Hc') as (a1 & Hiter & Hc1 & Hn1 & Hrest).
    + intros i Hi. rewrite Hf', Hn'.
      replace (S (history_calls a) + i)%nat with (history_calls a + S i)%nat
        by lia.
      apply Hnone. lia.
    + rewrite Hf', Hn'.
      replace (S (history_calls a) + m)%nat with (history_calls a + S m)%nat
        by lia.
      exact Hsome.
    + exists a1. split; [|split; [exact Hc1|split; [lia|exact Hrest]]].
      rewrite Nat.iter_succ_r, Hrun. exact Hiter.
Qed.

(** One failed fetch, then the empty frame: it is kept. *)
Lemma X10_history_fetched_until_a_frame_arrives_witness :
  historical_data_cache MoreExamples.retry_analyzer = None /\
  (forall i, (i < 1)%nat ->
     history_feed MoreExamples.retry_analyzer
       (history_calls MoreExamples.retry_analyzer + i) = None) /\
  history_feed MoreExamples.retry_analyzer
    (history_calls MoreExamples.retry_analyzer + 1) = Some [] /\
  exists a1,
    Nat.iter 2 (fun s => snd (get_historical_data s))
      MoreExamples.retry_analyzer = a1 /\
    historical_data_cache a1 = Some [] /\
    history_calls a1 = 2%nat.
Proof.
  assert (H1 : historical_data_cache MoreExamples.retry_analyzer = None)
    by reflexivity.
  assert (H2 : forall i, (i < 1)%nat ->
             history_feed MoreExamples.retry_analyzer
               (history_calls MoreExamples.retry_analyzer + i) = None).
  { intros i Hi. destruct i; [reflexivity | lia]. }
  assert (H3 : history_feed MoreExamples.retry_analyzer
                 (history_calls MoreExamples.retry_analyzer + 1) = Some [])
    by reflexivity.
  split; [exact H1|]. split; [exact H2|]. split; [exact H3|].
  destruct (X10_history_fetched_until_a_frame_arrives 1 []
              MoreExamples.retry_analyzer H1 H2 H3)
    as (a1 & Hiter & Hc & Hn & _).
  exists a1. split; [exact Hiter|]. split; [exact Hc | exact Hn].
Defined.

Lemma get_historical_data_keeps (a : Analyzer) r a' :
  get_historical_data a = (r, a') ->
  generator a' = generator a /\
  real_time_data_cache a' = real_time_data_cache a /\
  quote_feed a' = quote_feed a /\ quote_calls a' = quote_calls a.
Proof.
  unfold get_historical_data.
  destruct (historical_data_cache a); intros H; inversion H; subst;
    cbn; repeat split.
Qed.

Lemma get_real_time_data_keeps (a : Analyzer) r a' :
  get_real_time_data a = (r, a') ->
  generator a' = generator a /\
  history_feed a' = history_feed a /\ history_calls a' = history_calls a.
Proof.
  unfold get_real_time_data.
  destruct (real_time_data_cache a); intros H; inversion H; subst;
    cbn; repeat split.
Qed.

(** A call of [get_predictive_data] that misses the cache, finds a non-empty
    history and a quote: the batch is generated from the quote's price and
    stored. *)
Lemma get_predictive_data_generates (a a1 a2 : Analyzer) (days : Z)
    (r : Row) (df : DataFrame) (q : Quote) :
  regenerate (predictive_data_cache a) days = true ->
  get_historical_data a = (Ok (Some (r :: df)), a1) ->
  get_real_time_data a1 = (Ok (Some q), a2) ->
  exists b a3,
    get_predictive_data days a = (Ok (Some b), a3) /\
    generate_predictions (Some (r :: df)) (price q) days (generator a)
    = (Ok b, generator a3) /\
    batch_length b (Z.to_nat days) /\
    predictive_data_cache a3 = Some b /\
    generate_log a3 = days :: generate_log a /\
    historical_data_cache a3 = Some (r :: df) /\
    real_time_data_cache a3 = real_time_data_cache a2 /\
    symbol a3 = symbol a /\ clock a3 = clock a.
Proof.
  intros Hreg Hh Hq.
  destruct (get_historical_data_log _ _ _ Hh)
    as (Hl1 & Hs1 & Hp1 & Hc1 & [h [Hh' Hhc]]).
  inversion Hh'. subst h.
  destruct (get_historical_data_keeps _ _ _ Hh) as (Hg1 & _).
  destruct (get_real_time_data_log _ _ _ Hq)
    as (Hl2 & Hs2 & Hp2 & Hhc2 & Hc2 & _).
  destruct (get_real_time_data_keeps _ _ _ Hq) as (Hg2 & _).
  destruct (generate_predictions_runs r df (price q) days (generator a2))
    as (b & Hgen & Hlen & _).
  unfold get_predictive_data. unfold_monad. rewrite Hreg, Hh.
  cbn [df_empty negb]. rewrite Hq. cbv beta iota.
  unfold store_predictions, ret. cbv beta iota. rewrite Hgen.
  cbn [predictive_data_cache].
  exists b. eexists. split; [reflexivity|]. cbn.
  rewrite <- Hg1, <- Hg2. split; [exact Hgen|]. split; [exact Hlen|].
  repeat split; congruence.
Qed.

(** X11.  When the cache holds no batch of [days] points, the history is
    available and non-empty and a quote is available, [get_predictive_data]
    generates a batch from the quote's price, with exactly [days] points for
    [days >= 0], stores it and records the call; an immediately repeated
    call returns the same batch and changes nothing. *)
Theorem X11_predictions_generated_then_reused (a a1 a2 : Analyzer) (days : Z)
    (r : Row) (df : DataFrame) (q : Quote) :
  regenerate (predictive_data_cache a) days = true ->
  get_historical_data a = (Ok (Some (r :: df)), a1) ->
  get_real_time_data a1 = (Ok (Some q), a2) ->
  (0 <= days)%Z ->
  exists b a3,
    get_predictive_data days a = (Ok (Some b), a3) /\
    generate_predictions (Some (r :: df)) (price q) days (generator a)
    = (Ok b, generator a3) /\
    Z.of_nat (length (prices b)) = days /\
    predictive_data_cache a3 = Some b /\
    generate_log a3 = days :: generate_log a /\
    get_predictive_data days a3 = (Ok (Some b), a3).
Proof.
  intros Hreg Hh Hq Hd.
  destruct (get_predictive_data_generates a a1 a2 days r df q Hreg Hh Hq)
    as (b & a3 & Hrun & Hgen & (L1 & _) & Hc & Hl & _).
  assert (Hlen : Z.of_nat (length (prices b)) = days) by lia.
  exists b, a3. repeat split; try assumption.
  apply get_predictive_data_hit; assumption.
Qed.

(** A new analyzer, five days. *)
Lemma X11_predictions_generated_then_reused_witness :
  regenerate (predictive_data_cache (MoreExamples.cold_analyzer "AAPL")) 5
  = true /\
  (0 <= 5)%Z /\
  exists b a3,
    get_predictive_data 5 (MoreExamples.cold_analyzer "AAPL")
    = (Ok (Some b), a3) /\
    Z.of_nat (length (prices b)) = 5%Z /\
    generate_log a3 = [5%Z].
Proof.
  assert (H1 : regenerate
                 (predictive_data_cache (MoreExamples.cold_analyzer "AAPL")) 5
               = true) by reflexivity.
  assert (H2 : (0 <= 5)%Z) by lia.
  split; [exact H1|]. split; [exact H2|].
  destruct (X11_predictions_generated_then_reused
              (MoreExamples.cold_analyzer "AAPL") _ _ 5
              (Examples.flat_row (add_days Examples.friday (-2)) 50)
              [Examples.flat_row (add_days Examples.friday (-1)) 50;
               Examples.flat_row Examples.friday 50]
              MoreExamples.quote50 H1 eq_refl eq_refl H2)
    as (b & a3 & Hrun & _ & Hlen & _ & Hlog & _).
  exists b, a3. split; [exact Hrun|]. split; [exact Hlen | exact Hlog].
Defined.

(** X12.  When the cache holds no batch of [days] points and the history is
    available and non-empty but the quote is not (the fetcher answers
    [None]), [get_predictive_data] raises [TypeError] at
    [real_time_data['price']]: nothing is generated or stored, and
    [get_trend_analysis] raises in the same way. *)
Theorem X12_missing_quote_raises (lstsq : solver) (a a1 a2 : Analyzer)
    (days : Z) (r : Row) (df : DataFrame) :
  regenerate (predictive_data_cache a) days = true ->
  get_historical_data a = (Ok (Some (r :: df)), a1) ->
  get_real_time_data a1 = (Ok None, a2) ->
  get_predictive_data days a = (Raise TypeError, a2) /\
  predictive_data_cache a2 = predictive_data_cache a /\
  generate_log a2 = generate_log a /\
  generator a2 = generator a /\
  get_trend_analysis lstsq days a = (Raise TypeError, a2).
Proof.
  intros Hreg Hh Hq.
  destruct (get_historical_data_log _ _ _ Hh)
    as (Hl1 & _ & Hp1 & _ & [h [Hh' Hhc]]).
  inversion Hh'. subst h.
  destruct (get_historical_data_keeps _ _ _ Hh) as (Hg1 & _).
  destruct (get_real_time_data_log _ _ _ Hq) as (Hl2 & _ & Hp2 & _).
  destruct (get_real_time_data_keeps _ _ _ Hq) as (Hg2 & _).
  assert (Hmiss : forall s s1,
            regenerate (predictive_data_cache s) days = true ->
            get_historical_data s = (Ok (Some (r :: df)), s1) ->
            get_real_time_data s1 = (Ok None, a2) ->
            get_predictive_data days s = (Raise TypeError, a2)).
  { intros s s1 Hr H1 H2. unfold get_predictive_data. unfold_monad.
    rewrite Hr, H1. cbn [df_empty negb]. rewrite H2. reflexivity. }
  split; [apply (Hmiss a a1); assumption|].
  split; [congruence|]. split; [congruence|]. split; [congruence|].
  unfold get_trend_analysis, bindS. rewrite Hh.
  rewrite (Hmiss a1 a1); [reflexivity | congruence | | exact Hq].
  apply get_historical_data_cached. symmetry. assumption.
Qed.

(** History available, quote not. *)
Lemma X12_missing_quote_raises_witness :
  regenerate (predictive_data_cache MoreExamples.no_quote_analyzer) 5 = true /\
  exists a2,
    get_predictive_data 5 MoreExamples.no_quote_analyzer
    = (Raise TypeError, a2) /\
    get_trend_analysis exact_lstsq 5 MoreExamples.no_quote_analyzer
    = (Raise TypeError, a2).
Proof.
  assert (H1 : regenerate
                 (predictive_data_cache MoreExamples.no_quote_analyzer) 5
               = true) by reflexivity.
  split; [exact H1|]. eexists.
  pose proof (X12_missing_quote_raises exact_lstsq
                MoreExamples.no_quote_analyzer _ _ 5
                (Examples.flat_row (add_days Examples.friday (-2)) 50)
                [Examples.flat_row (add_days Examples.friday (-1)) 50;
                 Examples.flat_row Examples.friday 50]
                H1 eq_refl eq_refl) as (Hp & _ & _ & _ & Ht).
  split; [exact Hp | exact Ht].
Defined.

(** X13.  With the history cached and a batch of [days] points cached,
    [get_trend_analysis(days)] is [analyze_trend] of exactly that history
    and that batch, and it changes nothing: no fetch, no new simulation. *)
Theorem X13_trend_of_the_cached_batch (lstsq : solver) (a : Analyzer)
    (days : Z) (df : DataFrame) (b : Batch) :
  historical_data_cache a = Some df ->
  predictive_data_cache a = Some b ->
  Z.of_nat (length (prices b)) = days ->
  get_trend_analysis lstsq days a
  = (analyze_trend lstsq (Some df) (Some b), a).
Proof.
  intros Hh Hp Hlen. unfold get_trend_analysis, bindS, lift.
  rewrite (get_historical_data_cached a df Hh).
  rewrite (get_predictive_data_hit a days b Hp Hlen). reflexivity.
Qed.

(** The analyzer that holds the flat history and two points. *)
Lemma X13_trend_of_the_cached_batch_witness :
  historical_data_cache (Examples.warm_analyzer "AAPL")
  = Some Examples.flat_history /\
  predictive_data_cache (Examples.warm_analyzer "AAPL")
  = Some (Examples.batch2 50 51) /\
  Z.of_nat (length (prices (Examples.batch2 50 51))) = 2%Z /\
  get_trend_analysis exact_lstsq 2 (Examples.warm_analyzer "AAPL")
  = (analyze_trend exact_lstsq (Some Examples.flat_history)
       (Some (Examples.batch2 50 51)),
     Examples.warm_analyzer "AAPL").
Proof.
  repeat (split; [reflexivity|]).
  exact (X13_trend_of_the_cached_batch exact_lstsq
           (Examples.warm_analyzer "AAPL") 2
           Examples.flat_history (Examples.batch2 50 51)
           eq_refl eq_refl eq_refl).
Defined.

(** X16.  A trend analysis for a single day of prediction raises: when the
    cache holds no batch of one point, the history is available and
    non-empty and a quote is available, [get_trend_analysis(1)] generates
    and stores a batch of one point and then raises [LinAlgError], because
    [np.polyfit] is given the single predicted price (line 51) or, on a
    history of one row, the single close (line 48).  A history of one row
    raises in this way with every non-empty prediction. *)
Theorem X16_one_day_trend_raises (lstsq : solver) (a a1 a2 : Analyzer)
    (r : Row) (df : DataFrame) (q : Quote) :
  regenerate (predictive_data_cache a) 1 = true ->
  get_historical_data a = (Ok (Some (r :: df)), a1) ->
  get_real_time_data a1 = (Ok (Some q), a2) ->
  (exists b a3,
      get_trend_analysis lstsq 1 a = (Raise LinAlgError, a3) /\
      predictive_data_cache a3 = Some b /\
      length (prices b) = 1%nat /\
      analyze_trend lstsq (Some (r :: df)) (Some b) = Raise LinAlgError) /\
  (forall b,
      prices b <> [] ->
      analyze_trend lstsq (Some [r]) (Some b) = Raise LinAlgError).
Proof.
  intros Hreg Hh Hq.
  split; [|intros b Hne; apply analyze_trend_single_row; exact Hne].
  destruct (get_historical_data_log _ _ _ Hh)
    as (_ & _ & Hp1 & _ & [h [Hh' Hhc]]).
  inversion Hh'. subst h.
  assert (Hreg1 : regenerate (predictive_data_cache a1) 1 = true)
    by congruence.
  assert (Hh1 : get_historical_data a1 = (Ok (Some (r :: df)), a1)).
  { apply get_historical_data_cached. symmetry. assumption. }
  destruct (get_predictive_data_generates a1 a1 a2 1 r df q Hreg1 Hh1 Hq)
    as (b & a3 & Hrun & _ & (L1 & _) & Hc & _).
  assert (Hlen : length (prices b) = 1%nat) by (rewrite L1; reflexivity).
  assert (Hraise : analyze_trend lstsq (Some (r :: df)) (Some b)
                   = Raise LinAlgError).
  { destruct (prices b) as [|x [|y l]] eqn:Ep; try discriminate.
    destruct df as [|r' df'].
    - apply analyze_trend_single_row. rewrite Ep. discriminate.
    - apply (analyze_trend_single_point lstsq r (r' :: df') b x);
        [discriminate | exact Ep]. }
  exists b, a3.
  split; [|split; [exact Hc|split; [exact Hlen | exact Hraise]]].
  unfold get_trend_analysis, bindS, lift. rewrite Hh, Hrun, Hraise.
  reflexivity.
Qed.

(** A new analyzer with the flat history and a quote, one day. *)
Lemma X16_one_day_trend_raises_witness :
  regenerate (predictive_data_cache (MoreExamples.cold_analyzer "AAPL")) 1
  = true /\
  exists a3,
    get_trend_analysis exact_lstsq 1 (MoreExamples.cold_analyzer "AAPL")
    = (Raise LinAlgError, a3).
Proof.
  assert (H1 : regenerate
                 (predictive_data_cache (MoreExamples.cold_analyzer "AAPL")) 1
               = true) by reflexivity.
  split; [exact H1|].
  destruct (X16_one_day_trend_raises exact_lstsq
              (MoreExamples.cold_analyzer "AAPL") _ _
              (Examples.flat_row (add_days Examples.friday (-2)) 50)
              [Examples.flat_row (add_days Examples.friday (-1)) 50;
               Examples.flat_row Examples.friday 50]
              MoreExamples.quote50 H1 eq_refl eq_refl)
    as [(b & a3 & Hrun & _) _].
  exists a3. exact Hrun.
Defined.

Lemma zip_rows_ok (n : nat) :
  forall dates o h l c,
    length dates = n -> length o = n -> length h = n -> length l = n ->
    length c = n ->
    exists rows,
      zip_rows dates o h l c = Ok rows /\
      map date rows = dates /\ map open rows = o /\ map high rows = h /\
      map low rows = l /\ map close rows = c.
Proof.
  induction n as [|n IH]; intros dates o h l c Hd Ho Hh Hl Hc.
  - apply length_zero_iff_nil in Hd, Ho, Hh, Hl, Hc. subst.
    exists []. repeat split.
  - destruct dates as [|d dates], o as [|x o], h as [|y h], l as [|z l],
      c as [|w c]; try discriminate.
    destruct (IH dates o h l c) as (rows & Hz & E1 & E2 & E3 & E4 & E5);
      try (cbn in *; lia).
    exists (mk_row d x y z w :: rows). cbn [zip_rows]. rewrite Hz. cbn.
    repeat split; congruence.
Qed.

(** X14.  When the history is available and non-empty, a quote is available
    and the cache holds no batch of [days] points ([days >= 0]),
    [combine_historical_and_predictive] returns the history, every row
    tagged historical and in its order, followed by exactly [days] rows
    tagged predictive that carry, in order, the open, high, low and close of
    the batch just generated and stored; their dates come from the date
    loop started at the last historical date. *)
Theorem X14_combined_frame (a a1 a2 : Analyzer) (days : Z) (hist : list Row)
    (last_row : Row) (q : Quote) :
  regenerate (predictive_data_cache a) days = true ->
  get_historical_data a = (Ok (Some (hist ++ [last_row])), a1) ->
  get_real_time_data a1 = (Ok (Some q), a2) ->
  (0 <= days)%Z ->
  exists b rows a3,
    combine_historical_and_predictive days a
    = (Ok (map (fun r => (r, historical)) (hist ++ [last_row])
           ++ map (fun r => (r, predictive)) rows), a3) /\
    predictive_data_cache a3 = Some b /\
    Z.of_nat (length rows) = days /\
    map open rows = open_prices b /\ map high rows = high_prices b /\
    map low rows = low_prices b /\ map close rows = prices b /\
    map date rows = date_loop (symbol a) (Z.to_nat days) (date last_row) 0 [].
Proof.
  intros Hreg Hh Hq Hd.
  destruct (get_historical_data_log _ _ _ Hh)
    as (_ & Hs1 & Hp1 & _ & [h [Hh' Hhc]]).
  inversion Hh'. subst h.
  assert (Hne : exists r df, hist ++ [last_row] = r :: df).
  { destruct hist as [|r hist']; cbn; eauto. }
  destruct Hne as (r & df & Hrd).
  assert (Hh1 : get_historical_data a1 = (Ok (Some (r :: df)), a1)).
  { apply get_historical_data_cached. rewrite <- Hrd. symmetry. assumption. }
  destruct (get_predictive_data_generates a1 a1 a2 days r df q)
    as (b & a3 & Hrun & _ & (L1 & L2 & L3 & L4 & L5) & Hc & _ & _ & _ & Hs3 & _);
    [congruence | exact Hh1 | exact Hq |].
  destruct (date_loop_chain (symbol a3) (length (prices b)) (date last_row) 0 [])
    as (new & Heq & Hlen & _); [lia|].
  cbn [app] in Heq. rewrite Nat.sub_0_r in Hlen.
  destruct (zip_rows_ok (length (prices b)) new (open_prices b) (high_prices b)
              (low_prices b) (prices b))
    as (rows & Hz & E1 & E2 & E3 & E4 & E5); try lia.
  exists b, rows, a3.
  split.
  - unfold combine_historical_and_predictive. unfold_monad.
    rewrite Hh. cbv beta iota. rewrite Hrun. cbv beta iota.
    rewrite <- map_rev, rev_app_distr. cbn [rev app map].
    cbn [getitem_prices]. rewrite Heq, Hz. reflexivity.
  - split; [exact Hc|].
    assert (Hrows : length rows = length (prices b)).
    { rewrite <- E5. rewrite length_map. reflexivity. }
    split; [lia|]. repeat (split; [assumption|]).
    rewrite E1, <- Heq, Hs3, Hs1, L1. reflexivity.
Qed.

(** A new analyzer for "AAPL", two days after a Friday. *)
Lemma X14_combined_frame_witness :
  regenerate (predictive_data_cache (MoreExamples.cold_analyzer "AAPL")) 2
  = true /\
  (0 <= 2)%Z /\
  exists b rows a3,
    combine_historical_and_predictive 2 (MoreExamples.cold_analyzer "AAPL")
    = (Ok (map (fun r => (r, historical)) Examples.flat_history
           ++ map (fun r => (r, predictive)) rows), a3) /\
    map close rows = prices b /\
    map date rows = [add_days Examples.friday 3; add_days Examples.friday 4].
Proof.
  assert (H1 : regenerate
                 (predictive_data_cache (MoreExamples.cold_analyzer "AAPL")) 2
               = true) by reflexivity.
  assert (H2 : (0 <= 2)%Z) by lia.
  split; [exact H1|]. split; [exact H2|].
  destruct (X14_combined_frame (MoreExamples.cold_analyzer "AAPL") _ _ 2
              [Examples.flat_row (add_days Examples.friday (-2)) 50;
               Examples.flat_row (add_days Examples.friday (-1)) 50]
              (Examples.flat_row Examples.friday 50)
              MoreExamples.quote50 H1 eq_refl eq_refl H2)
    as (b & rows & a3 & Hrun & _ & _ & _ & _ & _ & Hclose & Hdates).
  exists b, rows, a3. split; [exact Hrun|]. split; [exact Hclose|].
  exact Hdates.
Defined.

(** ** The portfolio analysis *)

Section PortfolioProofs.

Import PortfolioAnalyzer PortfolioSpec.

Lemma dict_get_set_same {A : Type} (k : string) (v : A) d :
  dict_get k (dict_set k v d) = Some v.
Proof.
  induction d as [|[k' v'] t IH]; cbn.
  - now rewrite String.eqb_refl.
  - destruct (String.eqb k k') eqn:E; cbn.
    + now rewrite String.eqb_refl.
    + now rewrite E.
Qed.

Lemma dict_get_set_other {A : Type} (k k' : string) (v : A) d :
  k <> k' -> dict_get k (dict_set k' v d) = dict_get k d.
Proof.
  intros Hne. induction d as [|[k'' v''] t IH]; cbn.
  - destruct (String.eqb k k') eqn:E; auto.
    apply String.eqb_eq in E. contradiction.
  - destruct (String.eqb k' k'') eqn:E'; cbn.
    + apply String.eqb_eq in E'. subst k''.
      destruct (String.eqb k k') eqn:E; auto.
      apply String.eqb_eq in E. contradiction.
    + now rewrite IH.
Qed.

(** Whatever the quote, the body of the [try] ends at the quote request or
    at the unbound name: the variables are as before, and of the analyzer
    only the quote cache may differ. *)
Lemma analyze_stock_stops (lstsq : solver) (days : Z) (key : string)
    (a : Analyzer) (v : Vars) :
  exists r a',
    analyze_stock lstsq days key (a, v) = (r, (a', v)) /\
    generator a' = generator a /\
    symbol a' = symbol a /\
    historical_data_cache a' = historical_data_cache a /\
    predictive_data_cache a' = predictive_data_cache a /\
    generate_log a' = generate_log a /\
    history_calls a' = history_calls a.
Proof.
  unfold analyze_stock, pbind, call, get_real_time_data. cbn [fst snd].
  destruct (real_time_data_cache a) as [q|] eqn:Hc.
  - cbn. eexists _, _. split; [reflexivity|]. repeat split.
  - destruct (quote_feed a (quote_calls a)) as [q|]; cbn;
      eexists _, _; (split; [reflexivity|]); cbn; repeat split.
Qed.

Lemma analyze_item_keeps {V K : Type} (lstsq : solver)
    (keys : list (string * K)) (days : Z) (s : Progress) (item : string * V) :
  all_untouched keys (analyzers s) ->
  all_untouched keys (analyzers (analyze_item lstsq days s item)) /\
  random_state (analyze_item lstsq days s item) = random_state s /\
  vars (analyze_item lstsq days s item) = vars s.
Proof.
  intros Hall. unfold analyze_item.
  destruct (dict_get (fst item) (analyzers s)) as [a|] eqn:Hget; [|now auto].
  destruct (analyze_stock_stops lstsq days (fst item)
              (with_generator (random_state s) a) (vars s))
    as (r & a' & Hrun & Hg & Hs & Hh & Hp & Hl & Hc).
  rewrite Hrun. cbn in *. repeat split; auto.
  intros key v Hin. destruct (Hall key v Hin) as (b & Hb & Hu).
  destruct (String.eqb key (fst item)) eqn:E.
  - apply String.eqb_eq in E. subst key.
    exists a'. split; [apply dict_get_set_same|].
    rewrite Hget in Hb. inversion Hb; subst b.
    destruct Hu as (U1 & U2 & U3 & U4 & U5).
    unfold untouched. rewrite Hs, Hh, Hp, Hl, Hc. auto.
  - apply String.eqb_neq in E.
    exists b. split; [|exact Hu].
    rewrite dict_get_set_other; auto.
Qed.

Lemma analyze_items_keep {V K : Type} (lstsq : solver)
    (keys : list (string * K)) (days : Z) (items : list (string * V)) :
  forall s,
    all_untouched keys (analyzers s) ->
    all_untouched keys
      (analyzers (fold_left (analyze_item lstsq days) items s)) /\
    random_state (fold_left (analyze_item lstsq days) items s)
    = random_state s /\
    vars (fold_left (analyze_item lstsq days) items s) = vars s.
Proof.
  induction items as [|item t IH]; intros s Hall; cbn; [now auto|].
  destruct (analyze_item_keeps lstsq keys days s item Hall)
    as (H1 & H2 & H3).
  destruct (IH _ H1) as (I1 & I2 & I3).
  rewrite I2, I3, H2, H3. auto.
Qed.

Lemma new_analyzer_untouched (env : Providers) (g : rng) (key : string) :
  untouched key (new_analyzer env g key).
Proof.
  repeat split.
Qed.

Lemma analyzers_created {V : Type} (env : Providers) (g : rng)
    (items : list (string * V)) :
  forall (keys : list (string * V)) d,
    all_untouched keys d ->
    all_untouched (keys ++ items)
      (fold_left
         (fun d item => dict_set (fst item) (new_analyzer env g (fst item)) d)
         items d).
Proof.
  induction items as [|[k x] t IH]; intros keys d Hall; cbn [fold_left fst].
  - now rewrite app_nil_r.
  - assert (Hnext : all_untouched (keys ++ [(k, x)])
                      (dict_set k (new_analyzer env g k) d)).
    { intros key v Hin.
      destruct (String.eqb key k) eqn:E.
      - apply String.eqb_eq in E. subst key.
        eexists. split; [apply dict_get_set_same|apply new_analyzer_untouched].
      - apply String.eqb_neq in E.
        apply in_app_or in Hin. destruct Hin as [Hin|[Hin|[]]].
        + destruct (Hall key v Hin) as (a & Ha & Hu).
          exists a. split; [|exact Hu]. rewrite dict_get_set_other; auto.
        + inversion Hin. subst. contradiction. }
    specialize (IH _ _ Hnext).
    now rewrite <- app_assoc in IH.
Qed.

Lemma summarize_nothing :
  summarize (mk_vars [] (of_Z 0) (of_Z 0) (mk_per_trend 0%Z 0%Z 0%Z 0%Z))
  = nothing_recorded.
Proof.
  unfold summarize, nothing_recorded, percentage. cbn.
  unfold Rltb. destruct (Rlt_dec 0 0) as [H|H]; [lra|reflexivity].
Qed.

(** X15. [analyze_portfolio] on a non-empty portfolio never raises and
    records no stock, whatever the providers and the solver answer: for a symbol with a
    quote the body of the [try] stops at the unbound name [portfolio_data] of
    line 226, for a symbol without one it does nothing.  So the summary,
    returned and stored, has both totals and the predicted change 0, the
    overall trend sideways, every trend percentage 0 and no stock, the trend
    distribution is three zeros, no random number is drawn, and the analyzer
    made for each symbol has fetched no history and generated no
    prediction. *)
Theorem X15_portfolio_analysis_records_no_stock {V : Type} (lstsq : solver)
    (env : Providers) (days : Z) (p : Portfolio V) :
  portfolio_data p <> [] ->
  exists p',
    analyze_portfolio lstsq env days p = (Some nothing_recorded, p') /\
    portfolio_data p' = portfolio_data p /\
    portfolio_summary p' = Some nothing_recorded /\
    np_random p' = np_random p /\
    get_trend_distribution p' = [Fin 0; Fin 0; Fin 0] /\
    forall key v, In (key, v) (portfolio_data p) ->
      exists a,
        dict_get key (stock_analyzers p') = Some a /\
        symbol a = upper key /\
        historical_data_cache a = None /\
        predictive_data_cache a = None /\
        generate_log a = [].
Proof.
  intros Hne. unfold analyze_portfolio.
  destruct (portfolio_data p) as [|item t] eqn:Hdata; [contradiction|].
  rewrite <- Hdata.
  set (created := fold_left _ (portfolio_data p) (stock_analyzers p)).
  set (start := mk_loop created (np_random p) _).
  assert (Hcreated : all_untouched (portfolio_data p) created).
  { apply (analyzers_created env (np_random p) (portfolio_data p) []
             (stock_analyzers p)).
    intros key v []. }
  destruct (analyze_items_keep lstsq (portfolio_data p) days
              (portfolio_data p) start Hcreated) as (Hall & Hrng & Hvars).
  rewrite Hvars. cbn [vars start]. rewrite summarize_nothing.
  eexists. split; [reflexivity|]. cbn.
  repeat split; auto.
  intros key v Hin. destruct (Hall key v Hin) as (a & Ha & U1 & U2 & U3 & U4 & _).
  exists a. auto.
Qed.

(** Two positions, both with a quote and a history to hand. *)
Lemma X15_portfolio_analysis_records_no_stock_witness :
  portfolio_data two_stocks <> [] /\
  exists p',
    analyze_portfolio exact_lstsq answering 5 two_stocks
    = (Some nothing_recorded, p') /\
    portfolio_data p' = portfolio_data two_stocks /\
    portfolio_summary p' = Some nothing_recorded /\
    np_random p' = np_random two_stocks /\
    get_trend_distribution p' = [Fin 0; Fin 0; Fin 0] /\
    forall key v, In (key, v) (portfolio_data two_stocks) ->
      exists a,
        dict_get key (stock_analyzers p') = Some a /\
        symbol a = upper key /\
        historical_data_cache a = None /\
        predictive_data_cache a = None /\
        generate_log a = [].
Proof.
  split; [discriminate|].
  apply (X15_portfolio_analysis_records_no_stock exact_lstsq answering 5
           two_stocks).
  discriminate.
Defined.

End PortfolioProofs.
